(** * ai-trip-planner: the itinerary generation pipeline and its routes

    A shallow embedding of
    - [lib/ai-orchestrator] ([generateItinerary], [attemptGeneration],
      [generateMockItinerary], [generateMockDays], [calculateDuration]),
    - [app/api/v1/itineraries/generate/route.ts]
      ([generateMockItineraries], [POST], [GET]),
    - the trip routes ([POST] of trip creation, [GET]/[POST] of
      [trips/[tripId]/itineraries/[itineraryType]]),
    followed by the properties of the specification proved about them.

    JavaScript numbers are IEEE 754 binary64 values ([spec_float] at
    precision 53); time values and day counts, which the program only ever
    holds as integers far below 2^53, are kept in [Z]. The quotient of a
    span by the length of a day is then the exact one: the double division
    followed by [Math.ceil] agrees with it for every span of whole days,
    and for any span shorter than 2^26 days. The bound of 8.64e15 ms on a
    time value is not modelled. [getDate] and [setDate] work on the local
    calendar of the host, whose time zone is a parameter of the
    generators. *)

From Stdlib Require Import ZArith String Ascii List Lia.
From Stdlib Require Import Floats.SpecFloat.
From stdpp Require Import base option gmap strings list.

Local Open Scope string_scope.
Local Open Scope Z_scope.

(** ** The JavaScript platform: numbers, [Math], strings, [Date] *)

Module JS.

(** *** Numbers *)

Definition Number := spec_float.

Definition prec : Z := 53.
Definition emax : Z := 1024.

Definition NaN : Number := S754_nan.

(** An integer as a Number (exact below 2^53, rounded to nearest above). *)
Definition of_Z (z : Z) : Number := binary_normalize prec emax z 0 false.

Definition mul (x y : Number) : Number := SFmul prec emax x y.
Definition div (x y : Number) : Number := SFdiv prec emax x y.
Definition add (x y : Number) : Number := SFadd prec emax x y.
Definition sub (x y : Number) : Number := SFsub prec emax x y.

(** A decimal literal [n/d] of the source text, e.g. [0.7] is [lit 7 10]:
    the double nearest to the decimal, which is what the correctly rounded
    quotient of the two (exact) integers is. *)
Definition lit (n d : Z) : Number := div (of_Z n) (of_Z d).

(** An integer-or-NaN, for the counts the program derives from dates. *)
Definition of_count (c : option Z) : Number :=
  match c with Some z => of_Z z | None => NaN end.

(** The integer part towards minus infinity of a finite Number. *)
Definition floorZ (x : Number) : option Z :=
  match x with
  | S754_zero _ => Some 0
  | S754_finite s m e => Some (Z.shiftl (cond_Zopp s (Zpos m)) e)
  | _ => None
  end.

(** [Math.floor]: infinities, NaN and zeros are returned as they are. *)
Definition Math_floor (x : Number) : Number :=
  match x with
  | S754_finite s m e => of_Z (Z.shiftl (cond_Zopp s (Zpos m)) e)
  | _ => x
  end.

(** Truthiness of a Number ([x || y] takes [y] for 0, -0 and NaN). *)
Definition truthy (x : Number) : bool :=
  match x with
  | S754_zero _ | S754_nan => false
  | _ => true
  end.

(** *** Integer helpers for [Math.ceil] and [Math.abs] on time values *)

Definition ceil_div (a b : Z) : Z := - ((- a) / b).

(** *** Strings *)

Definition lower_ascii (c : ascii) : ascii :=
  let n := nat_of_ascii c in
  if (Nat.leb 65 n && Nat.leb n 90)%bool then ascii_of_nat (n + 32) else c.

(** [String.prototype.toLowerCase] on the ASCII letters; other bytes are
    kept. *)
Fixpoint toLowerCase (s : string) : string :=
  match s with
  | EmptyString => EmptyString
  | String c r => String (lower_ascii c) (toLowerCase r)
  end.

Definition digit (n : Z) : ascii := ascii_of_nat (48 + Z.to_nat (n mod 10)).

Definition pad2 (n : Z) : string :=
  String (digit (n / 10)) (String (digit n) EmptyString).
Definition pad3 (n : Z) : string := String (digit (n / 100)) (pad2 n).
Definition pad4 (n : Z) : string := String (digit (n / 1000)) (pad3 n).
Definition pad6 (n : Z) : string :=
  String (digit (n / 100000)) (String (digit (n / 10000)) (pad4 n)).

(** Decimal rendering of a non-negative integer (at most 20 digits, which
    covers every time value). *)
Fixpoint digits_fuel (fuel : nat) (n : Z) (acc : string) : string :=
  match fuel with
  | O => acc
  | S f =>
      let acc' := String (digit n) acc in
      if n / 10 =? 0 then acc' else digits_fuel f (n / 10) acc'
  end.
Definition Z_toString (n : Z) : string :=
  if n <? 0 then "-" ++ digits_fuel 20 (- n) "" else digits_fuel 20 n "".

(** *** Dates

    A valid [Date] is its time value, the milliseconds since the epoch in
    UTC. The civil calendar is the proleptic Gregorian one. *)

Definition msPerDay : Z := 1000 * 60 * 60 * 24.

Definition days_from_civil (y m d : Z) : Z :=
  let y' := if m <=? 2 then y - 1 else y in
  let era := y' / 400 in
  let yoe := y' - era * 400 in
  let doy := (153 * (m + (if 2 <? m then -3 else 9)) + 2) / 5 + d - 1 in
  let doe := yoe * 365 + yoe / 4 - yoe / 100 + doy in
  era * 146097 + doe - 719468.

Definition civil_from_days (z : Z) : Z * Z * Z :=
  let z' := z + 719468 in
  let era := z' / 146097 in
  let doe := z' - era * 146097 in
  let yoe := (doe - doe / 1460 + doe / 36524 - doe / 146096) / 365 in
  let doy := doe - (365 * yoe + yoe / 4 - yoe / 100) in
  let mp := (5 * doy + 2) / 153 in
  let d := doy - (153 * mp + 2) / 5 + 1 in
  let m := if mp <? 10 then mp + 3 else mp - 9 in
  (if m <=? 2 then yoe + era * 400 + 1 else yoe + era * 400, m, d).

Definition year_toString (y : Z) : string :=
  if (0 <=? y) && (y <=? 9999) then pad4 y
  else if y <? 0 then "-" ++ pad6 (- y) else "+" ++ pad6 y.

(** [Date.prototype.toISOString] of a valid time value. *)
Definition toISOString (t : Z) : string :=
  let '(y, m, d) := civil_from_days (t / msPerDay) in
  let r := t mod msPerDay in
  year_toString y ++ "-" ++ pad2 m ++ "-" ++ pad2 d ++ "T"
    ++ pad2 (r / 3600000) ++ ":" ++ pad2 (r / 60000 mod 60) ++ ":"
    ++ pad2 (r / 1000 mod 60) ++ "." ++ pad3 (r mod 1000) ++ "Z".

(** [s.split("T")[0]]: the text before the first ["T"]. *)
Fixpoint split_T_0 (s : string) : string :=
  match s with
  | EmptyString => EmptyString
  | String c r => if Ascii.eqb c "T" then EmptyString else String c (split_T_0 r)
  end.

(** The time zone of the host: the offset of its local time from UTC, in
    milliseconds, at a time value ([LocalTZA(t, true)] of the language
    standard) and at a local time ([LocalTZA(t, false)], which is how
    the host reads a local time back). *)
Record TimeZone : Type := mkTimeZone {
  offset_at : Z -> Z;
  offset_of_local : Z -> Z
}.

(** A host whose local time stays [offset] milliseconds ahead of UTC. *)
Definition fixed_zone (offset : Z) : TimeZone :=
  mkTimeZone (fun _ => offset) (fun _ => offset).

Definition UTC_zone : TimeZone := fixed_zone 0.

(** [d.setDate(d.getDate() + i)] on a valid time value: [getDate] and
    [setDate] work on the local calendar of the host. The day of the
    month of the local time is moved by [i], the calendar carries into
    months and years and the local time of day stays, which is the
    local time moved by [i] whole days; the host then reads the local
    time back as a time value. *)
Definition setDate_plus (host : TimeZone) (t i : Z) : Z :=
  let local := t + offset_at host t in
  let moved := local + i * msPerDay in
  moved - offset_of_local host moved.

(** The ISO date form [YYYY-MM-DD] of the date parser, the one form the
    language standard fixes: UTC midnight of a day of the calendar. *)
Definition digit_val (c : ascii) : option Z :=
  let n := nat_of_ascii c in
  if (Nat.leb 48 n && Nat.leb n 57)%bool then Some (Z.of_nat n - 48) else None.

Fixpoint number_val (acc : Z) (cs : list ascii) : option Z :=
  match cs with
  | [] => Some acc
  | c :: r =>
      match digit_val c with
      | Some v => number_val (10 * acc + v) r
      | None => None
      end
  end.

Definition is_leap (y : Z) : bool :=
  ((y mod 4 =? 0) && negb (y mod 100 =? 0)) || (y mod 400 =? 0).

Definition days_in_month (y m : Z) : Z :=
  if m =? 2 then (if is_leap y then 29 else 28)
  else if (m =? 4) || (m =? 6) || (m =? 9) || (m =? 11) then 30 else 31.

Definition parseISODate (s : string) : option Z :=
  match list_ascii_of_string s with
  | [y1; y2; y3; y4; d1; m1; m2; d2; a1; a2] =>
      if Ascii.eqb d1 "-" && Ascii.eqb d2 "-" then
        match number_val 0 [y1; y2; y3; y4], number_val 0 [m1; m2],
              number_val 0 [a1; a2] with
        | Some y, Some m, Some d =>
            if (1 <=? m) && (m <=? 12) && (1 <=? d) && (d <=? days_in_month y m)
            then Some (days_from_civil y m d * msPerDay) else None
        | _, _, _ => None
        end
      else None
  | _ => None
  end.

(** *** Vocabulary of the properties *)

(** The dates that [n] turns of a generator's loop write from the [i]-th
    on, for a trip that starts at [t]. *)
Definition iso_dates (host : TimeZone) (t i : Z) (n : nat) : list string :=
  (fun k => split_T_0 (toISOString (setDate_plus host t k)))
    <$> seqZ i (Z.of_nat n).

(** The local time of the host keeps its offset from UTC over the [n]
    days from [t] on: no change of the clocks falls into them. *)
Definition steady (host : TimeZone) (t : Z) (n : nat) : Prop :=
  forall k, 0 <= k < Z.of_nat n ->
    offset_of_local host (t + offset_at host t + k * msPerDay)
    = offset_at host t.

(** The state of a right shift by [j] bits of [M]: the quotient, and what
    the round and sticky bits say about the remainder. *)
Definition shifted (M : Z) (j : Z) (mrs : shr_record) : Prop :=
  0 <= shr_m mrs
  /\ exists rho,
       M = shr_m mrs * 2 ^ j + rho
       /\ 0 <= rho < 2 ^ j
       /\ (shr_r mrs = true -> 2 ^ j <= 2 * rho)
       /\ (shr_r mrs = false -> 2 * rho < 2 ^ j)
       /\ (shr_s mrs = false -> 2 * rho = if shr_r mrs then 2 ^ j else 0).

End JS.

(** ** Effects: exceptions and the outside world

    A computation reads the environment, the clock, the random sources and
    the generative model, all of which the world holds as scripts of
    successive answers, and it either completes normally or throws. Console
    logging is left out, and with it the clock readings that only a log
    line shows. *)

Module Eff.
Import JS.

Inductive Completion (A : Type) : Type :=
| Normal (a : A)
| Throw (message : string).
Arguments Normal {A} a.
Arguments Throw {A} message.

Record World : Type := mkWorld {
  GEMINI_API_KEY : option string;            (* process.env.GEMINI_API_KEY *)
  clock : nat -> Z;                          (* Date.now(), new Date() *)
  clock_ix : nat;
  uuids : nat -> string;                     (* uuidv4() *)
  uuid_ix : nat;
  randoms : nat -> Number;                   (* Math.random() *)
  random_ix : nat;
  toString36 : Number -> string;             (* n.toString(36) *)
  gemini : nat -> string -> Number -> Completion string;
                                             (* model.generateContent, then
                                                response.text() *)
  gemini_ix : nat
}.

Definition M (A : Type) : Type := World -> Completion A * World.

Definition ret {A} (a : A) : M A := fun w => (Normal a, w).
Definition throw {A} (e : string) : M A := fun w => (Throw e, w).
Definition bind {A B} (m : M A) (f : A -> M B) : M B :=
  fun w =>
    match m w with
    | (Normal a, w') => f a w'
    | (Throw e, w') => (Throw e, w')
    end.
Definition try_catch {A} (m : M A) (handler : string -> M A) : M A :=
  fun w =>
    match m w with
    | (Normal a, w') => (Normal a, w')
    | (Throw e, w') => handler e w'
    end.
Definition lift {A} (c : Completion A) : M A := fun w => (c, w).

Definition Date_now : M Z :=
  fun w =>
    (Normal (clock w (clock_ix w)),
     mkWorld (GEMINI_API_KEY w) (clock w) (S (clock_ix w)) (uuids w)
       (uuid_ix w) (randoms w) (random_ix w) (toString36 w) (gemini w)
       (gemini_ix w)).

Definition uuidv4 : M string :=
  fun w =>
    (Normal (uuids w (uuid_ix w)),
     mkWorld (GEMINI_API_KEY w) (clock w) (clock_ix w) (uuids w)
       (S (uuid_ix w)) (randoms w) (random_ix w) (toString36 w) (gemini w)
       (gemini_ix w)).

Definition Math_random : M Number :=
  fun w =>
    (Normal (randoms w (random_ix w)),
     mkWorld (GEMINI_API_KEY w) (clock w) (clock_ix w) (uuids w)
       (uuid_ix w) (randoms w) (S (random_ix w)) (toString36 w) (gemini w)
       (gemini_ix w)).

Definition generateContent (prompt : string) (temperature : Number) : M string :=
  fun w =>
    (gemini w (gemini_ix w) prompt temperature,
     mkWorld (GEMINI_API_KEY w) (clock w) (clock_ix w) (uuids w)
       (uuid_ix w) (randoms w) (random_ix w) (toString36 w) (gemini w)
       (S (gemini_ix w))).

Definition env_GEMINI_API_KEY : M (option string) :=
  fun w => (Normal (GEMINI_API_KEY w), w).

Definition Number_toString36 (x : Number) : M string :=
  fun w => (Normal (toString36 w x), w).

(** A computation that always completes normally. *)
Definition total {A} (m : M A) : Prop :=
  forall w, exists a w', m w = (Normal a, w').

End Eff.

Notation "'let*' x ':=' m 'in' k" :=
  (Eff.bind m (fun x => k))
  (at level 10, x pattern, m at level 100, k at level 200).

(** ** The data model of the orchestrator *)

Record TripRequest : Type := mkTripRequest {
  origin : string;
  destination : string;
  start_date : string;
  end_date : string;
  budget_total : JS.Number;
  currency : string;
  preferred_themes : list string;
  num_travelers : JS.Number;
  additional_info : option string
}.

Record Money : Type := mkMoney {
  amount : JS.Number;
  money_currency : string
}.

Record Location : Type := mkLocation {
  loc_name : string;
  lat : JS.Number;
  lng : JS.Number
}.

Record BookingInfo : Type := mkBookingInfo {
  bookable : bool;
  provider : string;
  booking_url : string
}.

Record Activity : Type := mkActivity {
  act_name : string;
  act_type : string;
  act_duration : string;
  act_cost : Money;
  act_location : Location;
  act_booking_info : BookingInfo
}.

Record Accommodation : Type := mkAccommodation {
  acc_name : string;
  acc_type : string;
  acc_cost : Money;
  acc_location : Location;
  acc_booking_info : BookingInfo
}.

Record Meal : Type := mkMeal {
  meal_type : string;
  meal_name : string;
  meal_cost : Money
}.

Record Transportation : Type := mkTransportation {
  tr_type : string;
  tr_cost : Money
}.

Record Day : Type := mkDay {
  day : Z;
  date : string;
  activities : list Activity;
  accommodation : Accommodation;
  meals : list Meal;
  transportation : Transportation;
  daily_cost : Money
}.

Record Itinerary : Type := mkItinerary {
  id : string;
  type : string;
  title : string;
  description : string;
  total_cost : Money;
  days : list Day;
  highlights : list string;
  best_for : list string
}.

Record MockMetadata : Type := mkMockMetadata {
  mm_generated_at : string;
  mm_confidence_score : JS.Number;
  mm_request_id : string;
  mm_model_version : string;
  mm_itinerary_type : string
}.

Record MockItinerary : Type := mkMockItinerary {
  itineraries : list Itinerary;
  metadata : MockMetadata
}.

(** The metadata [generateItinerary] writes over the model's own. *)
Record AiMetadata : Type := mkAiMetadata {
  am_generated_at : string;
  am_request_id : string;
  am_model_version : string;
  am_confidence_score : JS.Number;
  am_processing_time_ms : Z;
  am_api_source : string
}.

(** ** [lib/ai-orchestrator] *)

Module Orchestrator.
Import JS Eff.

(** The result of [validateItinerarySchema]. *)
Record SchemaValidation : Type := mkSchemaValidation {
  sv_success : bool;
  sv_errors : list string
}.

(** *** Text helpers of [attemptGeneration] *)

Definition nl : string := String (ascii_of_nat 10) EmptyString.

Fixpoint last_index_of (c : ascii) (s : string) (pos : nat) (found : option nat)
  : option nat :=
  match s with
  | EmptyString => found
  | String c' r =>
      last_index_of c r (S pos) (if Ascii.eqb c c' then Some pos else found)
  end.

(** [text.match(/```json\n([\s\S]*?)\n```/)]: the first opening fence that
    has a closing one after it, and the nearest such closing fence; the
    pair is the whole match and the group. *)
Definition match_fenced (text : string) : option (string * string) :=
  let fence_open := "```json" ++ nl in
  let fence_close := nl ++ "```" in
  match String.index 0 fence_open text with
  | Some i =>
      let from := (i + String.length fence_open)%nat in
      match String.index from fence_close text with
      | Some j =>
          Some (substring i (j + String.length fence_close - i) text,
                substring from (j - from) text)
      | None => None
      end
  | None => None
  end.

(** [text.match(/\{[\s\S]*\}/)]: from the first opening brace to the last
    closing one. *)
Definition match_braces (text : string) : option string :=
  match String.index 0 "{" text, last_index_of "}" text 0 None with
  | Some i, Some j =>
      if (i <? j)%nat then Some (substring i (j - i + 1) text) else None
  | _, _ => None
  end.

(** [jsonMatch[1] || jsonMatch[0]] of
    [text.match(fenced) || text.match(braces)]. *)
Definition extract_json (text : string) : option string :=
  match match_fenced text with
  | Some (whole, group) =>
      Some (if String.eqb group "" then whole else group)
  | None => match_braces text
  end.

Definition string_truthy (s : option string) : bool :=
  match s with
  | Some s => negb (String.eqb s "")
  | None => false
  end.

(** *** Durations *)

Section Pipeline.
(** [new Date(s).getTime()] of the platform: the time value, or [None]
    for an invalid date (NaN). *)
Variable Date_parse : string -> option Z.

(** The time zone of the host that runs the code. *)
Variable host : TimeZone.

(** Parsed JSON values, [JSON.parse] ([None] when it throws), and the
    helpers of the orchestrator that live in modules of their own:
    [validateItinerarySchema] of [./schema-validator] and
    [buildCanonicalPrompt] of [./prompt-builder]. *)
Variable Json : Type.
Variable JSON_parse : string -> option Json.
Variable validateItinerarySchema : Json -> Completion SchemaValidation.
Variable buildCanonicalPrompt : TripRequest -> option string -> Completion string.

(** [data.metadata?.confidence_score] of a parsed value, when it is
    truthy; reading [data.metadata] throws when [data] is null. *)
Variable Json_confidence_score : Json -> Completion (option Number).

(** function calculateDuration(startDate, endDate) *)
Definition calculateDuration (startDate endDate : string) : option Z :=
  match Date_parse startDate, Date_parse endDate with
  | Some start, Some end_ =>
      let diffTime := Z.abs (end_ - start) in
      let diffDays := ceil_div diffTime msPerDay in
      Some (Z.max 1 diffDays)
  | _, _ => None
  end.

(** *** The mock generator *)

Definition coordinate (base : Number) (r : Number) (spread : Number) : Number :=
  add base (mul (sub r (lit 5 10)) spread).

(** One turn of the loop of [generateMockDays]. *)
Definition mockDay (tripRequest : TripRequest) (startDate : option Z)
    (dailyBudget : Number) (type : string) (i : Z) : M Day :=
  let accommodationCost :=
    if String.eqb type "experience" then mul dailyBudget (lit 4 10)
    else if String.eqb type "budget" then mul dailyBudget (lit 3 10)
    else mul dailyBudget (lit 35 100) in
  let activityCost :=
    sub (sub dailyBudget accommodationCost) (mul dailyBudget (lit 2 10)) in
  let theme :=
    match preferred_themes tripRequest with
    | t :: _ => if String.eqb t "" then "cultural" else t
    | [] => "cultural"
    end in
  let dest := destination tripRequest in
  let cur := currency tripRequest in
  let* date :=
    match startDate with
    | Some t => ret (split_T_0 (toISOString (setDate_plus host t i)))
    | None => throw "RangeError: Invalid time value"
    end in
  let* lat1 := Math_random in
  let* lng1 := Math_random in
  let* lat2 := Math_random in
  let* lng2 := Math_random in
  let* lat3 := Math_random in
  let* lng3 := Math_random in
  ret {|
    day := i + 1;
    date := date;
    activities := [
      {| act_name := "Explore " ++ dest ++ " City Center";
         act_type := "sightseeing";
         act_duration := "3 hours";
         act_cost := mkMoney (Math_floor (mul activityCost (lit 6 10))) cur;
         act_location :=
           mkLocation (dest ++ " City Center")
             (coordinate (lit 407128 10000) lat1 (lit 1 10))
             (coordinate (lit (-74006) 1000) lng1 (lit 1 10));
         act_booking_info :=
           mkBookingInfo true "EaseMyTrip"
             ("https://easemytrip.com/activities/" ++ toLowerCase dest) |};
      {| act_name := "Local " ++ theme ++ " Experience";
         act_type := theme;
         act_duration := "2 hours";
         act_cost := mkMoney (Math_floor (mul activityCost (lit 4 10))) cur;
         act_location :=
           mkLocation (dest ++ " Cultural District")
             (coordinate (lit 407128 10000) lat2 (lit 1 10))
             (coordinate (lit (-74006) 1000) lng2 (lit 1 10));
         act_booking_info :=
           mkBookingInfo true "EaseMyTrip"
             ("https://easemytrip.com/experiences/" ++ toLowerCase dest) |}
    ];
    accommodation := {|
      acc_name :=
        if String.eqb type "experience" then "Luxury Hotel " ++ dest
        else if String.eqb type "budget" then "Budget Inn " ++ dest
        else "Comfort Hotel " ++ dest;
      acc_type :=
        if String.eqb type "experience" then "resort"
        else if String.eqb type "budget" then "hostel" else "hotel";
      acc_cost := mkMoney (Math_floor accommodationCost) cur;
      acc_location :=
        mkLocation (dest ++ " Downtown")
          (coordinate (lit 407128 10000) lat3 (lit 5 100))
          (coordinate (lit (-74006) 1000) lng3 (lit 5 100));
      acc_booking_info :=
        mkBookingInfo true "EaseMyTrip"
          ("https://easemytrip.com/hotels/" ++ toLowerCase dest) |};
    meals := [
      mkMeal "breakfast" "Local Breakfast Spot"
        (mkMoney (Math_floor (mul dailyBudget (lit 5 100))) cur);
      mkMeal "lunch" "Traditional Restaurant"
        (mkMoney (Math_floor (mul dailyBudget (lit 8 100))) cur);
      mkMeal "dinner"
        (if String.eqb type "experience" then "Fine Dining Restaurant"
         else "Local Eatery")
        (mkMoney
           (Math_floor
              (mul dailyBudget
                 (if String.eqb type "experience" then lit 15 100
                  else lit 7 100))) cur)
    ];
    transportation :=
      mkTransportation
        (if String.eqb type "experience" then "taxi"
         else if String.eqb type "budget" then "bus" else "train")
        (mkMoney (Math_floor (mul dailyBudget (lit 5 100))) cur);
    daily_cost := mkMoney (Math_floor dailyBudget) cur
  |}.

(** [for (let i = 0; i < duration; i++) days.push(...)], with [n] turns
    left and [i] the loop variable. *)
Fixpoint mockDays_loop (tripRequest : TripRequest) (startDate : option Z)
    (dailyBudget : Number) (type : string) (n : nat) (i : Z) : M (list Day) :=
  match n with
  | O => ret []
  | S n' =>
      let* d := mockDay tripRequest startDate dailyBudget type i in
      let* ds := mockDays_loop tripRequest startDate dailyBudget type n' (i + 1) in
      ret (d :: ds)
  end.

(** The number of turns of a loop [for (i = 0; i < duration; i++)]: none
    when [duration] is NaN. *)
Definition loop_turns (duration : option Z) : nat :=
  match duration with
  | Some n => Z.to_nat n
  | None => O
  end.

(** function generateMockDays(tripRequest, duration, dailyBudget, type) *)
Definition generateMockDays (tripRequest : TripRequest) (duration : option Z)
    (dailyBudget : Number) (type : string) : M (list Day) :=
  let startDate := Date_parse (start_date tripRequest) in
  mockDays_loop tripRequest startDate dailyBudget type (loop_turns duration) 0.

(** What [generateItinerary] hands back as [data]: the mock bundle, or
    the model's value with the orchestrator's metadata written over its
    own. *)
Inductive Payload : Type :=
| MockData (mock : MockItinerary)
| AiData (value : Json) (meta : AiMetadata).

Record GenerateItineraryResult : Type := mkResult {
  success : bool;
  data : option Payload;
  error : option string
}.

(** The three entries of [allItineraries], given the identifier drawn
    for each and its days. *)
Definition balanced_itinerary (tripRequest : TripRequest) (uuid : string)
    (days : list Day) : Itinerary :=
  let dest := destination tripRequest in
  {| id := "balanced_" ++ uuid;
     type := "balanced";
     title := "Balanced " ++ dest ++ " Adventure";
     description :=
       "A perfect mix of must-see attractions and local experiences in " ++ dest;
     total_cost :=
       mkMoney (Math_floor (mul (budget_total tripRequest) (lit 9 10)))
         (currency tripRequest);
     days := days;
     highlights := [
       "Explore the iconic landmarks of " ++ dest;
       "Experience authentic local cuisine";
       "Visit hidden gems recommended by locals";
       "Perfect balance of culture and relaxation" ];
     best_for :=
       ["First-time visitors"; "Culture enthusiasts"; "Balanced travelers"] |}.

Definition budget_itinerary (tripRequest : TripRequest) (uuid : string)
    (days : list Day) : Itinerary :=
  let dest := destination tripRequest in
  {| id := "budget_" ++ uuid;
     type := "budget";
     title := "Budget-Friendly " ++ dest ++ " Explorer";
     description :=
       "Maximum value with smart savings and local gems in " ++ dest;
     total_cost :=
       mkMoney (Math_floor (mul (budget_total tripRequest) (lit 7 10)))
         (currency tripRequest);
     days := days;
     highlights := [
       "Affordable local transportation options";
       "Budget-friendly accommodations with great reviews";
       "Free walking tours and public attractions";
       "Local street food and markets" ];
     best_for := ["Budget travelers"; "Backpackers"; "Students"] |}.

Definition premium_itinerary (tripRequest : TripRequest) (uuid : string)
    (days : list Day) : Itinerary :=
  let dest := destination tripRequest in
  {| id := "premium_" ++ uuid;
     type := "premium";
     title := "Premium " ++ dest ++ " Experience";
     description := "Luxury experiences and exclusive access in " ++ dest;
     total_cost :=
       mkMoney (Math_floor (mul (budget_total tripRequest) (lit 12 10)))
         (currency tripRequest);
     days := days;
     highlights := [
       "Luxury accommodations with premium amenities";
       "Private guided tours and exclusive access";
       "Fine dining at renowned restaurants";
       "Premium transportation and comfort" ];
     best_for := ["Luxury travelers"; "Special occasions"; "Comfort seekers"] |}.

(** The block that filters [allItineraries] by the requested type. *)
Definition selectItineraries (itineraryType : option string)
    (allItineraries : list Itinerary) : list Itinerary :=
  if string_truthy itineraryType then
    match List.filter
            (fun it => String.eqb (type it) (default "" itineraryType))
            allItineraries with
    | [] =>
        (* Fallback to balanced if type not found *)
        List.filter (fun it => String.eqb (type it) "balanced") allItineraries
    | found => found
    end
  else
    (* Return all types if no specific type requested *)
    allItineraries.

Definition mock_metadata (itineraryType : option string) (now : Z)
    (request_id : string) : MockMetadata :=
  {| mm_generated_at := toISOString now;
     mm_confidence_score := lit 75 100;
     mm_request_id := request_id;
     mm_model_version := "mock-generator-v1";
     mm_itinerary_type :=
       if string_truthy itineraryType then default "" itineraryType
       else "all_types" |}.

(** function generateMockItinerary(tripRequest, itineraryType) *)
Definition generateMockItinerary (tripRequest : TripRequest)
    (itineraryType : option string) : M GenerateItineraryResult :=
  let duration :=
    calculateDuration (start_date tripRequest) (end_date tripRequest) in
  let dailyBudget :=
    Math_floor (div (budget_total tripRequest) (of_count duration)) in
  (* Define all possible itineraries *)
  let* u1 := uuidv4 in
  let* days1 :=
    generateMockDays tripRequest duration (mul dailyBudget (lit 9 10)) "balanced" in
  let* u2 := uuidv4 in
  let* days2 :=
    generateMockDays tripRequest duration (mul dailyBudget (lit 7 10)) "budget" in
  let* u3 := uuidv4 in
  let* days3 :=
    generateMockDays tripRequest duration (mul dailyBudget (lit 12 10)) "premium" in
  let allItineraries := [
    balanced_itinerary tripRequest u1 days1;
    budget_itinerary tripRequest u2 days2;
    premium_itinerary tripRequest u3 days3 ] in
  (* Filter based on requested type *)
  let selectedItineraries := selectItineraries itineraryType allItineraries in
  let* now := Date_now in
  let* request_id := uuidv4 in
  ret {|
    success := true;
    data := Some (MockData {|
      itineraries := selectedItineraries;
      metadata := mock_metadata itineraryType now request_id |});
    error := None
  |}.

(** *** One call of the model *)

Record AttemptResult : Type := mkAttempt {
  at_success : bool;
  at_data : option Json;
  at_error : option string;
  at_details : list string
}.

(** async function attemptGeneration(model, prompt, temperature) *)
Definition attemptGeneration (prompt : string) (temperature : Number)
  : M AttemptResult :=
  try_catch
    (let* text := generateContent prompt temperature in
     let parsed : Json + AttemptResult :=
       match JSON_parse text with
       | Some v => inl v
       | None =>
           match extract_json text with
           | None =>
               inr (mkAttempt false None
                      (Some "No valid JSON found in AI response") [])
           | Some extracted =>
               match JSON_parse extracted with
               | Some v => inl v
               | None =>
                   inr (mkAttempt false None
                          (Some "Failed to parse JSON response") [])
               end
           end
       end in
     match parsed with
     | inr failure => ret failure
     | inl parsedResponse =>
         let* validation := lift (validateItinerarySchema parsedResponse) in
         if sv_success validation then
           ret (mkAttempt true (Some parsedResponse) None [])
         else
           ret (mkAttempt false None (Some "schema_validation_failed")
                  (sv_errors validation))
     end)
    (fun message => ret (mkAttempt false None (Some message) [])).

Definition fixup_instruction : string :=
  nl ++ nl ++ "IMPORTANT: The previous response had schema validation errors. Please ensure your JSON response strictly follows the provided schema format. Double-check all required fields and data types. Return ONLY valid JSON without any markdown formatting.".

Definition error_is (r : AttemptResult) (e : string) : bool :=
  match at_error r with
  | Some e' => String.eqb e' e
  | None => false
  end.

(** export async function generateItinerary(tripRequest, itineraryType) *)
Definition generateItinerary (tripRequest : TripRequest)
    (itineraryType : option string) : M GenerateItineraryResult :=
  let* requestStartTime := Date_now in
  try_catch
    (let* key := env_GEMINI_API_KEY in
     if negb (string_truthy key)
        || negb (match key with Some k => String.prefix "AIza" k | None => false end)
     then generateMockItinerary tripRequest itineraryType
     else
       let* prompt := lift (buildCanonicalPrompt tripRequest itineraryType) in
       let* first := attemptGeneration prompt (lit 7 10) in
       let* result :=
         if negb (at_success first) && error_is first "schema_validation_failed"
         then attemptGeneration (prompt ++ fixup_instruction) (lit 3 10)
         else ret first in
       if negb (at_success result)
       then generateMockItinerary tripRequest itineraryType
       else
         let* finished := Date_now in
         let processingTime := finished - requestStartTime in
         match at_data result with
         | None => throw "TypeError: Cannot read properties of undefined"
         | Some value =>
             let* own := lift (Json_confidence_score value) in
             let* now := Date_now in
             let* request_id := uuidv4 in
             ret {|
               success := true;
               data := Some (AiData value {|
                 am_generated_at := toISOString now;
                 am_request_id := request_id;
                 am_model_version := "gemini-1.5-pro";
                 am_confidence_score :=
                   match own with
                   | Some c => if truthy c then c else lit 85 100
                   | None => lit 85 100
                   end;
                 am_processing_time_ms := processingTime;
                 am_api_source := "gemini-api" |});
               error := None
             |}
         end)
    (fun _ => generateMockItinerary tripRequest itineraryType).

End Pipeline.

Arguments MockData {Json} mock.
Arguments AiData {Json} value meta.
Arguments mkResult {Json} success data error.
Arguments success {Json} g.
Arguments data {Json} g.
Arguments error {Json} g.
Arguments mkAttempt {Json} at_success at_data at_error at_details.
Arguments at_success {Json} a.
Arguments at_data {Json} a.
Arguments at_error {Json} a.
Arguments at_details {Json} a.
Arguments error_is {Json} r e.

(** *** Vocabulary of the properties *)

(** The types that come out of the selection for a requested type. *)
Definition selected_types (itineraryType : option string) : list string :=
  match itineraryType with
  | None => ["balanced"; "budget"; "premium"]
  | Some t =>
      if String.eqb t "" then ["balanced"; "budget"; "premium"]
      else if String.eqb t "budget" then ["budget"]
      else if String.eqb t "premium" then ["premium"]
      else ["balanced"]
  end.

(** The total cost the generator writes for each type. *)
Definition cost_by_type (tripRequest : TripRequest) (it : Itinerary) : Prop :=
  (type it = "budget"
   /\ amount (total_cost it)
      = Math_floor (mul (budget_total tripRequest) (lit 7 10)))
  \/ (type it = "balanced"
      /\ amount (total_cost it)
         = Math_floor (mul (budget_total tripRequest) (lit 9 10)))
  \/ (type it = "premium"
      /\ amount (total_cost it)
         = Math_floor (mul (budget_total tripRequest) (lit 12 10))).

Section Outcomes.
Variable Date_parse : string -> option Z.
Variable host : TimeZone.
Variable Json : Type.
Variable validateItinerarySchema : Json -> Completion SchemaValidation.

(** What every list of days of the mock generator satisfies. *)
Definition days_ok (tripRequest : TripRequest) (ds : list Day) : Prop :=
  length ds = loop_turns (calculateDuration Date_parse (start_date tripRequest)
                 (end_date tripRequest))
  /\ day <$> ds = seqZ 1 (Z.of_nat (length ds))
  /\ forall t, Date_parse (start_date tripRequest) = Some t ->
               date <$> ds = iso_dates host t 0 (length ds).

(** What the mock generator returns for a request and a type filter. *)
Definition mock_ok (tripRequest : TripRequest) (itineraryType : option string)
    (m : MockItinerary) : Prop :=
  type <$> itineraries m = selected_types itineraryType
  /\ Forall (fun it => days_ok tripRequest (days it)
                       /\ cost_by_type tripRequest it) (itineraries m).

(** A result as the caller is promised it: the flag is set, there is a
    payload and no error, and a payload of the model passed the schema
    validator. *)
Definition usable (r : GenerateItineraryResult Json) : Prop :=
  success r = true
  /\ error r = None
  /\ match data r with
     | Some (MockData _) => True
     | Some (AiData value _) =>
         exists v, validateItinerarySchema value = Normal v
                   /\ sv_success v = true
     | None => False
     end.
End Outcomes.
End Orchestrator.

(** ** What the routes share: request validation and responses *)

Record FieldError : Type := mkFieldError {
  field : string;
  reason : string
}.

(** The result of [validateTripRequest] of [@/lib/validation]. *)
Inductive ValidationResult : Type :=
| Valid (data : TripRequest)
| Invalid (errors : list FieldError).

(** ** [app/api/v1/itineraries/generate/route.ts] *)

Module GenerateRoute.
Import JS Eff.

Record Activity : Type := mkActivity {
  time : string;
  activity : string;
  location : string;
  cost : Number;
  act_description : string
}.

Record Day : Type := mkDay {
  day : Z;
  date : string;
  activities : list Activity
}.

Record Accommodation : Type := mkAccommodation {
  acc_name : string;
  acc_type : string;
  pricePerNight : Number;
  rating : Number;
  amenities : list string
}.

Record Transportation : Type := mkTransportation {
  tr_type : string;
  tr_cost : Number;
  details : string
}.

Record Itinerary : Type := mkItinerary {
  id : string;
  title : string;
  description : string;
  totalCost : Number;
  days : list Day;
  accommodation : Accommodation;
  transportation : Transportation
}.

(** A value of [mockItineraries]. *)
Record Entry : Type := mkEntry {
  entry_id : string;
  itineraries : list Itinerary;
  tripRequest : TripRequest;
  createdAt : string
}.

Inductive Body : Type :=
| ErrorBody (error : string)
| InvalidBody (error : string) (details : list FieldError)
| SuccessBody (id status message : string) (confidence_score : Number)
| EntryBody (entry : Entry).

Record Response : Type := mkResponse {
  body : Body;
  status : Z
}.

(** [NextResponse.json(body)] answers 200. *)
Definition json (b : Body) : Response := mkResponse b 200.

(** The module holds [const mockItineraries = new Map()]. *)
Record State : Type := mkState {
  world : World;
  mockItineraries : gmap string Entry
}.

(** [`${x}`] of an array element that may be missing. *)
Definition template (x : option string) : string := default "undefined" x.

(** [a || b] on array elements: a missing or empty string is falsy. *)
Definition or_else (a b : option string) : option string :=
  if Orchestrator.string_truthy a then a else b.

(** [Array.from({ length }, (_, i) => f i)]: [f 0], [f 1], ... in order;
    nothing for a length that is NaN or negative. *)
Fixpoint from_loop {A} (f : Z -> Completion A) (n : nat) (i : Z)
  : Completion (list A) :=
  match n with
  | O => Normal []
  | S n' =>
      match f i with
      | Throw e => Throw e
      | Normal x =>
          match from_loop f n' (i + 1) with
          | Throw e => Throw e
          | Normal xs => Normal (x :: xs)
          end
      end
  end.

Definition Array_from {A} (length : option Z) (f : Z -> Completion A)
  : Completion (list A) :=
  from_loop f (Orchestrator.loop_turns length) 0.

Section Route.
Variable Date_parse : string -> option Z.
Variable host : TimeZone.

(** The parsed request body, and [validateTripRequest] of
    [@/lib/validation]. *)
Variable Json : Type.
Variable validateTripRequest : Json -> Completion ValidationResult.

(** [Math.ceil((endDate.getTime() - startDate.getTime()) / msPerDay) + 1] *)
Definition day_count (startDate endDate : option Z) : option Z :=
  match startDate, endDate with
  | Some start, Some end_ => Some (ceil_div (end_ - start) msPerDay + 1)
  | _, _ => None
  end.

(** The day that the callback of [generateDays] builds at index [i],
    given the start of the trip. The themes of a [TripRequest] are an
    array, which [preferred_themes || ["heritage"]] keeps even when it
    is empty. *)
Definition day_at (tripRequest : TripRequest) (start : Z)
    (dailyBudget : Number) (style : string) (i : Z) : Day :=
  let themes := preferred_themes tripRequest in
  let dest := destination tripRequest in
  {| day := i + 1;
     date := split_T_0 (toISOString (setDate_plus host start i));
     activities := [
       {| time := "09:00";
          activity := "Morning " ++ template (themes !! 0%nat) ++ " exploration";
          location := dest ++ " City Center";
          cost := Math_floor (mul dailyBudget (lit 3 10));
          act_description :=
            "Start your day exploring the " ++ style
              ++ " attractions of " ++ dest |};
       {| time := "13:00";
          activity := "Local cuisine lunch";
          location := "Traditional restaurant in " ++ dest;
          cost := Math_floor (mul dailyBudget (lit 2 10));
          act_description := "Enjoy authentic local dishes and specialties" |};
       {| time := "15:00";
          activity :=
            "Afternoon "
              ++ template (or_else (themes !! 1%nat) (themes !! 0%nat))
              ++ " activity";
          location := "Popular " ++ dest ++ " landmark";
          cost := Math_floor (mul dailyBudget (lit 3 10));
          act_description := "Continue exploring based on your interests" |};
       {| time := "19:00";
          activity := "Evening leisure";
          location := dest ++ " entertainment district";
          cost := Math_floor (mul dailyBudget (lit 2 10));
          act_description := "Relax and enjoy the evening atmosphere" |}
     ] |}.

(** const generateDays = (budgetMultiplier, style) => ...; formatting
    the date of an invalid [startDate] throws. *)
Definition generateDays (tripRequest : TripRequest) (startDate : option Z)
    (days : option Z) (budgetPerDay : Number)
    (budgetMultiplier : Number) (style : string) : Completion (list Day) :=
  let dailyBudget := Math_floor (mul budgetPerDay budgetMultiplier) in
  Array_from days (fun i =>
    match startDate with
    | None => Throw "RangeError: Invalid time value"
    | Some start => Normal (day_at tripRequest start dailyBudget style i)
    end).

(** function generateMockItineraries(tripRequest) *)
Definition generateMockItineraries (tripRequest : TripRequest)
  : Completion (list Itinerary) :=
  let dest := destination tripRequest in
  let budget := budget_total tripRequest in
  let startDate := Date_parse (start_date tripRequest) in
  let endDate := Date_parse (end_date tripRequest) in
  let days := day_count startDate endDate in
  let budgetPerDay := Math_floor (div budget (of_count days)) in
  let generateDays := generateDays tripRequest startDate days budgetPerDay in
  match generateDays (lit 7 10) "budget-friendly" with
  | Throw e => Throw e
  | Normal days1 =>
  match generateDays (lit 9 10) "balanced" with
  | Throw e => Throw e
  | Normal days2 =>
  match generateDays (lit 12 10) "luxury" with
  | Throw e => Throw e
  | Normal days3 =>
    Normal [
      {| id := "budget";
         title := "Budget Explorer";
         description :=
           "Discover " ++ dest ++ " without breaking the bank. This itinerary focuses on free attractions, local experiences, and budget-friendly accommodations.";
         totalCost := Math_floor (mul budget (lit 7 10));
         days := days1;
         accommodation := {|
           acc_name := "Budget Hotel " ++ dest;
           acc_type := "Budget Hotel";
           pricePerNight := Math_floor (mul budgetPerDay (lit 3 10));
           rating := lit 35 10;
           amenities := ["Free WiFi"; "Breakfast"; "24/7 Reception"] |};
         transportation := {|
           tr_type := "Public Transport";
           tr_cost := Math_floor (mul budget (lit 1 10));
           details := "Local buses and trains" |} |};
      {| id := "balanced";
         title := "Balanced Journey";
         description :=
           "The perfect mix of comfort and adventure. Experience " ++ dest ++ " with a good balance of must-see attractions and local experiences.";
         totalCost := Math_floor (mul budget (lit 9 10));
         days := days2;
         accommodation := {|
           acc_name := "Mid-Range Hotel " ++ dest;
           acc_type := "3-Star Hotel";
           pricePerNight := Math_floor (mul budgetPerDay (lit 4 10));
           rating := of_Z 4;
           amenities := ["Free WiFi"; "Breakfast"; "Gym"; "Pool"] |};
         transportation := {|
           tr_type := "Mixed Transport";
           tr_cost := Math_floor (mul budget (lit 15 100));
           details := "Combination of public transport and taxis" |} |};
      {| id := "luxury";
         title := "Luxury Experience";
         description :=
           "Indulge in the finest " ++ dest ++ " has to offer. Premium accommodations, exclusive experiences, and personalized service.";
         totalCost := Math_floor (mul budget (lit 12 10));
         days := days3;
         accommodation := {|
           acc_name := "Luxury Resort " ++ dest;
           acc_type := "5-Star Resort";
           pricePerNight := Math_floor (mul budgetPerDay (lit 6 10));
           rating := lit 48 10;
           amenities :=
             ["Spa"; "Fine Dining"; "Concierge"; "Premium WiFi"; "Pool"; "Gym"] |};
         transportation := {|
           tr_type := "Private Transport";
           tr_cost := Math_floor (mul budget (lit 2 10));
           details := "Private car with driver" |} |}
    ]
  end end end.

(** [`trip_${Date.now()}_${Math.random().toString(36).substr(2, 9)}`] *)
Definition fresh_trip_id : M string :=
  let* now := Date_now in
  let* r := Math_random in
  let* digits := Number_toString36 r in
  ret ("trip_" ++ Z_toString now ++ "_" ++ substring 2 9 digits).

(** export async function POST(request), with [request_json] the
    outcome of [await request.json()]. *)
Definition POST (request_json : Completion Json) (st : State)
  : Response * State :=
  let failed w :=
    (mkResponse (ErrorBody "Failed to generate itinerary") 500,
     mkState w (mockItineraries st)) in
  match request_json with
  | Throw _ => failed (world st)
  | Normal body =>
      (* Validate input *)
      match validateTripRequest body with
      | Throw _ => failed (world st)
      | Normal (Invalid errors) =>
          (mkResponse (InvalidBody "Invalid request data" errors) 400, st)
      | Normal (Valid tripRequest) =>
          match generateMockItineraries tripRequest with
          | Throw _ => failed (world st)
          | Normal itineraryData =>
              match (let* itineraryId := fresh_trip_id in
                     let* now := Date_now in
                     ret (itineraryId, now)) (world st) with
              | (Throw _, w) => failed w
              | (Normal (itineraryId, now), w) =>
                  (json (SuccessBody itineraryId "success"
                           "Itinerary generated successfully" (lit 95 100)),
                   mkState w
                     (<[itineraryId :=
                          mkEntry itineraryId itineraryData tripRequest
                            (toISOString now)]> (mockItineraries st)))
              end
          end
      end
  end.

(** export async function GET(request), with [id] the query parameter. *)
Definition GET (id : option string) (st : State) : Response * State :=
  if negb (Orchestrator.string_truthy id) then
    (mkResponse (ErrorBody "Itinerary ID is required") 400, st)
  else
    match mockItineraries st !! default "" id with
    | None => (mkResponse (ErrorBody "Itinerary not found") 404, st)
    | Some itinerary => (json (EntryBody itinerary), st)
    end.

End Route.

(** *** Vocabulary of the properties *)

Section Shares.
Variable Date_parse : string -> option Z.
Variable host : TimeZone.

(** The days of the itinerary of a given multiplier and style. *)
Definition days_for (tripRequest : TripRequest)
    (budgetMultiplier : Number) (style : string) : list Day :=
  let startDate := Date_parse (start_date tripRequest) in
  let endDate := Date_parse (end_date tripRequest) in
  let days := day_count startDate endDate in
  let budgetPerDay :=
    Math_floor (div (budget_total tripRequest) (of_count days)) in
  match startDate with
  | Some start =>
      day_at host tripRequest start
        (Math_floor (mul budgetPerDay budgetMultiplier)) style
        <$> seqZ 0 (Z.of_nat (Orchestrator.loop_turns days))
  | None => []
  end.

(** The daily budget of the itinerary of a given multiplier: the [d] of
    its activity costs. *)
Definition dailyBudget_of (tripRequest : TripRequest)
    (budgetMultiplier : Number) : Number :=
  let days :=
    day_count (Date_parse (start_date tripRequest))
      (Date_parse (end_date tripRequest)) in
  Math_floor
    (mul (Math_floor (div (budget_total tripRequest) (of_count days)))
       budgetMultiplier).
End Shares.

(** The sum of the activity costs of a day, as an integer. *)
Definition activity_cost_sum (d : Day) : option Z :=
  foldr (fun a acc =>
           match floorZ (cost a), acc with
           | Some c, Some s => Some (c + s)
           | _, _ => None
           end) (Some 0) (activities d).
End GenerateRoute.

(** ** The trip routes: [trips/route.ts] and
    [trips/[tripId]/itineraries/[itineraryType]/route.ts]

    Each module takes [mockTrips] and [mockItineraries] from [globalThis]
    when it is evaluated, or makes them when they are not there, and only
    [trips/route.ts] puts them there. A [State] is the world and the two
    maps that one module holds; [Evaluated] and [seen_by_itinerary_route]
    below say how the maps of the itinerary route relate to those of
    [trips/route.ts]. The copy of [generateMockItineraries] that
    [trips/route.ts] carries is the function of [GenerateRoute] again, and
    nothing calls it. *)

Module TripRoutes.
Import JS Eff.

(** A value of [mockTrips]. *)
Record Trip : Type := mkTrip {
  trip_id : string;
  trip_tripRequest : TripRequest;
  trip_createdAt : string;
  trip_status : string
}.

Section Routes.
Variable Date_parse : string -> option Z.
Variable host : TimeZone.
Variable Json : Type.
Variable JSON_parse : string -> option Json.
Variable validateItinerarySchema : Json -> Completion Orchestrator.SchemaValidation.
Variable buildCanonicalPrompt : TripRequest -> option string -> Completion string.
Variable Json_confidence_score : Json -> Completion (option Number).
Variable validateTripRequest : Json -> Completion ValidationResult.

Definition Payload : Type := Orchestrator.Payload Json.

Definition generateItinerary :=
  Orchestrator.generateItinerary Date_parse host Json JSON_parse
    validateItinerarySchema buildCanonicalPrompt Json_confidence_score.

(** A value of [mockItineraries]: [{ id, tripId, type,
    ...generationResult.data, tripRequest, createdAt }]. [st_id],
    [st_tripId] and [st_type] are what the literal writes before the
    spread, and what the spread contributes is kept whole in
    [st_data]: when that payload has a key [id], [tripId] or [type]
    of its own, which an answer of the model can and the mock bundle
    does not, the object holds the value of the payload under that
    key. [st_tripRequest] and [st_createdAt] are written after the
    spread. *)
Record StoredItinerary : Type := mkStored {
  st_id : string;
  st_tripId : string;
  st_type : string;
  st_data : option Payload;
  st_tripRequest : TripRequest;
  st_createdAt : string
}.

Inductive Body : Type :=
| ErrorBody (error : string)
| InvalidBody (error : string) (details : list FieldError)
| FailureBody (error : string) (details : option string)
| CreatedBody (id status message : string)
| ItineraryBody (itinerary : StoredItinerary).

Record Response : Type := mkResponse {
  body : Body;
  status : Z
}.

Definition json (b : Body) : Response := mkResponse b 200.

Record State : Type := mkState {
  world : World;
  mockTrips : gmap string Trip;
  mockItineraries : gmap string StoredItinerary
}.

(** export async function POST(request) of [trips/route.ts], with
    [request_json] the outcome of [await request.json()]. *)
Definition POST_trip (request_json : Completion Json) (st : State)
  : Response * State :=
  let failed w :=
    (mkResponse (ErrorBody "Failed to create trip") 500,
     mkState w (mockTrips st) (mockItineraries st)) in
  match request_json with
  | Throw _ => failed (world st)
  | Normal body =>
      (* Validate input *)
      match validateTripRequest body with
      | Throw _ => failed (world st)
      | Normal (Invalid errors) =>
          (mkResponse (InvalidBody "Invalid request data" errors) 400, st)
      | Normal (Valid tripRequest) =>
          (* Create basic trip data without generating full itineraries *)
          match (let* tripId := GenerateRoute.fresh_trip_id in
                 let* now := Date_now in
                 ret (tripId, now)) (world st) with
          | (Throw _, w) => failed w
          | (Normal (tripId, now), w) =>
              (json (CreatedBody tripId "success" "Trip created successfully"),
               mkState w
                 (<[tripId :=
                      mkTrip tripId tripRequest (toISOString now) "created"]>
                    (mockTrips st))
                 (mockItineraries st))
          end
      end
  end.

Definition validTypes : list string := ["budget"; "balanced"; "premium"].

Definition includes (l : list string) (s : string) : bool :=
  existsb (String.eqb s) l.

(** [`${tripId}_${itineraryType}`] *)
Definition itinerary_key (tripId itineraryType : string) : string :=
  tripId ++ "_" ++ itineraryType.

(** export async function GET(request, { params }) of the itinerary
    route. *)
Definition GET (tripId itineraryType : string) (st : State)
  : Response * State :=
  if String.eqb tripId "" || String.eqb itineraryType "" then
    (mkResponse (ErrorBody "Trip ID and itinerary type are required") 400, st)
  else
  (* Validate itinerary type *)
  if negb (includes validTypes (toLowerCase itineraryType)) then
    (mkResponse
       (ErrorBody "Invalid itinerary type. Must be one of: budget, balanced, premium")
       400, st)
  else
  (* Check if itinerary already exists *)
  let itineraryId := itinerary_key tripId itineraryType in
  match mockItineraries st !! itineraryId with
  | Some existingItinerary => (json (ItineraryBody existingItinerary), st)
  | None =>
      (* Get the original trip data *)
      match mockTrips st !! tripId with
      | None => (mkResponse (ErrorBody "Trip not found") 404, st)
      | Some trip =>
          let failed w :=
            (mkResponse (ErrorBody "Failed to generate itinerary") 500,
             mkState w (mockTrips st) (mockItineraries st)) in
          (* Generate specific itinerary using AI orchestrator *)
          match generateItinerary (trip_tripRequest trip) (Some itineraryType)
                  (world st) with
          | (Throw _, w) => failed w
          | (Normal generationResult, w) =>
              if negb (Orchestrator.success generationResult) then
                (mkResponse
                   (FailureBody "Failed to generate itinerary"
                      (Orchestrator.error generationResult)) 500,
                 mkState w (mockTrips st) (mockItineraries st))
              else
                match Date_now w with
                | (Throw _, w') => failed w'
                | (Normal now, w') =>
                    (* Create the itinerary data *)
                    let itineraryData := {|
                      st_id := itineraryId;
                      st_tripId := tripId;
                      st_type := itineraryType;
                      st_data := Orchestrator.data generationResult;
                      st_tripRequest := trip_tripRequest trip;
                      st_createdAt := toISOString now |} in
                    (* Store the generated itinerary *)
                    (json (ItineraryBody itineraryData),
                     mkState w' (mockTrips st)
                       (<[itineraryId := itineraryData]> (mockItineraries st)))
                end
          end
      end
  end.

(** export async function POST(request, { params }) of the itinerary
    route: force regeneration by deleting existing and calling GET. *)
Definition POST (tripId itineraryType : string) (st : State)
  : Response * State :=
  let itineraryId := itinerary_key tripId itineraryType in
  (* Remove existing itinerary to force regeneration *)
  GET tripId itineraryType
    (mkState (world st) (mockTrips st) (delete itineraryId (mockItineraries st))).

End Routes.

(** *** The maps that the modules hold

    The trip lookup and the itinerary route read [globalThis.mockTrips
    || new Map()] (and the same for [mockItineraries]) and put nothing
    into [globalThis]: evaluated after [trips/route.ts] they hold the
    maps of that module, evaluated before it they hold maps of their
    own. Such a map stays empty: the lookup never writes, and the
    itinerary route stores an itinerary only for a trip that it found
    in its [mockTrips], which only [trips/route.ts] fills. *)
Inductive Evaluated : Type :=
| AfterTrips
| BeforeTrips.

(** The map that a module holds, given the one of [trips/route.ts]. *)
Definition held {A} (e : Evaluated) (published : gmap string A)
  : gmap string A :=
  match e with
  | AfterTrips => published
  | BeforeTrips => ∅
  end.

(** The server as the itinerary route sees it, given the server as
    [trips/route.ts] sees it. *)
Definition seen_by_itinerary_route (Json : Type) (e : Evaluated)
    (st : State Json) : State Json :=
  mkState Json (world Json st) (held e (mockTrips Json st))
    (held e (mockItineraries Json st)).

(** *** Vocabulary of the properties *)

(** The route accepts the pair. *)
Definition accepted (tripId itineraryType : string) : Prop :=
  tripId <> "" /\ itineraryType <> ""
  /\ includes validTypes (toLowerCase itineraryType) = true.

(** What a request that misses the cache stores. *)
Definition fresh_itinerary (Json : Type) tripId itineraryType (trip : Trip)
    (r : Orchestrator.GenerateItineraryResult Json) (now : Z)
  : StoredItinerary Json :=
  {| st_id := itinerary_key tripId itineraryType;
     st_tripId := tripId;
     st_type := itineraryType;
     st_data := Orchestrator.data r;
     st_tripRequest := trip_tripRequest trip;
     st_createdAt := toISOString now |}.
End TripRoutes.

(** ** Sample data: a trip, a world without credential, and the request
    validator of the specification *)

Module Sample.
Import JS Eff.

Definition paris : TripRequest :=
  {| origin := "NYC";
     destination := "Paris";
     start_date := "2024-06-01";
     end_date := "2024-06-05";
     budget_total := of_Z 2000;
     currency := "USD";
     preferred_themes := ["heritage"];
     num_travelers := of_Z 2;
     additional_info := None |}.

(** Three days on a budget of 1000. *)
Definition lyon : TripRequest :=
  {| origin := "NYC";
     destination := "Lyon";
     start_date := "2024-06-01";
     end_date := "2024-06-03";
     budget_total := of_Z 1000;
     currency := "EUR";
     preferred_themes := ["food"];
     num_travelers := of_Z 1;
     additional_info := None |}.


(** Three days in March, over the night in which the clocks of New York
    go forward. *)
Definition march : TripRequest :=
  {| origin := "Paris";
     destination := "NYC";
     start_date := "2024-03-09";
     end_date := "2024-03-11";
     budget_total := of_Z 2000;
     currency := "USD";
     preferred_themes := ["heritage"];
     num_travelers := of_Z 2;
     additional_info := None |}.

(** A host on the time of New York in the spring of 2024: five hours
    behind UTC until 2024-03-10T07:00:00Z, when the clocks go from 02:00
    to 03:00, and four hours behind from then on. A local time that the
    clocks skip is read with the offset from before the change. The
    return to winter time in November is left out. *)
Definition new_york_2024 : TimeZone :=
  {| offset_at := fun t =>
       if t <? 1710054000000 then -18000000 else -14400000;
     offset_of_local := fun local =>
       if local <? 1710039600000 then -18000000 else -14400000 |}.

(** No credential, a clock that ticks once per reading, and a model that
    is never reached. *)
Definition offline : World :=
  {| GEMINI_API_KEY := None;
     clock := fun n => 1717200000000 + Z.of_nat n;
     clock_ix := 0;
     uuids := fun n => "uuid-" ++ Z_toString (Z.of_nat n);
     uuid_ix := 0;
     randoms := fun _ => lit 5 10;
     random_ix := 0;
     toString36 := fun _ => "0.4fzyo82mvyr";
     gemini := fun _ _ _ => Throw "fetch failed";
     gemini_ix := 0 |}.

(** The untyped request payload, field by field. *)
Record RawRequest : Type := mkRaw {
  raw_origin : option string;
  raw_destination : option string;
  raw_start_date : option string;
  raw_end_date : option string;
  raw_budget_total : option Z;
  raw_currency : option string;
  raw_preferred_themes : option (list string);
  raw_num_travelers : option Z;
  raw_additional_info : option string
}.

Definition missing {A} (name : string) (x : option A) : list FieldError :=
  match x with
  | Some _ => []
  | None => [mkFieldError name "required"]
  end.

(** Modelled from the spec: [validateTripRequest] of [@/lib/validation],
    which is not among the sources. It rejects missing required fields, a
    non-positive budget, an end date before the start date and a
    non-positive traveler count, with one error per field. *)
Definition validateTripRequest (raw : RawRequest) : Completion ValidationResult :=
  let errors :=
    (missing "origin" (raw_origin raw)
     ++ missing "destination" (raw_destination raw)
     ++ missing "start_date" (raw_start_date raw)
     ++ missing "end_date" (raw_end_date raw)
     ++ missing "budget_total" (raw_budget_total raw)
     ++ missing "currency" (raw_currency raw)
     ++ missing "preferred_themes" (raw_preferred_themes raw)
     ++ missing "num_travelers" (raw_num_travelers raw)
     ++ match raw_budget_total raw with
        | Some b => if b <=? 0 then [mkFieldError "budget_total" "must be positive"] else []
        | None => []
        end
     ++ match raw_num_travelers raw with
        | Some n => if n <=? 0 then [mkFieldError "num_travelers" "must be positive"] else []
        | None => []
        end
     ++ match raw_start_date raw, raw_end_date raw with
        | Some s, Some e =>
            match parseISODate s, parseISODate e with
            | Some ts, Some te =>
                if te <? ts then [mkFieldError "end_date" "before start_date"] else []
            | None, _ => [mkFieldError "start_date" "invalid date"]
            | _, None => [mkFieldError "end_date" "invalid date"]
            end
        | _, _ => []
        end)%list in
  match errors, raw with
  | [], {| raw_origin := Some o; raw_destination := Some d;
           raw_start_date := Some s; raw_end_date := Some e;
           raw_budget_total := Some b; raw_currency := Some c;
           raw_preferred_themes := Some t; raw_num_travelers := Some n;
           raw_additional_info := info |} =>
      Normal (Valid (mkTripRequest o d s e (of_Z b) c t (of_Z n) info))
  | _, _ => Normal (Invalid errors)
  end.

Definition bad_request : RawRequest :=
  mkRaw (Some "NYC") (Some "Paris") (Some "2024-06-05") (Some "2024-06-01")
    (Some (-10)) (Some "USD") (Some ["heritage"]) (Some 2) None.

Definition paris_request : RawRequest :=
  mkRaw (Some "NYC") (Some "Paris") (Some "2024-06-01") (Some "2024-06-05")
    (Some 2000) (Some "USD") (Some ["heritage"]) (Some 2) None.

(** A stand-in for the helpers of the orchestrator that the offline world
    never reaches. *)
Definition no_parse (text : string) : option RawRequest := None.
Definition no_schema (value : RawRequest)
  : Completion Orchestrator.SchemaValidation := Throw "unreachable".
Definition plain_prompt (tripRequest : TripRequest) (itineraryType : option string)
  : Completion string := Normal ("Plan a trip to " ++ destination tripRequest).
Definition no_confidence (value : RawRequest) : Completion (option Number) :=
  Normal None.

(** A server that holds one trip, and the same server with an itinerary
    of that trip in the cache. *)
Definition trip_1 : TripRoutes.Trip :=
  TripRoutes.mkTrip "trip_1" paris "2024-05-20T10:00:00.000Z" "created".

Definition server_0 : TripRoutes.State RawRequest :=
  TripRoutes.mkState RawRequest offline {[ "trip_1" := trip_1 ]} ∅.

Definition cached_budget : TripRoutes.StoredItinerary RawRequest :=
  TripRoutes.mkStored RawRequest "trip_1_budget" "trip_1" "budget" None paris
    "2024-05-20T10:00:01.000Z".


Definition generate_server_0 : GenerateRoute.State :=
  GenerateRoute.mkState offline ∅.

(** The itineraries that the generate route builds for the Paris trip. *)
Definition paris_itineraries : list GenerateRoute.Itinerary :=
  match GenerateRoute.generateMockItineraries parseISODate UTC_zone paris with
  | Normal its => its
  | Throw _ => []
  end.

(** The first of them, the budget itinerary. *)
Definition paris_budget_itinerary : GenerateRoute.Itinerary :=
  match paris_itineraries with
  | it :: _ => it
  | [] => GenerateRoute.mkItinerary "" "" "" NaN []
            (GenerateRoute.mkAccommodation "" "" NaN NaN [])
            (GenerateRoute.mkTransportation "" NaN "")
  end.
End Sample.

(** ** The trip lookups: [GET] of [trips/[tripId]/route.ts] and of
    [trips/route.ts]

    Both read a map of trips and change nothing. The second is a
    function of the module that creates the trips and reads their map;
    the first is a module of its own, whose map is [TripRoutes.held e]
    of that map, by the order [e] in which the modules were evaluated. A
    [params] promise that rejects, the one way into the catch block of
    the first, is left out. *)

Module TripLookup.
Import JS.

Inductive Body : Type :=
| ErrorBody (error : string)
| TripBody (trip : TripRoutes.Trip).

Record Response : Type := mkResponse {
  body : Body;
  status : Z
}.

Definition json (b : Body) : Response := mkResponse b 200.

(** export async function GET(request, { params }) of the trip route,
    with [tripId] the path parameter. *)
Definition GET_by_path (tripId : string)
    (mockTrips : gmap string TripRoutes.Trip) : Response :=
  if String.eqb tripId "" then
    mkResponse (ErrorBody "Trip ID is required") 400
  else
    match mockTrips !! tripId with
    | None => mkResponse (ErrorBody "Trip not found") 404
    | Some trip => json (TripBody trip)
    end.

(** export async function GET(request) of [trips/route.ts], with [id]
    what [searchParams.get("id")] gives. *)
Definition GET_by_query (id : option string)
    (mockTrips : gmap string TripRoutes.Trip) : Response :=
  if negb (Orchestrator.string_truthy id) then
    mkResponse (ErrorBody "Trip ID is required") 400
  else
    match mockTrips !! default "" id with
    | None => mkResponse (ErrorBody "Trip not found") 404
    | Some trip => json (TripBody trip)
    end.

End TripLookup.

(** ** The connectivity test of the model: [GET] and [POST] of the
    Gemini test route

    The route has a world of its own: the credential, the clock, and the
    model as a script of answers. An answer is the text of the response,
    or what the call or the reading of the text threw. *)

Module GeminiTest.
Import JS.

(** What the handlers read off a caught value: [error?.name],
    [error?.message] and [error?.code]. *)
Record JsError : Type := mkJsError {
  err_name : option string;
  err_message : option string;
  err_code : option string
}.

(** A field of the request body of [POST] as the handler reads it:
    absent ([undefined]), a string, or any other JSON value (null, a
    number, a boolean, an array, an object), of which the handler only
    ever tests the truthiness. *)
Inductive JsValue : Type :=
| Undefined
| JsString (s : string)
| JsOther (truthy : bool).

Definition value_truthy (v : JsValue) : bool :=
  match v with
  | Undefined => false
  | JsString s => negb (String.eqb s "")
  | JsOther truthy => truthy
  end.

Record World : Type := mkWorld {
  GEMINI_API_KEY : option string;          (* process.env.GEMINI_API_KEY *)
  clock : nat -> Z;                        (* Date.now(), new Date() *)
  clock_ix : nat;
  answers : nat -> JsValue -> string -> JsError + string;
                                           (* by call, model name, prompt *)
  calls : nat
}.

Definition Date_now (w : World) : Z * World :=
  (clock w (clock_ix w),
   mkWorld (GEMINI_API_KEY w) (clock w) (S (clock_ix w)) (answers w) (calls w)).

(** [genAI.getGenerativeModel({ model }).generateContent(prompt)], then
    [result.response] and [response.text()]. *)
Definition generateContent (modelName : JsValue) (prompt : string) (w : World)
  : (JsError + string) * World :=
  (answers w (calls w) modelName prompt,
   mkWorld (GEMINI_API_KEY w) (clock w) (clock_ix w) (answers w) (S (calls w))).

Record Data : Type := mkData {
  responseTime : string;
  promptTokens : Z;
  responseTokens : Z;
  modelUsed : JsValue;
  response : string;
  timestamp : string
}.

Inductive Body : Type :=
| Success (message : string) (data : Data)
| Failure (error : string) (details : option string)
    (originalError : option JsError).

Record Response : Type := mkResponse {
  body : Body;
  status : Z
}.

Definition testPrompt : string :=
  "Hello! This is a connectivity test. Please respond with 'Gemini API is working correctly' and today's date.".

(** [error?.message?.includes(s)] *)
Definition message_includes (error : JsError) (s : string) : bool :=
  match err_message error with
  | Some m =>
      match String.index 0 s m with
      | Some _ => true
      | None => false
      end
  | None => false
  end.

(** The [errorDetails] and [statusCode] that the catch block of [GET]
    settles on. *)
Definition errorDetails_statusCode (error : JsError) : string * Z :=
  if message_includes error "API key not valid" then
    ("Invalid API key - please check your GEMINI_API_KEY", 401)
  else if message_includes error "quota" then
    ("API quota exceeded - please check your Google AI quota", 429)
  else if message_includes error "network" then
    ("Network error - please check your internet connection", 503)
  else if match err_code error with
          | Some c => String.eqb c "ENOTFOUND"
          | None => false
          end then
    ("DNS resolution failed - cannot reach Google AI servers", 503)
  else ("Unknown error occurred", 500).

(** export async function GET(request) *)
Definition GET (w : World) : Response * World :=
  let apiKey := GEMINI_API_KEY w in
  if negb (Orchestrator.string_truthy apiKey) then
    (mkResponse
       (Failure "GEMINI_API_KEY not configured"
          (Some "Environment variable GEMINI_API_KEY is missing") None) 500,
     w)
  else
    let '(startTime, w1) := Date_now w in
    match generateContent (JsString "gemini-1.5-flash") testPrompt w1 with
    | (inr text, w2) =>
        let '(endTime, w3) := Date_now w2 in
        let duration := endTime - startTime in
        let '(now, w4) := Date_now w3 in
        (mkResponse
           (Success "Gemini API is functioning correctly"
              {| responseTime := Z_toString duration ++ "ms";
                 promptTokens := Z.of_nat (String.length testPrompt);
                 responseTokens := Z.of_nat (String.length text);
                 modelUsed := JsString "gemini-1.5-flash";
                 response := text;
                 timestamp := toISOString now |}) 200,
         w4)
    | (inl error, w2) =>
        let '(errorDetails, statusCode) := errorDetails_statusCode error in
        (mkResponse
           (Failure "Gemini API test failed" (Some errorDetails) (Some error))
           statusCode,
         w2)
    end.

(** The request body of [POST], as far as it is read: the values under
    [prompt] and [model]. *)
Record PostBody : Type := mkPostBody {
  prompt : JsValue;
  model : JsValue
}.

(** [model: modelName = "gemini-1.5-flash"]: the default stands in for
    an absent value only. *)
Definition modelName_of (body : PostBody) : JsValue :=
  match model body with
  | Undefined => JsString "gemini-1.5-flash"
  | v => v
  end.

(** What [prompt.substring(0, 100)] throws when [prompt] is no string. *)
Definition substring_TypeError : JsError :=
  mkJsError (Some "TypeError") (Some "prompt.substring is not a function") None.

(** export async function POST(request), with [request_json] the
    outcome of [await request.json()] and of taking the body apart. *)
Definition POST (request_json : JsError + PostBody) (w : World)
  : Response * World :=
  let failed (error : JsError) (w : World) :=
    (mkResponse
       (Failure "Custom prompt test failed"
          (Some (if Orchestrator.string_truthy (err_message error)
                 then default "" (err_message error)
                 else "Unknown error occurred"))
          (Some (mkJsError (err_name error) (err_message error) None))) 500,
     w) in
  match request_json with
  | inl error => failed error w
  | inr body =>
      let modelName := modelName_of body in
      if negb (value_truthy (prompt body)) then
        (mkResponse
           (Failure "Missing prompt"
              (Some "Please provide a 'prompt' field in the request body")
              None) 400,
         w)
      else if negb (Orchestrator.string_truthy (GEMINI_API_KEY w)) then
        (mkResponse (Failure "GEMINI_API_KEY not configured" None None) 500, w)
      else
        match prompt body with
        | JsString prompt =>
            let '(startTime, w1) := Date_now w in
            match generateContent modelName prompt w1 with
            | (inr text, w2) =>
                let '(endTime, w3) := Date_now w2 in
                let duration := endTime - startTime in
                let '(now, w4) := Date_now w3 in
                (mkResponse
                   (Success "Custom prompt processed successfully"
                      {| responseTime := Z_toString duration ++ "ms";
                         promptTokens := Z.of_nat (String.length prompt);
                         responseTokens := Z.of_nat (String.length text);
                         modelUsed := modelName;
                         response := text;
                         timestamp := toISOString now |}) 200,
                 w4)
            | (inl error, w2) => failed error w2
            end
        | _ =>
            (* console.log(..., prompt.substring(0, 100) + "...") *)
            failed substring_TypeError w
        end
  end.

End GeminiTest.

(** ** The pages: what [ItineraryResults] and [SingleItineraryDetail]
    compute from the data they fetch

    Only the expressions that decide what is shown are embedded; the
    markup around them is not. *)

Module Components.
Import JS Eff.






(** *** [SingleItineraryDetail], on an entry of the generate route *)

(** [l.find((it, idx) => p(it, idx))] *)
Fixpoint find_indexed {A} (p : A -> nat -> bool) (l : list A) (idx : nat)
  : option A :=
  match l with
  | [] => None
  | x :: r => if p x idx then Some x else find_indexed p r (S idx)
  end.

(** [l.findIndex(p)]: -1 when nothing is found. *)
Fixpoint findIndex {A} (p : A -> bool) (l : list A) (idx : Z) : Z :=
  match l with
  | [] => -1
  | x :: r => if p x then idx else findIndex p r (idx + 1)
  end.

(** [data.itineraries?.find(it => it.id === itineraryId)
     || data.itineraries?.find((it, idx) => idx.toString() === itineraryId)
     || data.itineraries?.[0]] *)
Definition targetItinerary (data : GenerateRoute.Entry) (itineraryId : string)
  : option GenerateRoute.Itinerary :=
  let itineraries := GenerateRoute.itineraries data in
  match List.find (fun it => String.eqb (GenerateRoute.id it) itineraryId)
          itineraries with
  | Some it => Some it
  | None =>
      match find_indexed
              (fun _ idx => String.eqb (Z_toString (Z.of_nat idx)) itineraryId)
              itineraries 0 with
      | Some it => Some it
      | None => head itineraries
      end
  end.

(** [data.itineraries?.findIndex(it => it.id === targetItinerary.id) ?? 0] *)
Definition itineraryIndex (data : GenerateRoute.Entry)
    (targetItinerary : GenerateRoute.Itinerary) : Z :=
  findIndex
    (fun it => String.eqb (GenerateRoute.id it) (GenerateRoute.id targetItinerary))
    (GenerateRoute.itineraries data) 0.

(** [itinerary.id === targetItinerary.id || index === itineraryIndex] *)
Definition isActive (data : GenerateRoute.Entry)
    (targetItinerary itinerary : GenerateRoute.Itinerary) (index : Z) : bool :=
  String.eqb (GenerateRoute.id itinerary) (GenerateRoute.id targetItinerary)
  || (index =? itineraryIndex data targetItinerary).

(** *** The option cards of [ItineraryResults], on a stored trip *)

(** [indexNum === 0 ? 'budget' : indexNum === 1 ? 'balanced' : 'premium'] *)
Definition card_itineraryType (indexNum : Z) : string :=
  if indexNum =? 0 then "budget"
  else if indexNum =? 1 then "balanced" else "premium".

(** [indexNum === 0 ? 0.7 : indexNum === 1 ? 0.9 : 1.2] *)
Definition budgetMultiplier (indexNum : Z) : Number :=
  if indexNum =? 0 then lit 7 10
  else if indexNum =? 1 then lit 9 10 else lit 12 10.

(** [Math.floor((data?.tripRequest?.budget_total || 0) * budgetMultiplier)] *)
Definition estimatedCost (data : TripRoutes.Trip) (indexNum : Z) : Number :=
  let budget_total := budget_total (TripRoutes.trip_tripRequest data) in
  Math_floor
    (mul (if truthy budget_total then budget_total else of_Z 0)
       (budgetMultiplier indexNum)).

Section Cards.
Variable Date_parse : string -> option Z.
Variable host : TimeZone.

(** [s ? new Date(s) : new Date()], as a time value. *)
Definition card_date (s : string) : M (option Z) :=
  if String.eqb s "" then (let* now := Date_now in ret (Some now))
  else ret (Date_parse s).

(** [Math.max(1, Math.ceil((endDate.getTime() - startDate.getTime())
     / (1000 * 60 * 60 * 24)))] *)
Definition card_duration (data : TripRoutes.Trip) : M (option Z) :=
  let* startDate := card_date (start_date (TripRoutes.trip_tripRequest data)) in
  let* endDate := card_date (end_date (TripRoutes.trip_tripRequest data)) in
  ret (match startDate, endDate with
       | Some start, Some end_ =>
           Some (Z.max 1 (ceil_div (end_ - start) msPerDay))
       | _, _ => None
       end).
End Cards.

End Components.

(** ** Vocabulary of the further properties *)

Module Calls.
Import Eff.

(** A computation that leaves the credential and the model alone: it
    makes no call to the model. *)
Definition keeps_model {A} (m : M A) : Prop :=
  forall w c w',
    m w = (c, w') ->
    GEMINI_API_KEY w' = GEMINI_API_KEY w
    /\ gemini w' = gemini w
    /\ gemini_ix w' = gemini_ix w.

(** A computation that makes at most [n] calls to the model. *)
Definition calls_at_most {A} (n : nat) (m : M A) : Prop :=
  forall w c w',
    m w = (c, w') ->
    GEMINI_API_KEY w' = GEMINI_API_KEY w
    /\ gemini w' = gemini w
    /\ (gemini_ix w <= gemini_ix w' <= gemini_ix w + n)%nat.

End Calls.

(** ** Sample data of the further properties *)

Module Scenario.
Import JS Eff.

(** A stand-in for the parser and the schema validator: a text that
    starts with a brace parses to itself, and every value but [{}]
    passes. *)
Definition braces_parse (text : string) : option string :=
  if String.prefix "{" text then Some text else None.

Definition nonempty_schema (value : string)
  : Completion Orchestrator.SchemaValidation :=
  Normal (if String.eqb value "{}"
          then Orchestrator.mkSchemaValidation false ["itineraries: required"]
          else Orchestrator.mkSchemaValidation true []).

Definition no_score (value : string) : Completion (option Number) := Normal None.

(** A credential, and a model whose first answer fails the schema and
    whose later answers pass. *)
Definition online : World :=
  {| GEMINI_API_KEY := Some "AIzaSySample";
     clock := fun n => 1717200000000 + Z.of_nat n;
     clock_ix := 0;
     uuids := fun n => "uuid-" ++ Z_toString (Z.of_nat n);
     uuid_ix := 0;
     randoms := fun _ => lit 5 10;
     random_ix := 0;
     toString36 := fun _ => "0.4fzyo82mvyr";
     gemini := fun n _ _ =>
       match n with
       | O => Normal "{}"
       | _ => Normal "{itineraries:[]}"
       end;
     gemini_ix := 0 |}.

(** A trip that ends four days before it starts, one whose end is the
    day before its start, one with a start date that is no date, and
    one without themes. *)
Definition backwards : TripRequest :=
  {| origin := "NYC";
     destination := "Paris";
     start_date := "2024-06-05";
     end_date := "2024-06-01";
     budget_total := of_Z 2000;
     currency := "USD";
     preferred_themes := ["heritage"];
     num_travelers := of_Z 2;
     additional_info := None |}.

Definition eve : TripRequest :=
  {| origin := "NYC";
     destination := "Paris";
     start_date := "2024-06-02";
     end_date := "2024-06-01";
     budget_total := of_Z 2000;
     currency := "USD";
     preferred_themes := ["heritage"];
     num_travelers := of_Z 2;
     additional_info := None |}.

Definition undated : TripRequest :=
  {| origin := "NYC";
     destination := "Paris";
     start_date := "next week";
     end_date := "2024-06-01";
     budget_total := of_Z 2000;
     currency := "USD";
     preferred_themes := ["heritage"];
     num_travelers := of_Z 2;
     additional_info := None |}.

Definition themeless : TripRequest :=
  {| origin := "NYC";
     destination := "Paris";
     start_date := "2024-06-01";
     end_date := "2024-06-02";
     budget_total := of_Z 2000;
     currency := "USD";
     preferred_themes := [];
     num_travelers := of_Z 2;
     additional_info := None |}.

(** A server that still holds an itinerary of a trip it no longer
    knows. *)
Definition orphaned : TripRoutes.State Sample.RawRequest :=
  TripRoutes.mkState Sample.RawRequest Sample.offline ∅
    {[ "trip_1_budget" := Sample.cached_budget ]}.

(** The world of the test route with no credential. *)
Definition unconfigured : GeminiTest.World :=
  {| GeminiTest.GEMINI_API_KEY := None;
     GeminiTest.clock := fun n => 1717200000000 + Z.of_nat n;
     GeminiTest.clock_ix := 0;
     GeminiTest.answers := fun _ _ _ => inr "Gemini API is working correctly";
     GeminiTest.calls := 0 |}.

(** A credential of the wrong form. *)
Definition misconfigured : World :=
  {| GEMINI_API_KEY := Some "sk-sample";
     clock := clock online;
     clock_ix := 0;
     uuids := uuids online;
     uuid_ix := 0;
     randoms := randoms online;
     random_ix := 0;
     toString36 := toString36 online;
     gemini := gemini online;
     gemini_ix := 0 |}.

End Scenario.

(** * Properties *)

(** ** Running computations *)

Module EffFacts.
Import Eff.

Lemma bind_Normal {A B} (m : M A) (f : A -> M B) w a w' :
  m w = (Normal a, w') -> bind m f w = f a w'.
Proof. intros H. unfold bind. now rewrite H. Qed.

Lemma bind_Throw {A B} (m : M A) (f : A -> M B) w e w' :
  m w = (Throw e, w') -> bind m f w = (Throw e, w').
Proof. intros H. unfold bind. now rewrite H. Qed.

Lemma try_catch_Normal {A} (m : M A) h w a w' :
  m w = (Normal a, w') -> try_catch m h w = (Normal a, w').
Proof. intros H. unfold try_catch. now rewrite H. Qed.

Lemma try_catch_Throw {A} (m : M A) h w e w' :
  m w = (Throw e, w') -> try_catch m h w = h e w'.
Proof. intros H. unfold try_catch. now rewrite H. Qed.

Lemma bind_inv {A B} (m : M A) (f : A -> M B) w b w' :
  bind m f w = (Normal b, w') ->
  exists a w1, m w = (Normal a, w1) /\ f a w1 = (Normal b, w').
Proof.
  unfold bind. destruct (m w) as [[a|e] w1]; intros H.
  - now exists a, w1.
  - discriminate.
Qed.

Lemma ret_inv {A} (a b : A) w w' :
  ret a w = (Normal b, w') -> a = b /\ w = w'.
Proof. unfold ret. intros H. now inversion H. Qed.

Lemma try_catch_inv {A} (m : M A) h w a w' :
  try_catch m h w = (Normal a, w') ->
  m w = (Normal a, w')
  \/ exists e w1, m w = (Throw e, w1) /\ h e w1 = (Normal a, w').
Proof.
  unfold try_catch. destruct (m w) as [[x|e] w1]; intros H.
  - now left.
  - right. now exists e, w1.
Qed.

Lemma total_ret {A} (a : A) : total (ret a).
Proof. intros w. now exists a, w. Qed.

Lemma total_bind {A B} (m : M A) (f : A -> M B) :
  total m -> (forall a, total (f a)) -> total (bind m f).
Proof.
  intros Hm Hf w. destruct (Hm w) as (a & w1 & E).
  destruct (Hf a w1) as (b & w2 & E2).
  exists b, w2. now rewrite (bind_Normal _ _ _ _ _ E).
Qed.

Lemma total_try_catch {A} (m : M A) h :
  (forall e, total (h e)) -> total (try_catch m h).
Proof.
  intros Hh w. unfold try_catch. destruct (m w) as [[a|e] w1].
  - now exists a, w1.
  - apply Hh.
Qed.

Lemma total_Date_now : total Date_now.
Proof. intros w. unfold Date_now. eauto. Qed.

Lemma total_uuidv4 : total uuidv4.
Proof. intros w. unfold uuidv4. eauto. Qed.

Lemma total_Math_random : total Math_random.
Proof. intros w. unfold Math_random. eauto. Qed.

End EffFacts.

Module DateFacts.
Import JS.

Lemma ceil_div_nonneg a : 0 <= a -> 0 <= ceil_div a msPerDay.
Proof.
  intros Ha. unfold ceil_div, msPerDay.
  assert (- a / (1000 * 60 * 60 * 24) <= 0); [|lia].
  apply Z.div_le_upper_bound; lia.
Qed.

(** On a host whose local time keeps its offset over the days that the
    loop visits, the dates are those of successive days. *)
Lemma iso_dates_from_one host t n :
  steady host t n ->
  iso_dates host t 0 n
  = (fun k => split_T_0 (toISOString (t + (k - 1) * msPerDay)))
      <$> seqZ 1 (Z.of_nat n).
Proof.
  intros Hst. unfold iso_dates.
  rewrite <- (fmap_add_seqZ 1 0), <- list_fmap_compose.
  apply list_fmap_ext. intros i k Hk. unfold compose.
  apply lookup_seqZ in Hk as [-> Hi].
  unfold setDate_plus. cbv zeta.
  rewrite (Hst (0 + Z.of_nat i)) by lia.
  f_equal. f_equal. lia.
Qed.

Lemma steady_le host t n m : steady host t n -> (m <= n)%nat -> steady host t m.
Proof. intros H Hm k Hk. apply H. lia. Qed.

Lemma steady_fixed_zone offset t n : steady (fixed_zone offset) t n.
Proof. intros k _. reflexivity. Qed.

End DateFacts.

Module OrchestratorFacts.
Import JS Eff EffFacts DateFacts Orchestrator.

Lemma mockDay_valid host tripRequest t dailyBudget type i w :
  exists d w',
    mockDay host tripRequest (Some t) dailyBudget type i w = (Normal d, w')
    /\ day d = i + 1
    /\ date d = split_T_0 (toISOString (setDate_plus host t i))
    /\ daily_cost d = mkMoney (Math_floor dailyBudget) (currency tripRequest).
Proof.
  assert (Ht : total (mockDay host tripRequest (Some t) dailyBudget type i)).
  { unfold mockDay.
    repeat (apply total_bind; [first [apply total_ret | apply total_Math_random]|];
            intros ?).
    apply total_ret. }
  destruct (Ht w) as (d & w' & E). exists d, w'. split; [exact E|].
  unfold mockDay in E.
  repeat (apply bind_inv in E as (? & ? & ? & E)).
  repeat match goal with H : ret _ _ = (Normal _, _) |- _ =>
    apply ret_inv in H as (? & ?) end.
  subst. cbn [day date daily_cost]. auto.
Qed.

Lemma mockDays_loop_valid host tripRequest t dailyBudget type n :
  forall i w,
  exists ds w',
    mockDays_loop host tripRequest (Some t) dailyBudget type n i w = (Normal ds, w')
    /\ length ds = n
    /\ day <$> ds = seqZ (i + 1) (Z.of_nat n)
    /\ date <$> ds = iso_dates host t i n
    /\ Forall (fun d => daily_cost d
                        = mkMoney (Math_floor dailyBudget) (currency tripRequest)) ds.
Proof.
  induction n as [|n IH]; intros i w.
  - exists [], w. simpl. repeat split; constructor.
  - destruct (mockDay_valid host tripRequest t dailyBudget type i w)
      as (d & w1 & Ed & Hday & Hdate & Hcost).
    destruct (IH (i + 1) w1) as (ds & w2 & Eds & Hlen & Hdays & Hdates & Hcosts).
    exists (d :: ds), w2. cbn [mockDays_loop].
    rewrite (bind_Normal _ _ _ _ _ Ed), (bind_Normal _ _ _ _ _ Eds).
    unfold ret, iso_dates in *.
    rewrite Nat2Z.inj_succ, (seqZ_cons i), (seqZ_cons (i + 1)), !fmap_cons by lia.
    replace (Z.pred (Z.succ (Z.of_nat n))) with (Z.of_nat n) by lia.
    replace (Z.succ (i + 1)) with (i + 1 + 1) by lia.
    replace (Z.succ i) with (i + 1) by lia.
    rewrite Hday, Hdate, Hdays, Hdates. cbn [length]. rewrite Hlen.
    repeat split; auto.
Qed.

Lemma mockDays_loop_none host tripRequest startDate dailyBudget type i w :
  mockDays_loop host tripRequest startDate dailyBudget type 0 i w = (Normal [], w).
Proof. reflexivity. Qed.

(** *** The selection of itineraries *)

Lemma selectItineraries_all allItineraries :
  selectItineraries None allItineraries = allItineraries.
Proof. reflexivity. Qed.

Lemma selectItineraries_Forall (P : Itinerary -> Prop) itineraryType l :
  Forall P l -> Forall P (selectItineraries itineraryType l).
Proof.
  intros H. unfold selectItineraries.
  assert (Hf : forall f, Forall P (List.filter f l)).
  { intros f. rewrite List.Forall_forall in *. intros x Hx.
    apply List.filter_In in Hx. now apply H. }
  destruct (string_truthy itineraryType); [|exact H].
  destruct (List.filter _ l) eqn:E.
  - apply Hf.
  - rewrite <- E. apply Hf.
Qed.

Lemma selectItineraries_three itineraryType u1 u2 u3 d1 d2 d3 tripRequest :
  let all := [ balanced_itinerary tripRequest u1 d1;
               budget_itinerary tripRequest u2 d2;
               premium_itinerary tripRequest u3 d3 ] in
  selectItineraries itineraryType all =
    match itineraryType with
    | None => all
    | Some t =>
        if String.eqb t "" then all
        else if String.eqb t "budget" then [budget_itinerary tripRequest u2 d2]
        else if String.eqb t "premium" then [premium_itinerary tripRequest u3 d3]
        else [balanced_itinerary tripRequest u1 d1]
    end.
Proof.
  intros all. destruct itineraryType as [t|]; [|reflexivity].
  unfold selectItineraries, string_truthy. cbn [default].
  destruct (String.eqb t "") eqn:E0; [reflexivity|]. cbn [negb].
  unfold all. cbn [List.filter type balanced_itinerary budget_itinerary
                     premium_itinerary].
  unfold Datatypes.id.
  rewrite (String.eqb_sym "balanced" t), (String.eqb_sym "budget" t),
    (String.eqb_sym "premium" t).
  destruct (String.eqb t "balanced") eqn:E1.
  - apply String.eqb_eq in E1. subst t. reflexivity.
  - destruct (String.eqb t "budget") eqn:E2.
    + apply String.eqb_eq in E2. subst t. reflexivity.
    + destruct (String.eqb t "premium") eqn:E3.
      * apply String.eqb_eq in E3. subst t. reflexivity.
      * cbn. reflexivity.
Qed.

(** *** What the mock generator returns *)

Lemma selected_types_valid itineraryType :
  Forall (fun t => In t ["budget"; "balanced"; "premium"])
    (selected_types itineraryType).
Proof.
  unfold selected_types. destruct itineraryType as [t|].
  - repeat (match goal with |- context [if ?c then _ else _] => destruct c end);
      repeat (apply List.Forall_cons || apply List.Forall_nil); cbn; tauto.
  - repeat (apply List.Forall_cons || apply List.Forall_nil); cbn; tauto.
Qed.

Lemma selected_types_requested t :
  In t ["budget"; "balanced"; "premium"] -> selected_types (Some t) = [t].
Proof.
  cbn. intros [<-|[<-|[<-|[]]]]; reflexivity.
Qed.

Section Pipeline.
Variable Date_parse : string -> option Z.
Variable host : TimeZone.
Variable Json : Type.
Variable JSON_parse : string -> option Json.
Variable validateItinerarySchema : Json -> Completion SchemaValidation.
Variable buildCanonicalPrompt : TripRequest -> option string -> Completion string.
Variable Json_confidence_score : Json -> Completion (option Number).

Abbreviation duration_of tripRequest :=
  (calculateDuration Date_parse (start_date tripRequest) (end_date tripRequest)).
Abbreviation days_ok := (Orchestrator.days_ok Date_parse host).
Abbreviation mock_ok := (Orchestrator.mock_ok Date_parse host).
Abbreviation usable := (Orchestrator.usable Json validateItinerarySchema).

Lemma calculateDuration_invalid_start startDate endDate :
  Date_parse startDate = None ->
  calculateDuration Date_parse startDate endDate = None.
Proof. intros E. unfold calculateDuration. now rewrite E. Qed.

Lemma generateMockDays_run tripRequest dailyBudget type w :
  exists ds w',
    generateMockDays Date_parse host tripRequest (duration_of tripRequest)
      dailyBudget type w = (Normal ds, w')
    /\ days_ok tripRequest ds.
Proof.
  unfold generateMockDays, Orchestrator.days_ok.
  destruct (Date_parse (start_date tripRequest)) as [t|] eqn:E.
  - destruct (mockDays_loop_valid host tripRequest t dailyBudget type
                (loop_turns (duration_of tripRequest)) 0 w)
      as (ds & w' & Eds & Hlen & Hdays & Hdates & _).
    exists ds, w'. rewrite Hlen. repeat split; auto.
    intros t' Ht. inversion Ht. subst t'. exact Hdates.
  - rewrite (calculateDuration_invalid_start _ _ E). exists [], w.
    cbn. repeat split; auto.
Qed.

Lemma generateMockItinerary_run tripRequest itineraryType w :
  exists u1 u2 u3 days1 days2 days3 now request_id w',
    generateMockItinerary Date_parse host Json tripRequest itineraryType w
    = (Normal
         (mkResult true
            (Some (MockData
               {| itineraries :=
                    selectItineraries itineraryType
                      [ balanced_itinerary tripRequest u1 days1;
                        budget_itinerary tripRequest u2 days2;
                        premium_itinerary tripRequest u3 days3 ];
                  metadata := mock_metadata itineraryType now request_id |}))
            None), w')
    /\ days_ok tripRequest days1
    /\ days_ok tripRequest days2
    /\ days_ok tripRequest days3.
Proof.
  unfold generateMockItinerary.
  destruct (total_uuidv4 w) as (u1 & w1 & E1).
  rewrite (bind_Normal _ _ _ _ _ E1).
  edestruct (generateMockDays_run tripRequest) as (d1 & w2 & D1 & H1).
  rewrite (bind_Normal _ _ _ _ _ D1).
  destruct (total_uuidv4 w2) as (u2 & w3 & E2).
  rewrite (bind_Normal _ _ _ _ _ E2).
  edestruct (generateMockDays_run tripRequest) as (d2 & w4 & D2 & H2).
  rewrite (bind_Normal _ _ _ _ _ D2).
  destruct (total_uuidv4 w4) as (u3 & w5 & E3).
  rewrite (bind_Normal _ _ _ _ _ E3).
  edestruct (generateMockDays_run tripRequest) as (d3 & w6 & D3 & H3).
  rewrite (bind_Normal _ _ _ _ _ D3).
  destruct (total_Date_now w6) as (now & w7 & E4).
  rewrite (bind_Normal _ _ _ _ _ E4).
  destruct (total_uuidv4 w7) as (rid & w8 & E5).
  rewrite (bind_Normal _ _ _ _ _ E5).
  exists u1, u2, u3, d1, d2, d3, now, rid, w8. unfold ret. auto.
Qed.

Abbreviation generateMockItinerary_ :=
  (generateMockItinerary Date_parse host Json).
Abbreviation attemptGeneration_ :=
  (attemptGeneration Json JSON_parse validateItinerarySchema).
Abbreviation generateItinerary_ :=
  (generateItinerary Date_parse host Json JSON_parse validateItinerarySchema
     buildCanonicalPrompt Json_confidence_score).

Lemma generateMockItinerary_usable tripRequest itineraryType w :
  exists r w',
    generateMockItinerary_ tripRequest itineraryType w = (Normal r, w')
    /\ usable r.
Proof.
  destruct (generateMockItinerary_run tripRequest itineraryType w)
    as (u1 & u2 & u3 & d1 & d2 & d3 & now & rid & w' & E & _).
  eexists. exists w'. split; [exact E|]. repeat split.
Qed.

Lemma attemptGeneration_total prompt temperature :
  total (attemptGeneration_ prompt temperature).
Proof.
  apply total_try_catch. intros e. apply total_ret.
Qed.

(** A successful attempt carries a value that passed validation. *)
Lemma attemptGeneration_success prompt temperature w a w' :
  attemptGeneration_ prompt temperature w = (Normal a, w') ->
  at_success a = true ->
  exists value v,
    at_data a = Some value
    /\ validateItinerarySchema value = Normal v
    /\ sv_success v = true.
Proof.
  unfold attemptGeneration. intros H Hs.
  apply try_catch_inv in H as [H | (e & w1 & _ & H)].
  2: { unfold ret in H. inversion H; subst a. discriminate. }
  apply bind_inv in H as (text & w1 & _ & H).
  destruct (JSON_parse text) as [value|].
  - apply bind_inv in H as (v & w2 & Hv & H).
    unfold lift in Hv. inversion Hv; subst w2.
    destruct (sv_success v) eqn:Ev; unfold ret in H; inversion H; subst a.
    + exists value, v. auto.
    + discriminate.
  - destruct (extract_json text) as [extracted|].
    2: { unfold ret in H. inversion H; subst a. discriminate. }
    destruct (JSON_parse extracted) as [value|].
    2: { unfold ret in H. inversion H; subst a. discriminate. }
    apply bind_inv in H as (v & w2 & Hv & H).
    unfold lift in Hv. inversion Hv; subst w2.
    destruct (sv_success v) eqn:Ev; unfold ret in H; inversion H; subst a.
    + exists value, v. auto.
    + discriminate.
Qed.

(** Whatever the guarded block of [generateItinerary] returns is usable. *)
Lemma generateItinerary_usable tripRequest itineraryType w r w' :
  generateItinerary_ tripRequest itineraryType w = (Normal r, w') ->
  usable r.
Proof.
  unfold generateItinerary. intros H.
  apply bind_inv in H as (requestStartTime & w0 & _ & H).
  assert (Hmock : forall w1,
             generateMockItinerary_ tripRequest itineraryType w1 = (Normal r, w') ->
             usable r).
  { intros w1 E.
    destruct (generateMockItinerary_usable tripRequest itineraryType w1)
      as (r' & w'' & E' & Hu).
    rewrite E in E'. now inversion E'. }
  apply try_catch_inv in H as [H | (e & w1 & _ & H)]; [|eauto].
  apply bind_inv in H as (key & w1 & _ & H).
  match type of H with (if ?c then _ else _) _ = _ => destruct c end; [eauto|].
  apply bind_inv in H as (prompt & w2 & _ & H).
  apply bind_inv in H as (first & w3 & Hfirst & H).
  apply bind_inv in H as (result & w4 & Hresult & H).
  destruct (at_success result) eqn:Es; cbn [negb] in H; [|eauto].
  apply bind_inv in H as (finished & w5 & _ & H).
  assert (Hvalid : exists value v,
             at_data result = Some value
             /\ validateItinerarySchema value = Normal v
             /\ sv_success v = true).
  { destruct (negb (at_success first) && error_is first "schema_validation_failed").
    - eapply attemptGeneration_success; eauto.
    - unfold ret in Hresult. inversion Hresult; subst result w4.
      eapply attemptGeneration_success; eauto. }
  destruct Hvalid as (value & v & Hd & Hv & Hsv). rewrite Hd in H.
  apply bind_inv in H as (own & w6 & _ & H).
  apply bind_inv in H as (now & w7 & _ & H).
  apply bind_inv in H as (request_id & w8 & _ & H).
  unfold ret in H. inversion H. repeat split. cbn. eauto.
Qed.

Lemma generateItinerary_total tripRequest itineraryType :
  total (generateItinerary_ tripRequest itineraryType).
Proof.
  unfold generateItinerary.
  apply total_bind; [apply total_Date_now|]. intros requestStartTime.
  apply total_try_catch. intros e w.
  destruct (generateMockItinerary_usable tripRequest itineraryType w)
    as (r & w' & E & _).
  eauto.
Qed.

(** Without a credential the orchestrator goes straight to the mock
    generator, after reading the clock once. *)
Lemma generateItinerary_no_credential tripRequest itineraryType w :
  GEMINI_API_KEY w = None ->
  exists t w1,
    Date_now w = (Normal t, w1)
    /\ generateItinerary_ tripRequest itineraryType w
       = generateMockItinerary_ tripRequest itineraryType w1.
Proof.
  intros Hkey. eexists. eexists. split; [reflexivity|].
  unfold generateItinerary. erewrite bind_Normal by reflexivity.
  match goal with |- _ = ?m ?w1 =>
    destruct (generateMockItinerary_usable tripRequest itineraryType w1)
      as (r & w' & E & _) end.
  rewrite E. apply try_catch_Normal.
  erewrite bind_Normal by reflexivity. cbn [GEMINI_API_KEY].
  rewrite Hkey in E |- *. exact E.
Qed.

Lemma generateMockItinerary_spec tripRequest itineraryType w :
  exists r w' m,
    generateMockItinerary_ tripRequest itineraryType w = (Normal r, w')
    /\ success r = true
    /\ error r = None
    /\ data r = Some (MockData m)
    /\ mock_ok tripRequest itineraryType m.
Proof.
  destruct (generateMockItinerary_run tripRequest itineraryType w)
    as (u1 & u2 & u3 & d1 & d2 & d3 & now & rid & w' & E & H1 & H2 & H3).
  eexists. exists w'. eexists. split; [exact E|].
  cbn [success error data]. repeat split; cbn [itineraries].
  - rewrite selectItineraries_three. unfold selected_types.
    destruct itineraryType as [t|]; [|reflexivity].
    repeat (match goal with |- context [if ?c then _ else _] => destruct c end);
      reflexivity.
  - apply selectItineraries_Forall.
    repeat (apply List.Forall_cons || apply List.Forall_nil);
      (split; [assumption|]); unfold cost_by_type;
      first [ left; split; reflexivity
            | right; left; split; reflexivity
            | right; right; split; reflexivity ].
Qed.

Lemma days_ok_length tripRequest ds s e :
  Date_parse (start_date tripRequest) = Some s ->
  Date_parse (end_date tripRequest) = Some e ->
  s <= e ->
  days_ok tripRequest ds ->
  Z.of_nat (length ds) = Z.max 1 (ceil_div (e - s) msPerDay).
Proof.
  intros Hs He Hle (Hlen & _). rewrite Hlen.
  unfold calculateDuration. rewrite Hs, He. cbn [loop_turns].
  rewrite Z.abs_eq by lia. lia.
Qed.

(** The orchestrator always hands back a usable result. *)
Lemma generateItinerary_run tripRequest itineraryType w :
  exists r w',
    generateItinerary_ tripRequest itineraryType w = (Normal r, w')
    /\ usable r.
Proof.
  destruct (generateItinerary_total tripRequest itineraryType w)
    as (r & w' & E).
  exists r, w'. split; [exact E|]. eapply generateItinerary_usable, E.
Qed.
End Pipeline.
End OrchestratorFacts.

Module GenerateRouteFacts.
Import JS Eff DateFacts GenerateRoute.

Lemma from_loop_Normal {A} (f : Z -> Completion A) (g : Z -> A) :
  (forall i, f i = Normal (g i)) ->
  forall n i, from_loop f n i = Normal (g <$> seqZ i (Z.of_nat n)).
Proof.
  intros Hf. induction n as [|n IH]; intros i.
  - reflexivity.
  - cbn [from_loop]. rewrite Hf, IH.
    rewrite Nat2Z.inj_succ, (seqZ_cons i), fmap_cons by lia.
    now replace (Z.pred (Z.succ (Z.of_nat n))) with (Z.of_nat n) by lia.
Qed.

Section Route.
Variable Date_parse : string -> option Z.
Variable host : TimeZone.

Abbreviation days_for := (GenerateRoute.days_for Date_parse host).
Abbreviation dailyBudget_of := (GenerateRoute.dailyBudget_of Date_parse).

Lemma generateDays_run tripRequest budgetMultiplier style :
  let startDate := Date_parse (start_date tripRequest) in
  let endDate := Date_parse (end_date tripRequest) in
  let days := day_count startDate endDate in
  let budgetPerDay :=
    Math_floor (div (budget_total tripRequest) (of_count days)) in
  generateDays host tripRequest startDate days budgetPerDay budgetMultiplier style
  = Normal (days_for tripRequest budgetMultiplier style).
Proof.
  cbv zeta. unfold generateDays, GenerateRoute.days_for, Array_from.
  destruct (Date_parse (start_date tripRequest)) as [start|].
  - now apply from_loop_Normal.
  - reflexivity.
Qed.

Lemma generateMockItineraries_run tripRequest :
  exists its,
    generateMockItineraries Date_parse host tripRequest = Normal its
    /\ id <$> its = ["budget"; "balanced"; "luxury"]
    /\ totalCost <$> its
       = [ Math_floor (mul (budget_total tripRequest) (lit 7 10));
           Math_floor (mul (budget_total tripRequest) (lit 9 10));
           Math_floor (mul (budget_total tripRequest) (lit 12 10)) ]
    /\ days <$> its
       = [ days_for tripRequest (lit 7 10) "budget-friendly";
           days_for tripRequest (lit 9 10) "balanced";
           days_for tripRequest (lit 12 10) "luxury" ].
Proof.
  unfold generateMockItineraries. cbv zeta.
  rewrite !generateDays_run. eexists. split; [reflexivity|].
  repeat split.
Qed.

Lemma day_count_valid s e :
  s <= e ->
  day_count (Some s) (Some e) = Some (ceil_div (e - s) msPerDay + 1)
  /\ 1 <= ceil_div (e - s) msPerDay + 1.
Proof.
  intros Hle. split; [reflexivity|].
  pose proof (ceil_div_nonneg (e - s) ltac:(lia)). lia.
Qed.

Lemma days_for_shape tripRequest budgetMultiplier style s e :
  Date_parse (start_date tripRequest) = Some s ->
  Date_parse (end_date tripRequest) = Some e ->
  s <= e ->
  let n := ceil_div (e - s) msPerDay + 1 in
  let ds := days_for tripRequest budgetMultiplier style in
  Z.of_nat (length ds) = n
  /\ day <$> ds = seqZ 1 n
  /\ date <$> ds = iso_dates host s 0 (Z.to_nat n)
  /\ Forall (fun d =>
       cost <$> activities d
       = [ Math_floor (mul (dailyBudget_of tripRequest budgetMultiplier) (lit 3 10));
           Math_floor (mul (dailyBudget_of tripRequest budgetMultiplier) (lit 2 10));
           Math_floor (mul (dailyBudget_of tripRequest budgetMultiplier) (lit 3 10));
           Math_floor (mul (dailyBudget_of tripRequest budgetMultiplier) (lit 2 10)) ])
       ds.
Proof.
  intros Hs He Hle n ds. subst ds. unfold GenerateRoute.days_for, GenerateRoute.dailyBudget_of.
  rewrite Hs, He. destruct (day_count_valid s e Hle) as (-> & Hn).
  fold n in Hn |- *. cbn [Orchestrator.loop_turns].
  rewrite Z2Nat.id by lia.
  repeat split.
  - rewrite length_fmap, length_seqZ. lia.
  - rewrite <- list_fmap_compose.
    rewrite (list_fmap_ext _ (Z.add 1)) by (intros; cbn; lia).
    now rewrite fmap_add_seqZ.
  - rewrite <- list_fmap_compose. unfold iso_dates. rewrite Z2Nat.id by lia.
    reflexivity.
  - apply Forall_fmap, Forall_forall. intros i _. reflexivity.
Qed.

Lemma days_for_length tripRequest budgetMultiplier style s e :
  Date_parse (start_date tripRequest) = Some s ->
  Date_parse (end_date tripRequest) = Some e ->
  s <= e ->
  Z.of_nat (length (days_for tripRequest budgetMultiplier style))
  = ceil_div (e - s) msPerDay + 1.
Proof.
  intros Hs He Hle.
  now destruct (days_for_shape tripRequest budgetMultiplier style s e Hs He Hle).
Qed.

Lemma days_for_costs tripRequest budgetMultiplier style :
  Forall (fun d =>
    cost <$> activities d
    = [ Math_floor (mul (dailyBudget_of tripRequest budgetMultiplier) (lit 3 10));
        Math_floor (mul (dailyBudget_of tripRequest budgetMultiplier) (lit 2 10));
        Math_floor (mul (dailyBudget_of tripRequest budgetMultiplier) (lit 3 10));
        Math_floor (mul (dailyBudget_of tripRequest budgetMultiplier) (lit 2 10)) ])
    (days_for tripRequest budgetMultiplier style).
Proof.
  unfold GenerateRoute.days_for, GenerateRoute.dailyBudget_of.
  destruct (Date_parse (start_date tripRequest)); [|constructor].
  apply Forall_fmap, Forall_forall. intros i _. reflexivity.
Qed.

Lemma days_for_invalid tripRequest budgetMultiplier style :
  Date_parse (start_date tripRequest) = None ->
  days_for tripRequest budgetMultiplier style = [].
Proof. intros E. unfold GenerateRoute.days_for. now rewrite E. Qed.

Lemma POST_invalid (Json : Type)
    (validateTripRequest : Json -> Completion ValidationResult)
    body errors (st : State) :
  validateTripRequest body = Normal (Invalid errors) ->
  POST Date_parse host Json validateTripRequest (Normal body) st
  = (mkResponse (InvalidBody "Invalid request data" errors) 400, st).
Proof. intros H. unfold POST. now rewrite H. Qed.

End Route.
End GenerateRouteFacts.

Module TripRoutesFacts.
Import JS Eff TripRoutes.

Lemma append_inj_l (s a b : string) : s ++ a = s ++ b -> a = b.
Proof. induction s as [|c s IH]; cbn; intros H; [exact H|]. inversion H. auto. Qed.

Lemma itinerary_key_inj tripId a b :
  itinerary_key tripId a = itinerary_key tripId b -> a = b.
Proof.
  unfold itinerary_key. intros H. apply append_inj_l in H.
  now inversion H.
Qed.

Section Routes.
Variable Date_parse : string -> option Z.
Variable host : TimeZone.
Variable Json : Type.
Variable JSON_parse : string -> option Json.
Variable validateItinerarySchema : Json -> Completion Orchestrator.SchemaValidation.
Variable buildCanonicalPrompt : TripRequest -> option string -> Completion string.
Variable Json_confidence_score : Json -> Completion (option Number).
Variable validateTripRequest : Json -> Completion ValidationResult.

Abbreviation State_ := (State Json).
Abbreviation GET_ :=
  (GET Date_parse host Json JSON_parse validateItinerarySchema
     buildCanonicalPrompt Json_confidence_score).
Abbreviation POST_ :=
  (POST Date_parse host Json JSON_parse validateItinerarySchema
     buildCanonicalPrompt Json_confidence_score).
Abbreviation generateItinerary_ :=
  (generateItinerary Date_parse host Json JSON_parse validateItinerarySchema
     buildCanonicalPrompt Json_confidence_score).
Abbreviation fresh_itinerary := (TripRoutes.fresh_itinerary Json).

Lemma accepted_guards tripId itineraryType :
  accepted tripId itineraryType ->
  String.eqb tripId "" || String.eqb itineraryType "" = false
  /\ negb (includes validTypes (toLowerCase itineraryType)) = false.
Proof.
  intros (H1 & H2 & H3). rewrite H3.
  apply String.eqb_neq in H1, H2. now rewrite H1, H2.
Qed.

Lemma POST_trip_invalid body errors (st : State_) :
  validateTripRequest body = Normal (Invalid errors) ->
  POST_trip Json validateTripRequest (Normal body) st
  = (mkResponse Json (InvalidBody Json "Invalid request data" errors) 400, st).
Proof. intros H. unfold POST_trip. now rewrite H. Qed.

Lemma GET_cached tripId itineraryType (st : State_) existing :
  mockItineraries Json st !! itinerary_key tripId itineraryType = Some existing ->
  snd (GET_ tripId itineraryType st) = st
  /\ (accepted tripId itineraryType ->
      fst (GET_ tripId itineraryType st) = json Json (ItineraryBody Json existing)).
Proof.
  intros H. unfold GET. split.
  - repeat (match goal with |- context [if ?c then _ else _] => destruct c end);
      try reflexivity.
    now rewrite H.
  - intros Ha. destruct (accepted_guards _ _ Ha) as (G1 & G2).
    now rewrite G1, G2, H.
Qed.

Lemma GET_generates tripId itineraryType (st : State_) trip :
  accepted tripId itineraryType ->
  mockItineraries Json st !! itinerary_key tripId itineraryType = None ->
  mockTrips Json st !! tripId = Some trip ->
  exists r w1 now w2,
    generateItinerary_ (trip_tripRequest trip) (Some itineraryType) (world Json st)
    = (Normal r, w1)
    /\ Orchestrator.usable Json validateItinerarySchema r
    /\ Date_now w1 = (Normal now, w2)
    /\ GET_ tripId itineraryType st
       = (json Json (ItineraryBody Json
                       (fresh_itinerary tripId itineraryType trip r now)),
          mkState Json w2 (mockTrips Json st)
            (<[itinerary_key tripId itineraryType :=
                 fresh_itinerary tripId itineraryType trip r now]>
               (mockItineraries Json st))).
Proof.
  intros Ha Hmiss Htrip.
  destruct (OrchestratorFacts.generateItinerary_run Date_parse host Json JSON_parse
              validateItinerarySchema buildCanonicalPrompt Json_confidence_score
              (trip_tripRequest trip) (Some itineraryType) (world Json st))
    as (r & w1 & E & Hu).
  destruct (EffFacts.total_Date_now w1) as (now & w2 & En).
  exists r, w1, now, w2.
  split; [exact E|]. split; [exact Hu|]. split; [exact En|].
  unfold GET. destruct (accepted_guards _ _ Ha) as (G1 & G2).
  rewrite G1, G2, Hmiss, Htrip. unfold TripRoutes.generateItinerary. rewrite E.
  destruct Hu as (-> & _). cbn [negb]. now rewrite En.
Qed.


(** The branch of the route that reports a failed generation is never
    taken. *)
Lemma GET_no_failure tripId itineraryType (st : State_) e d :
  body Json (fst (GET_ tripId itineraryType st)) <> FailureBody Json e d.
Proof.
  unfold GET.
  destruct (_ || _); [discriminate|].
  destruct (negb _); [discriminate|].
  destruct (mockItineraries Json st !! _); [discriminate|].
  destruct (mockTrips Json st !! tripId) as [trip|]; [|discriminate].
  destruct (OrchestratorFacts.generateItinerary_run Date_parse host Json JSON_parse
              validateItinerarySchema buildCanonicalPrompt Json_confidence_score
              (trip_tripRequest trip) (Some itineraryType) (world Json st))
    as (r & w1 & E & Hs & _).
  unfold TripRoutes.generateItinerary. rewrite E, Hs. cbn [negb].
  destruct (Date_now w1) as [[now|x] w2]; discriminate.
Qed.



End Routes.
End TripRoutesFacts.

(** ** Doubles: integers as Numbers, and rounding *)

Module NumberFacts.
Import JS.

Lemma digits2_size p : digits2_pos p = Pos.size p.
Proof. induction p; cbn; congruence. Qed.

Lemma digits_bounds p :
  2 ^ (Zpos (digits2_pos p) - 1) <= Zpos p < 2 ^ Zpos (digits2_pos p).
Proof.
  rewrite digits2_size. split.
  - pose proof (Pos.size_le p) as H.
    assert (H' : 2 ^ Zpos (Pos.size p) <= 2 * Zpos p).
    { change 2 with (Zpos 2) at 1. rewrite <- Pos2Z.inj_pow.
      change (2 * Zpos p) with (Zpos p~0). now apply Pos2Z.pos_le_pos. }
    replace (Zpos (Pos.size p)) with (Zpos (Pos.size p) - 1 + 1) in H' by lia.
    rewrite Z.pow_add_r in H' by lia. lia.
  - pose proof (Pos.size_gt p) as H.
    change 2 with (Zpos 2). rewrite <- Pos2Z.inj_pow. now apply Pos2Z.pos_lt_pos.
Qed.

Lemma digits_unique p n :
  2 ^ (n - 1) <= Zpos p < 2 ^ n -> Zpos (digits2_pos p) = n.
Proof.
  intros [Hlo Hhi]. pose proof (digits_bounds p) as [Dlo Dhi].
  assert (0 < n).
  { destruct (Z.ltb_spec 0 n); [assumption|].
    rewrite (Z.pow_neg_r 2 (n - 1)) in Hlo by lia.
    destruct (Z.eq_dec n 0) as [->|]; [cbn in Hhi; lia|].
    rewrite (Z.pow_neg_r 2 n) in Hhi by lia. lia. }
  set (d := Zpos (digits2_pos p)) in *.
  destruct (Z.lt_trichotomy d n) as [Hlt|[Heq|Hgt]]; [|assumption|].
  - assert (2 ^ d <= 2 ^ (n - 1)) by (apply Z.pow_le_mono_r; lia). lia.
  - assert (2 ^ n <= 2 ^ (d - 1)) by (apply Z.pow_le_mono_r; lia). lia.
Qed.

Lemma iter_pos_nat {A} (f : A -> A) n :
  forall x, SpecFloat.iter_pos f n x = Nat.iter (Pos.to_nat n) f x.
Proof.
  induction n as [n IH|n IH|]; intros x; cbn [SpecFloat.iter_pos].
  - rewrite !IH, Pos2Nat.inj_xI, <- Nat.iter_add, Nat.iter_succ_r.
    f_equal. lia.
  - rewrite !IH, Pos2Nat.inj_xO, <- Nat.iter_add. f_equal. lia.
  - reflexivity.
Qed.

Lemma shr_1_nonneg m r s :
  0 <= m ->
  shr_1 (Build_shr_record m r s) = Build_shr_record (m / 2) (Z.odd m) (r || s).
Proof.
  intros Hm. destruct m as [|[p|p|]|p]; try lia.
  - reflexivity.
  - change (Build_shr_record (Zpos p) true (r || s)
            = Build_shr_record (Zpos p~1 / 2) true (r || s)).
    f_equal. apply Z.div_unique with 1; lia.
  - change (Build_shr_record (Zpos p) false (r || s)
            = Build_shr_record (Zpos p~0 / 2) false (r || s)).
    f_equal. apply Z.div_unique with 0; lia.
  - reflexivity.
Qed.

Lemma shifted_iter M :
  0 <= M ->
  forall j, shifted M (Z.of_nat j) (Nat.iter j shr_1 (Build_shr_record M false false)).
Proof.
  intros HM. induction j as [|j IH].
  - change (Nat.iter 0 shr_1 (Build_shr_record M false false))
      with (Build_shr_record M false false).
    unfold shifted. cbn [shr_m shr_r shr_s Z.of_nat]. split; [assumption|]. exists 0.
    rewrite Z.pow_0_r. repeat split; intros; try discriminate; lia.
  - rewrite Nat.iter_succ. destruct (Nat.iter j shr_1 _) as [m r s].
    destruct IH as (Hm & rho & HMeq & Hrho & Ht & Hf & Hs). cbn [shr_m shr_r shr_s] in *.
    rewrite shr_1_nonneg by assumption. unfold shifted.
    rewrite Nat2Z.inj_succ, Z.pow_succ_r by lia.
    set (P := 2 ^ Z.of_nat j) in *.
    assert (0 < P) by (apply Z.pow_pos_nonneg; lia).
    pose proof (Z.div_mod m 2 ltac:(lia)) as Hdm.
    pose proof (Z.mod_pos_bound m 2 ltac:(lia)) as Hb.
    split; cbn [shr_m shr_r shr_s]; [apply Z.div_pos; lia|].
    exists ((m mod 2) * P + rho).
    rewrite Zodd_mod. 
    assert (Hcase : m mod 2 = 0 \/ m mod 2 = 1) by lia.
    destruct Hcase as [E|E]; rewrite E in *; cbn [Z.eqb].
    + repeat split; try nia; try discriminate.
      intros Hrs. apply orb_false_iff in Hrs as [-> ->].
      specialize (Hs eq_refl). cbn in Hs. lia.
    + repeat split; try nia; try discriminate.
      intros Hrs. apply orb_false_iff in Hrs as [-> ->].
      specialize (Hs eq_refl). cbn in Hs. cbn [Pos.eqb]. lia.
Qed.

Lemma round_nearest_even_error M j mrs :
  shifted M j mrs ->
  let m1 := round_nearest_even (shr_m mrs) (loc_of_shr_record mrs) in
  shr_m mrs <= m1 <= shr_m mrs + 1
  /\ 2 * Z.abs (m1 * 2 ^ j - M) <= 2 ^ j.
Proof.
  intros (Hm & rho & HM & Hrho & Ht & Hf & Hs). destruct mrs as [m r s].
  cbn [shr_m shr_r shr_s] in *. cbv zeta.
  destruct r, s; cbn [loc_of_shr_record round_nearest_even].
  - specialize (Ht eq_refl). split; [lia|]. nia.
  - specialize (Ht eq_refl). specialize (Hs eq_refl). cbn in Hs.
    destruct (Z.even m); (split; [lia|]); nia.
  - specialize (Hf eq_refl). split; [lia|]. nia.
  - specialize (Hf eq_refl). split; [lia|]. nia.
Qed.

Lemma shiftl_carry e : Z.shiftl (2 ^ 52) (e + 1) = Z.shiftl (2 ^ 53) e.
Proof.
  destruct (Z.le_gt_cases 0 e) as [He|He].
  - rewrite !Z.shiftl_mul_pow2 by lia. rewrite Z.pow_add_r by lia.
    change (2 ^ 53) with (2 ^ 52 * 2). change (2 ^ 1) with 2. ring.
  - rewrite !Z.shiftl_div_pow2 by lia.
    replace (- e) with (- (e + 1) + 1) by lia. rewrite Z.pow_add_r by lia.
    change (2 ^ 53) with (2 ^ 52 * 2). change (2 ^ 1) with 2.
    rewrite Z.div_mul_cancel_r; [reflexivity| |lia].
    apply Z.pow_nonzero; lia.
Qed.

(** Rounding a positive integer [P * 2^E] with more than 53 digits, above
    the subnormal range: the result is the nearest multiple
    [m1 * 2^(E + k)] of the unit in the last place, or infinity when the
    exponent overflows. *)
Lemma binary_round_aux_pos P E :
  let dM := Zpos (digits2_pos P) in
  let k := dM - 53 in
  53 < dM -> -1074 <= dM + E - 53 ->
  exists m1 m2 e2,
    2 ^ 52 <= m1 <= 2 ^ 53
    /\ 2 * Z.abs (m1 * 2 ^ k - Zpos P) <= 2 ^ k
    /\ binary_round_aux prec emax false (Zpos P) E loc_Exact
       = (if e2 <=? emax - prec then S754_finite false m2 e2
          else S754_infinity false)
    /\ Z.shiftl (Zpos m2) e2 = Z.shiftl m1 (E + k)
    /\ e2 <= E + k + 1.
Proof.
  intros dM k Hd Hlo.
  unfold binary_round_aux, shr_fexp.
  change (Zdigits2 (Zpos P)) with dM.
  assert (Hk : fexp prec emax (dM + E) - E = k).
  { unfold fexp, emin, prec, emax, k. lia. }
  rewrite Hk. destruct k as [|kp|kp] eqn:Ek; try lia.
  change (shr_record_of_loc (Zpos P) loc_Exact)
    with (Build_shr_record (Zpos P) false false).
  cbn [shr]. rewrite iter_pos_nat.
  pose proof (shifted_iter (Zpos P) ltac:(lia) (Pos.to_nat kp)) as Hsh.
  rewrite positive_nat_Z in Hsh.
  set (mrs := Nat.iter (Pos.to_nat kp) shr_1 _) in *.
  pose proof (round_nearest_even_error _ _ _ Hsh) as (Hm1 & Herr).
  set (m1 := round_nearest_even (shr_m mrs) (loc_of_shr_record mrs)) in *.
  destruct Hsh as (_ & rho & HP & Hrho & _).
  pose proof (digits_bounds P) as [Dlo Dhi]. fold dM in Dlo, Dhi.
  assert (EdM : dM = Zpos kp + 53) by lia.
  assert (HK : 0 < 2 ^ Zpos kp) by (apply Z.pow_pos_nonneg; lia).
  replace (dM - 1) with (Zpos kp + 52) in Dlo by lia.
  rewrite EdM in Dhi. rewrite Z.pow_add_r in Dlo, Dhi by lia.
  set (K := 2 ^ Zpos kp) in *.
  assert (Hm : 2 ^ 52 <= shr_m mrs < 2 ^ 53) by nia.
  assert (Hm1b : 2 ^ 52 <= m1 <= 2 ^ 53) by lia.
  destruct (Z.eq_dec m1 (2 ^ 53)) as [Ecarry|Hnc].
  - (* the mantissa carried into a 54th digit *)
    exists m1, (2 ^ 52)%positive, (E + Zpos kp + 1).
    split; [assumption|]. split; [assumption|]. split; [|split; [|lia]].
    + rewrite Ecarry.
      change (Zdigits2 (2 ^ 53)) with 54.
      assert (Hs : fexp prec emax (54 + (E + Zpos kp)) - (E + Zpos kp) = 1).
      { unfold fexp, emin, prec, emax. lia. }
      rewrite Hs. cbn [shr shr_record_of_loc SpecFloat.iter_pos].
      change (shr_1 (Build_shr_record (2 ^ 53) false false))
        with (Build_shr_record (2 ^ 52) false false).
      cbn [shr_m]. reflexivity.
    + rewrite Ecarry. change (Zpos (2 ^ 52)) with (2 ^ 52).
      apply shiftl_carry.
  - destruct m1 as [|q|q] eqn:Em1; try lia.
    exists (Zpos q), q, (E + Zpos kp).
    split; [assumption|]. split; [assumption|].
    split; [|split; [reflexivity|lia]].
    assert (Hdq : Zdigits2 (Zpos q) = 53).
    { cbn [Zdigits2]. apply digits_unique. change (53 - 1) with 52. lia. }
    rewrite Hdq.
    assert (Hs : fexp prec emax (53 + (E + Zpos kp)) - (E + Zpos kp) = 0).
    { unfold fexp, emin, prec, emax. lia. }
    rewrite Hs. cbn [shr shr_record_of_loc shr_m]. reflexivity.
Qed.

Lemma binary_round_aux_normal P E :
  let dM := Zpos (digits2_pos P) in
  let k := dM - 53 in
  53 < dM -> -1074 <= dM + E - 53 -> dM + E <= 1023 ->
  exists m1 m2 e2,
    2 ^ 52 <= m1 <= 2 ^ 53
    /\ 2 * Z.abs (m1 * 2 ^ k - Zpos P) <= 2 ^ k
    /\ binary_round_aux prec emax false (Zpos P) E loc_Exact
       = S754_finite false m2 e2
    /\ Z.shiftl (Zpos m2) e2 = Z.shiftl m1 (E + k).
Proof.
  intros dM k Hd Hlo Hhi.
  destruct (binary_round_aux_pos P E Hd Hlo)
    as (m1 & m2 & e2 & Hm1 & Herr & Hr & Hfl & He2).
  exists m1, m2, e2. repeat split; try assumption; try lia.
  rewrite Hr.
  assert (Hle : (e2 <=? emax - prec) = true).
  { apply Z.leb_le. unfold emax, prec. fold dM in He2. fold k in He2. lia. }
  now rewrite Hle.
Qed.

(** A mantissa of exactly 53 digits is kept as it is. *)
Lemma binary_round_aux_exact m e :
  Zpos (digits2_pos m) = 53 -> -1074 <= e <= 971 ->
  binary_round_aux prec emax false (Zpos m) e loc_Exact = S754_finite false m e.
Proof.
  intros Hd He. unfold binary_round_aux, shr_fexp.
  cbn [Zdigits2 shr_record_of_loc]. rewrite Hd.
  assert (Hs : fexp prec emax (53 + e) - e = 0).
  { unfold fexp, emin, prec, emax. lia. }
  rewrite Hs. cbn [shr shr_m loc_of_shr_record round_nearest_even Zdigits2].
  rewrite Hd, Hs. cbn [shr shr_m shr_record_of_loc].
  assert (Hle : (e <=? emax - prec) = true).
  { apply Z.leb_le. unfold emax, prec. lia. }
  now rewrite Hle.
Qed.

Lemma iter_xO p d : Zpos (Pos.iter xO p d) = Zpos p * 2 ^ Zpos d.
Proof.
  rewrite (Pos.iter_swap_gen _ _ Zpos xO (Z.mul 2)) by reflexivity.
  change (Pos.iter (Z.mul 2) (Zpos p) d) with (Z.shiftl (Zpos p) (Zpos d)).
  apply Z.shiftl_mul_pow2. lia.
Qed.

(** An integer below 2^53 is a Number exactly: the mantissa is the integer
    moved up to 53 digits. *)
Lemma of_Z_pos p :
  let n := Zpos (digits2_pos p) in
  n <= 53 ->
  exists m,
    of_Z (Zpos p) = S754_finite false m (n - 53)
    /\ Zpos m = Zpos p * 2 ^ (53 - n)
    /\ Zpos (digits2_pos m) = 53.
Proof.
  intros n Hn. unfold of_Z, binary_normalize, binary_round.
  assert (Hf : fexp prec emax (Zpos (digits2_pos p) + 0) = n - 53).
  { fold n. unfold fexp, emin, prec, emax. lia. }
  rewrite Hf. unfold shl_align.
  pose proof (digits_bounds p) as [Dlo Dhi]. fold n in Dlo, Dhi.
  destruct (n - 53 - 0) as [|d|d] eqn:Ed; try lia.
  - exists p. assert (n = 53) by lia.
    replace (53 - n) with 0 by lia. replace (n - 53) with 0 by lia.
    rewrite Z.mul_1_r. repeat split; try assumption.
    apply binary_round_aux_exact; [assumption|lia].
  - exists (Pos.iter xO p d).
    assert (Hq : 53 - n = Zpos d) by lia. rewrite Hq.
    assert (Hdig : Zpos (digits2_pos (Pos.iter xO p d)) = 53).
    { apply digits_unique. rewrite iter_xO.
      assert (0 < 2 ^ Zpos d) by (apply Z.pow_pos_nonneg; lia).
      replace 53 with (n + Zpos d) by lia.
      replace (n + Zpos d - 1) with (n - 1 + Zpos d) by lia.
      rewrite !Z.pow_add_r by lia. nia. }
    repeat split; [|apply iter_xO|assumption].
    apply binary_round_aux_exact; [assumption|lia].
Qed.

Lemma floorZ_of_Z z : 0 <= z < 2 ^ 53 -> floorZ (of_Z z) = Some z.
Proof.
  intros Hz. destruct z as [|p|p]; try lia; [reflexivity|].
  pose proof (digits_bounds p) as [Dlo Dhi].
  assert (Hn : Zpos (digits2_pos p) <= 53).
  { destruct (Z.le_gt_cases (Zpos (digits2_pos p)) 53) as [|Hgt]; [assumption|].
    assert (2 ^ 53 <= 2 ^ (Zpos (digits2_pos p) - 1))
      by (apply Z.pow_le_mono_r; lia).
    lia. }
  destruct (of_Z_pos p Hn) as (m & -> & Hm & _).
  cbn [floorZ cond_Zopp]. rewrite Hm, Z.shiftl_div_pow2 by lia.
  replace (- (Zpos (digits2_pos p) - 53)) with (53 - Zpos (digits2_pos p)) by lia.
  rewrite Z.div_mul; [reflexivity|]. apply Z.pow_nonzero; lia.
Qed.

Lemma lit_3_10 : lit 3 10 = S754_finite false 5404319552844595 (-54).
Proof. vm_compute. reflexivity. Qed.

Lemma lit_2_10 : lit 2 10 = S754_finite false 7205759403792794 (-55).
Proof. vm_compute. reflexivity. Qed.

Lemma small_digits p : Zpos p < 2 ^ 50 -> Zpos (digits2_pos p) <= 50.
Proof.
  intros Hp. pose proof (digits_bounds p) as [Dlo _].
  destruct (Z.le_gt_cases (Zpos (digits2_pos p)) 50) as [|Hgt]; [assumption|].
  assert (2 ^ 50 <= 2 ^ (Zpos (digits2_pos p) - 1)) by (apply Z.pow_le_mono_r; lia).
  lia.
Qed.

(** The digits of a product of two 53-digit mantissas. *)
Lemma product_digits (a c : positive) :
  Zpos (digits2_pos a) = 53 -> Zpos (digits2_pos c) = 53 ->
  Zpos (digits2_pos (a * c)) = 105 \/ Zpos (digits2_pos (a * c)) = 106.
Proof.
  intros Ha Hc.
  pose proof (digits_bounds a) as [Alo Ahi].
  pose proof (digits_bounds c) as [Clo Chi].
  pose proof (digits_bounds (a * c)) as [Plo Phi].
  rewrite Ha in Alo, Ahi. rewrite Hc in Clo, Chi.
  change (53 - 1) with 52 in *. rewrite Pos2Z.inj_mul in *.
  set (dM := Zpos (digits2_pos (a * c))) in *.
  assert (H1 : 2 ^ 104 <= Zpos a * Zpos c).
  { change (2 ^ 104) with (2 ^ 52 * 2 ^ 52). nia. }
  assert (H2 : Zpos a * Zpos c < 2 ^ 106).
  { change (2 ^ 106) with (2 ^ 53 * 2 ^ 53). nia. }
  assert (104 < dM).
  { apply (Z.pow_lt_mono_r_iff 2); lia. }
  assert (dM - 1 < 106).
  { apply (Z.pow_lt_mono_r_iff 2); lia. }
  lia.
Qed.

(** [Math.floor(z * 0.3)] of an integer below 2^50 is the integer part of
    [3z/10]: the double nearest to 0.3 lies too close to it for the
    product to round across an integer. *)
Lemma floor_mul_3_10 z :
  0 <= z < 2 ^ 50 ->
  Math_floor (mul (of_Z z) (lit 3 10)) = of_Z (3 * z / 10).
Proof.
  intros Hz. destruct z as [|p|p]; try lia; [vm_compute; reflexivity|].
  pose proof (small_digits p ltac:(lia)) as Hn.
  destruct (of_Z_pos p ltac:(lia)) as (mx & -> & Hmx & Hdx).
  rewrite lit_3_10. unfold mul. cbn [SFmul xorb].
  set (n := Zpos (digits2_pos p)) in *.
  set (C := 5404319552844595%positive).
  assert (HdC : Zpos (digits2_pos C) = 53) by reflexivity.
  pose proof (digits_bounds mx) as [Xlo Xhi]. rewrite Hdx in Xlo, Xhi.
  change (53 - 1) with 52 in Xlo.
  pose proof (digits_bounds (mx * C)) as [Plo Phi].
  destruct (binary_round_aux_normal (mx * C) (n - 53 + -54))
    as (m1 & m2 & e2 & Hm1 & Herr & -> & Hfl).
  { destruct (product_digits mx C Hdx HdC) as [->| ->]; lia. }
  { destruct (product_digits mx C Hdx HdC) as [->| ->]; lia. }
  { destruct (product_digits mx C Hdx HdC) as [->| ->]; lia. }
  cbn [Math_floor cond_Zopp]. rewrite Hfl. f_equal.
  assert (HP : 8 <= 2 ^ (53 - n)).
  { change 8 with (2 ^ 3). apply Z.pow_le_mono_r; lia. }
  set (Pq := 2 ^ (53 - n)) in *.
  pose proof (Z.div_mod (3 * Zpos p) 10 ltac:(lia)) as Hdm.
  pose proof (Z.mod_pos_bound (3 * Zpos p) 10 ltac:(lia)) as Hr.
  set (Q := 3 * Zpos p / 10) in *. set (R := (3 * Zpos p) mod 10) in *.
  assert (HQ : 0 <= Q) by (apply Z.div_pos; lia).
  assert (HQP : 10 * (Q * Pq) + R * Pq = 3 * Zpos mx) by nia.
  assert (HRP : 0 <= R * Pq <= 9 * Pq) by nia.
  assert (HRP' : R * Pq = 0 \/ Pq <= R * Pq).
  { destruct (Z.eq_dec R 0) as [->|]; [now left|right].
    replace Pq with (1 * Pq) at 1 by ring. apply Z.mul_le_mono_nonneg_r; lia. }
  set (QP := Q * Pq) in *. set (RP := R * Pq) in *.
  rewrite Pos2Z.inj_mul in *. change (Zpos C) with 5404319552844595 in *.
  destruct (product_digits mx C Hdx HdC) as [Ed|Ed]; rewrite Ed in *.
  - (* 105 digits: the unit in the last place is 2^52 *)
    change (105 - 53) with 52 in *. change (105 - 1) with 104 in *.
    replace (n - 53 + -54 + 52) with (- (2 + (53 - n))) by lia.
    rewrite Z.shiftl_div_pow2 by lia. rewrite Z.opp_involutive.
    rewrite Z.pow_add_r by lia. fold Pq. change (2 ^ 2) with 4.
    symmetry. apply Z.div_unique with (m1 - 4 * QP); [|unfold QP; ring].
    left. lia.
  - (* 106 digits: the unit in the last place is 2^53 *)
    change (106 - 53) with 53 in *. change (106 - 1) with 105 in *.
    replace (n - 53 + -54 + 53) with (- (1 + (53 - n))) by lia.
    rewrite Z.shiftl_div_pow2 by lia. rewrite Z.opp_involutive.
    rewrite Z.pow_add_r by lia. fold Pq. change (2 ^ 1) with 2.
    symmetry. apply Z.div_unique with (m1 - 2 * QP); [|unfold QP; ring].
    left. lia.
Qed.

(** [Math.floor(z * 0.2)] of an integer below 2^50 is the integer part of
    [z/5]. *)
Lemma floor_mul_2_10 z :
  0 <= z < 2 ^ 50 ->
  Math_floor (mul (of_Z z) (lit 2 10)) = of_Z (z / 5).
Proof.
  intros Hz. destruct z as [|p|p]; try lia; [vm_compute; reflexivity|].
  pose proof (small_digits p ltac:(lia)) as Hn.
  destruct (of_Z_pos p ltac:(lia)) as (mx & -> & Hmx & Hdx).
  rewrite lit_2_10. unfold mul. cbn [SFmul xorb].
  set (n := Zpos (digits2_pos p)) in *.
  set (C := 7205759403792794%positive).
  assert (HdC : Zpos (digits2_pos C) = 53) by reflexivity.
  pose proof (digits_bounds mx) as [Xlo Xhi]. rewrite Hdx in Xlo, Xhi.
  change (53 - 1) with 52 in Xlo.
  pose proof (digits_bounds (mx * C)) as [Plo Phi].
  destruct (binary_round_aux_normal (mx * C) (n - 53 + -55))
    as (m1 & m2 & e2 & Hm1 & Herr & -> & Hfl).
  { destruct (product_digits mx C Hdx HdC) as [->| ->]; lia. }
  { destruct (product_digits mx C Hdx HdC) as [->| ->]; lia. }
  { destruct (product_digits mx C Hdx HdC) as [->| ->]; lia. }
  cbn [Math_floor cond_Zopp]. rewrite Hfl. f_equal.
  assert (HP : 8 <= 2 ^ (53 - n)).
  { change 8 with (2 ^ 3). apply Z.pow_le_mono_r; lia. }
  set (Pq := 2 ^ (53 - n)) in *.
  pose proof (Z.div_mod (Zpos p) 5 ltac:(lia)) as Hdm.
  pose proof (Z.mod_pos_bound (Zpos p) 5 ltac:(lia)) as Hr.
  set (Q := Zpos p / 5) in *. set (R := (Zpos p) mod 5) in *.
  assert (HQ : 0 <= Q) by (apply Z.div_pos; lia).
  assert (HQP : 5 * (Q * Pq) + R * Pq = Zpos mx) by nia.
  assert (HRP : 0 <= R * Pq <= 4 * Pq) by nia.
  set (QP := Q * Pq) in *. set (RP := R * Pq) in *.
  rewrite Pos2Z.inj_mul in *. change (Zpos C) with 7205759403792794 in *.
  destruct (product_digits mx C Hdx HdC) as [Ed|Ed]; rewrite Ed in *.
  - (* 105 digits: the unit in the last place is 2^52 *)
    change (105 - 53) with 52 in *. change (105 - 1) with 104 in *.
    replace (n - 53 + -55 + 52) with (- (3 + (53 - n))) by lia.
    rewrite Z.shiftl_div_pow2 by lia. rewrite Z.opp_involutive.
    rewrite Z.pow_add_r by lia. fold Pq. change (2 ^ 3) with 8.
    symmetry. apply Z.div_unique with (m1 - 8 * QP); [|unfold QP; ring].
    left. lia.
  - (* 106 digits: the unit in the last place is 2^53 *)
    change (106 - 53) with 53 in *. change (106 - 1) with 105 in *.
    replace (n - 53 + -55 + 53) with (- (2 + (53 - n))) by lia.
    rewrite Z.shiftl_div_pow2 by lia. rewrite Z.opp_involutive.
    rewrite Z.pow_add_r by lia. fold Pq. change (2 ^ 2) with 4.
    symmetry. apply Z.div_unique with (m1 - 4 * QP); [|unfold QP; ring].
    left. lia.
Qed.







(** An integer from 1 on is a Number that is neither zero nor NaN. *)
Lemma of_Z_truthy z : 1 <= z -> truthy (of_Z z) = true.
Proof.
  intros Hz. destruct z as [|p|p]; try lia.
  destruct (Z.le_gt_cases (Zpos (digits2_pos p)) 53) as [Hn|Hn].
  - now destruct (of_Z_pos p Hn) as (m & -> & _).
  - unfold of_Z, binary_normalize, binary_round.
    assert (Hf : fexp prec emax (Zpos (digits2_pos p) + 0)
                 = Zpos (digits2_pos p) - 53).
    { unfold fexp, emin, prec, emax. lia. }
    rewrite Hf. unfold shl_align.
    destruct (Zpos (digits2_pos p) - 53 - 0) as [|d|d] eqn:Ed; try lia.
    destruct (binary_round_aux_pos p 0 ltac:(lia) ltac:(lia))
      as (m1 & m2 & e2 & _ & _ & -> & _).
    now destruct (e2 <=? emax - prec).
Qed.

(** The product is the product of doubles: 0.7 lies below 7/10, and
    [90 * 0.7] below 63. *)
Remark floor_90_times_0_7 :
  Math_floor (mul (of_Z 90) (lit 7 10)) = of_Z 62.
Proof. vm_compute. reflexivity. Qed.

End NumberFacts.

(** ** Calls to the model *)

Module CallsFacts.
Import JS Eff EffFacts Calls Orchestrator.

Lemma keeps_ret {A} (a : A) : keeps_model (ret a).
Proof. intros w c w' H. unfold ret in H. now inversion H. Qed.

Lemma keeps_throw {A} e : keeps_model (@throw A e).
Proof. intros w c w' H. unfold throw in H. now inversion H. Qed.

Lemma keeps_lift {A} (c : Completion A) : keeps_model (lift c).
Proof. intros w c' w' H. unfold lift in H. now inversion H. Qed.

Lemma keeps_Date_now : keeps_model Date_now.
Proof. intros w c w' H. unfold Date_now in H. now inversion H. Qed.

Lemma keeps_uuidv4 : keeps_model uuidv4.
Proof. intros w c w' H. unfold uuidv4 in H. now inversion H. Qed.

Lemma keeps_Math_random : keeps_model Math_random.
Proof. intros w c w' H. unfold Math_random in H. now inversion H. Qed.

Lemma keeps_env : keeps_model env_GEMINI_API_KEY.
Proof. intros w c w' H. unfold env_GEMINI_API_KEY in H. now inversion H. Qed.

Lemma calls_at_most_mono {A} n k (m : M A) :
  (n <= k)%nat -> calls_at_most n m -> calls_at_most k m.
Proof.
  intros Hle Hm w c w' E. destruct (Hm w c w' E) as (H1 & H2 & H3).
  repeat split; auto; lia.
Qed.

Lemma keeps_calls {A} (m : M A) : keeps_model m <-> calls_at_most 0 m.
Proof.
  split; intros Hm w c w' E; destruct (Hm w c w' E) as (H1 & H2 & H3);
    repeat split; auto; lia.
Qed.

Lemma calls_bind {A B} n k (m : M A) (f : A -> M B) :
  calls_at_most n m -> (forall a, calls_at_most k (f a)) ->
  calls_at_most (n + k) (bind m f).
Proof.
  intros Hm Hf w c w' E. unfold bind in E.
  destruct (m w) as [[a|e] w1] eqn:Em.
  - destruct (Hm w _ _ Em) as (H1 & H2 & H3).
    destruct (Hf a w1 _ _ E) as (G1 & G2 & G3).
    repeat split; try congruence; lia.
  - inversion E; subst. destruct (Hm w _ _ Em) as (H1 & H2 & H3).
    repeat split; auto; lia.
Qed.

Lemma calls_try_catch {A} n k (m : M A) h :
  calls_at_most n m -> (forall e, calls_at_most k (h e)) ->
  calls_at_most (n + k) (try_catch m h).
Proof.
  intros Hm Hh w c w' E. unfold try_catch in E.
  destruct (m w) as [[a|e] w1] eqn:Em.
  - inversion E; subst. destruct (Hm w _ _ Em) as (H1 & H2 & H3).
    repeat split; auto; lia.
  - destruct (Hm w _ _ Em) as (H1 & H2 & H3).
    destruct (Hh e w1 _ _ E) as (G1 & G2 & G3).
    repeat split; try congruence; lia.
Qed.

Lemma keeps_bind {A B} (m : M A) (f : A -> M B) :
  keeps_model m -> (forall a, keeps_model (f a)) -> keeps_model (bind m f).
Proof.
  intros Hm Hf. apply keeps_calls. apply (calls_bind 0 0).
  - now apply keeps_calls.
  - intros a. now apply keeps_calls.
Qed.

Lemma calls_generateContent prompt temperature :
  calls_at_most 1 (generateContent prompt temperature).
Proof.
  intros w c w' H. unfold generateContent in H. inversion H. cbn.
  repeat split; lia.
Qed.

Ltac keeps :=
  repeat first
    [ apply keeps_ret | apply keeps_throw | apply keeps_lift
    | apply keeps_Date_now | apply keeps_uuidv4 | apply keeps_Math_random
    | apply keeps_env
    | apply keeps_bind; [|intros ?] ].

Lemma keeps_mockDay host tripRequest startDate dailyBudget type i :
  keeps_model (mockDay host tripRequest startDate dailyBudget type i).
Proof.
  unfold mockDay.
  apply keeps_bind;
    [destruct startDate; [apply keeps_ret|apply keeps_throw]|intros ?].
  do 6 (apply keeps_bind; [apply keeps_Math_random|intros ?]).
  apply keeps_ret.
Qed.

Lemma keeps_mockDays_loop host tripRequest startDate dailyBudget type n :
  forall i, keeps_model (mockDays_loop host tripRequest startDate dailyBudget type n i).
Proof.
  induction n as [|n IH]; intros i; cbn [mockDays_loop].
  - apply keeps_ret.
  - apply keeps_bind; [apply keeps_mockDay|intros d].
    apply keeps_bind; [apply IH|intros ds]. apply keeps_ret.
Qed.

Section Pipeline.
Variable Date_parse : string -> option Z.
Variable host : TimeZone.
Variable Json : Type.
Variable JSON_parse : string -> option Json.
Variable validateItinerarySchema : Json -> Completion SchemaValidation.
Variable buildCanonicalPrompt : TripRequest -> option string -> Completion string.
Variable Json_confidence_score : Json -> Completion (option Number).

Lemma keeps_generateMockItinerary tripRequest itineraryType :
  keeps_model (generateMockItinerary Date_parse host Json tripRequest itineraryType).
Proof.
  unfold generateMockItinerary, generateMockDays.
  repeat first
    [ apply keeps_ret | apply keeps_Date_now | apply keeps_uuidv4
    | apply keeps_mockDays_loop
    | apply keeps_bind; [|intros ?] ].
Qed.

Lemma calls_attemptGeneration prompt temperature :
  calls_at_most 1
    (attemptGeneration Json JSON_parse validateItinerarySchema prompt temperature).
Proof.
  unfold attemptGeneration.
  apply (calls_try_catch 1 0); [|intros e; apply keeps_calls, keeps_ret].
  apply (calls_bind 1 0); [apply calls_generateContent|intros text].
  apply keeps_calls.
  destruct (JSON_parse text) as [v|].
  - apply keeps_bind; [apply keeps_lift|intros validation].
    destruct (sv_success validation); apply keeps_ret.
  - destruct (extract_json text) as [x|]; [|apply keeps_ret].
    destruct (JSON_parse x) as [v|]; [|apply keeps_ret].
    apply keeps_bind; [apply keeps_lift|intros validation].
    destruct (sv_success validation); apply keeps_ret.
Qed.

(** An attempt is one call, whatever comes of it. *)
Lemma attemptGeneration_calls prompt temperature w c w' :
  attemptGeneration Json JSON_parse validateItinerarySchema prompt temperature w
  = (c, w') ->
  gemini_ix w' = S (gemini_ix w).
Proof.
  unfold attemptGeneration, try_catch. unfold bind at 1.
  destruct (generateContent prompt temperature w) as [[text|e] w1] eqn:Eg;
    unfold generateContent in Eg; inversion Eg; subst; clear Eg.
  - match goal with
    | |- context [match ?m ?w1 with _ => _ end] =>
        assert (Hk : keeps_model m);
        [|destruct (m w1) as [[a|e] wk] eqn:Ek; apply Hk in Ek;
          destruct Ek as (_ & _ & Ek); cbn in Ek]
    end.
    + destruct (JSON_parse text) as [v|].
      * apply keeps_bind; [apply keeps_lift|intros validation].
        destruct (sv_success validation); apply keeps_ret.
      * destruct (extract_json text) as [x|]; [|apply keeps_ret].
        destruct (JSON_parse x) as [v|]; [|apply keeps_ret].
        apply keeps_bind; [apply keeps_lift|intros validation].
        destruct (sv_success validation); apply keeps_ret.
    + intros H. inversion H; subst. exact Ek.
    + unfold ret. intros H. inversion H; subst. exact Ek.
  - unfold ret. intros H. inversion H. reflexivity.
Qed.

(** An attempt whose answer parses: the verdict of the validator
    decides. *)
Lemma attemptGeneration_parsed prompt temperature w text v sv :
  gemini w (gemini_ix w) prompt temperature = Normal text ->
  JSON_parse text = Some v ->
  validateItinerarySchema v = Normal sv ->
  attemptGeneration Json JSON_parse validateItinerarySchema prompt temperature w
  = (Normal (if sv_success sv
             then mkAttempt true (Some v) None []
             else mkAttempt false None (Some "schema_validation_failed")
                    (sv_errors sv)),
     snd (generateContent prompt temperature w)).
Proof.
  intros Hg Hp Hv. unfold attemptGeneration.
  apply try_catch_Normal.
  erewrite bind_Normal;
    [|unfold generateContent; rewrite Hg; reflexivity].
  rewrite Hp. unfold bind, lift. rewrite Hv.
  unfold generateContent. cbn [snd].
  destruct (sv_success sv); reflexivity.
Qed.

Lemma calls_generateItinerary tripRequest itineraryType :
  calls_at_most 2
    (generateItinerary Date_parse host Json JSON_parse validateItinerarySchema
       buildCanonicalPrompt Json_confidence_score tripRequest itineraryType).
Proof.
  unfold generateItinerary.
  apply (calls_bind 0 2); [apply keeps_calls, keeps_Date_now|intros t0].
  apply (calls_try_catch 2 0);
    [|intros e; apply keeps_calls, keeps_generateMockItinerary].
  apply (calls_bind 0 2); [apply keeps_calls, keeps_env|intros key].
  destruct (_ || _).
  { apply (calls_at_most_mono 0); [lia|].
    apply keeps_calls, keeps_generateMockItinerary. }
  apply (calls_bind 0 2); [apply keeps_calls, keeps_lift|intros prompt].
  apply (calls_bind 1 1); [apply calls_attemptGeneration|intros first].
  apply (calls_bind 1 0).
  { destruct (_ && _); [apply calls_attemptGeneration|].
    apply (calls_at_most_mono 0); [lia|]. apply keeps_calls, keeps_ret. }
  intros result. apply keeps_calls.
  destruct (negb _); [apply keeps_generateMockItinerary|].
  apply keeps_bind; [apply keeps_Date_now|intros finished].
  destruct (at_data result); [|apply keeps_throw].
  keeps.
Qed.

End Pipeline.
End CallsFacts.

(** ** The days of the mock generators *)

Module MockFacts.
Import JS Eff EffFacts Orchestrator.

(** What one turn of the loop writes, by the type it is given. *)
Lemma mockDay_inv host tripRequest startDate dailyBudget type i w d w' :
  mockDay host tripRequest startDate dailyBudget type i w = (Normal d, w') ->
  acc_type (accommodation d)
  = (if String.eqb type "experience" then "resort"
     else if String.eqb type "budget" then "hostel" else "hotel")
  /\ tr_type (transportation d)
     = (if String.eqb type "experience" then "taxi"
        else if String.eqb type "budget" then "bus" else "train")
  /\ meal_name <$> meals d
     = [ "Local Breakfast Spot"; "Traditional Restaurant";
         if String.eqb type "experience" then "Fine Dining Restaurant"
         else "Local Eatery" ]
  /\ act_type <$> activities d
     = [ "sightseeing";
         match preferred_themes tripRequest with
         | t :: _ => if String.eqb t "" then "cultural" else t
         | [] => "cultural"
         end ]
  /\ act_name <$> activities d
     = [ "Explore " ++ destination tripRequest ++ " City Center";
         "Local "
           ++ match preferred_themes tripRequest with
              | t :: _ => if String.eqb t "" then "cultural" else t
              | [] => "cultural"
              end ++ " Experience" ].
Proof.
  intros E. unfold mockDay in E.
  repeat (apply bind_inv in E as (? & ? & ? & E)).
  apply ret_inv in E as (<- & _).
  cbn [accommodation transportation meals activities acc_type tr_type
       fmap list_fmap meal_name act_type act_name].
  repeat split.
Qed.

Lemma mockDays_loop_Forall (P : Day -> Prop) host tripRequest startDate
    dailyBudget type :
  (forall i w d w',
     mockDay host tripRequest startDate dailyBudget type i w = (Normal d, w') -> P d) ->
  forall n i w ds w',
    mockDays_loop host tripRequest startDate dailyBudget type n i w = (Normal ds, w') ->
    Forall P ds.
Proof.
  intros HP. induction n as [|n IH]; intros i w ds w' E; cbn [mockDays_loop] in E.
  - apply ret_inv in E as (<- & _). constructor.
  - apply bind_inv in E as (d & w1 & Ed & E).
    apply bind_inv in E as (ds' & w2 & Eds & E).
    apply ret_inv in E as (<- & _).
    constructor; [eapply HP; eauto|eapply IH; eauto].
Qed.

Section Pipeline.
Variable Date_parse : string -> option Z.
Variable host : TimeZone.
Variable Json : Type.

(** Each itinerary that [generateMockItinerary] returns carries one of
    the three types, and its days come from [generateMockDays] called
    with that type. *)
Lemma generateMockItinerary_days tripRequest itineraryType w r w' :
  generateMockItinerary Date_parse host Json tripRequest itineraryType w
  = (Normal r, w') ->
  exists mock,
    data r = Some (MockData mock)
    /\ Forall (fun it =>
         In (type it) ["balanced"; "budget"; "premium"]
         /\ exists duration dailyBudget wa wb,
              generateMockDays Date_parse host tripRequest duration dailyBudget
                (type it) wa = (Normal (days it), wb))
         (itineraries mock).
Proof.
  intros E. unfold generateMockItinerary in E.
  apply bind_inv in E as (u1 & w1 & _ & E).
  apply bind_inv in E as (d1 & w2 & D1 & E).
  apply bind_inv in E as (u2 & w3 & _ & E).
  apply bind_inv in E as (d2 & w4 & D2 & E).
  apply bind_inv in E as (u3 & w5 & _ & E).
  apply bind_inv in E as (d3 & w6 & D3 & E).
  apply bind_inv in E as (now & w7 & _ & E).
  apply bind_inv in E as (rid & w8 & _ & E).
  apply ret_inv in E as (<- & _).
  eexists. split; [reflexivity|]. cbn [itineraries].
  apply OrchestratorFacts.selectItineraries_Forall.
  repeat (apply List.Forall_cons || apply List.Forall_nil);
    (split; [cbn; tauto|]); cbn [type days balanced_itinerary
      budget_itinerary premium_itinerary]; eauto 6.
Qed.

Lemma generateMockDays_Forall (P : Day -> Prop) tripRequest duration
    dailyBudget type :
  (forall startDate i w d w',
     mockDay host tripRequest startDate dailyBudget type i w = (Normal d, w') ->
     P d) ->
  forall w ds w',
    generateMockDays Date_parse host tripRequest duration dailyBudget type w
    = (Normal ds, w') ->
    Forall P ds.
Proof.
  intros HP w ds w' E. unfold generateMockDays in E.
  eapply mockDays_loop_Forall; [|exact E]. intros. eapply HP; eauto.
Qed.

End Pipeline.

Section Route.
Import GenerateRoute.
Variable Date_parse : string -> option Z.
Variable host : TimeZone.

Lemma days_for_turns tripRequest budgetMultiplier style :
  length (GenerateRoute.days_for Date_parse host tripRequest budgetMultiplier style)
  = Orchestrator.loop_turns
      (day_count (Date_parse (start_date tripRequest))
         (Date_parse (end_date tripRequest))).
Proof.
  unfold GenerateRoute.days_for.
  destruct (Date_parse (start_date tripRequest)) as [s|]; [|reflexivity].
  rewrite length_fmap, length_seqZ. lia.
Qed.

(** Every day of the route is [day_at] of some index. *)
Lemma days_for_day_at tripRequest budgetMultiplier style :
  Forall (fun d => exists start dailyBudget i,
            d = day_at host tripRequest start dailyBudget style i)
    (GenerateRoute.days_for Date_parse host tripRequest budgetMultiplier style).
Proof.
  unfold GenerateRoute.days_for.
  destruct (Date_parse (start_date tripRequest)) as [s|]; [|constructor].
  apply Forall_fmap, Forall_forall. intros i _. cbn. eauto.
Qed.

Lemma generateMockItineraries_prices tripRequest :
  let days :=
    day_count (Date_parse (start_date tripRequest))
      (Date_parse (end_date tripRequest)) in
  let budgetPerDay :=
    Math_floor (div (budget_total tripRequest) (of_count days)) in
  exists its,
    generateMockItineraries Date_parse host tripRequest = Normal its
    /\ (fun it => pricePerNight (GenerateRoute.accommodation it)) <$> its
       = [ Math_floor (mul budgetPerDay (lit 3 10));
           Math_floor (mul budgetPerDay (lit 4 10));
           Math_floor (mul budgetPerDay (lit 6 10)) ]
    /\ GenerateRoute.days <$> its
       = [ GenerateRoute.days_for Date_parse host tripRequest (lit 7 10)
             "budget-friendly";
           GenerateRoute.days_for Date_parse host tripRequest (lit 9 10) "balanced";
           GenerateRoute.days_for Date_parse host tripRequest (lit 12 10) "luxury" ].
Proof.
  cbv zeta. unfold generateMockItineraries. cbv zeta.
  rewrite !(GenerateRouteFacts.generateDays_run Date_parse host).
  eexists. split; [reflexivity|]. split; reflexivity.
Qed.

End Route.
End MockFacts.

(** ** The itinerary route, case by case *)

Module RouteCases.
Import JS Eff TripRoutes.

Lemma lower_ascii_underscore c : lower_ascii c = "_"%char -> c = "_"%char.
Proof.
  destruct c as [[] [] [] [] [] [] [] []]; vm_compute; intros H;
    first [reflexivity | discriminate H].
Qed.

Lemma toLowerCase_app x y : toLowerCase (x ++ y) = toLowerCase x ++ toLowerCase y.
Proof.
  induction x as [|c x IH]; [reflexivity|].
  change (String c x ++ y) with (String c (x ++ y)).
  cbn [toLowerCase]. rewrite IH. reflexivity.
Qed.

Lemma prefix_app s x : String.prefix s (s ++ x) = true.
Proof.
  induction s as [|a s IH].
  - now destruct x.
  - change (String a s ++ x) with (String a (s ++ x)). cbn [String.prefix].
    now destruct (ascii_dec a a).
Qed.

Ltac no_split H x :=
  repeat (destruct x as [|? x]; cbn in H;
          [discriminate H|injection H as _ H]);
  destruct x; discriminate H.

Lemma valid_type_no_underscore t :
  includes validTypes t = true -> forall x y, t <> x ++ "_" ++ y.
Proof.
  unfold includes, validTypes. cbn [existsb]. intros Hin x y H.
  rewrite !orb_true_iff in Hin. destruct Hin as [Hin|[Hin|[Hin|Hin]]];
    try discriminate Hin; apply String.eqb_eq in Hin; subst t.
  - no_split H x.
  - no_split H x.
  - no_split H x.
Qed.

(** A type that the route accepts holds no underscore. *)
Lemma accepted_type_no_underscore t :
  includes validTypes (toLowerCase t) = true -> forall x y, t <> x ++ "_" ++ y.
Proof.
  intros Hin x y ->. rewrite !toLowerCase_app in Hin.
  eapply valid_type_no_underscore; [exact Hin|].
  cbn [toLowerCase]. reflexivity.
Qed.

Lemma itinerary_key_injective a t a' t' :
  (forall x y, t <> x ++ "_" ++ y) ->
  (forall x y, t' <> x ++ "_" ++ y) ->
  itinerary_key a t = itinerary_key a' t' ->
  a = a' /\ t = t'.
Proof.
  unfold itinerary_key. intros Ht Ht'. revert a'.
  induction a as [|c a IH]; intros [|c' a'] H; cbn in H.
  - injection H as H. now split.
  - injection H as _ H. now apply Ht in H.
  - injection H as _ H. symmetry in H. now apply Ht' in H.
  - injection H as -> H. destruct (IH _ H) as (-> & ->). now split.
Qed.

Section Routes.
Variable Date_parse : string -> option Z.
Variable host : TimeZone.
Variable Json : Type.
Variable JSON_parse : string -> option Json.
Variable validateItinerarySchema : Json -> Completion Orchestrator.SchemaValidation.
Variable buildCanonicalPrompt : TripRequest -> option string -> Completion string.
Variable Json_confidence_score : Json -> Completion (option Number).

Abbreviation GET_ :=
  (GET Date_parse host Json JSON_parse validateItinerarySchema
     buildCanonicalPrompt Json_confidence_score).
Abbreviation generateItinerary_ :=
  (Orchestrator.generateItinerary Date_parse host Json JSON_parse
     validateItinerarySchema buildCanonicalPrompt Json_confidence_score).

Lemma accepted_dec tripId itineraryType :
  accepted tripId itineraryType \/ ~ accepted tripId itineraryType.
Proof.
  unfold accepted.
  destruct (String.eqb_spec tripId ""); [right; tauto|].
  destruct (String.eqb_spec itineraryType ""); [right; tauto|].
  destruct (includes validTypes (toLowerCase itineraryType));
    [left; tauto|right]. intros (_ & _ & H). discriminate.
Qed.

(** The four ways a request can go. *)
Lemma GET_cases tripId itineraryType (st : State Json) :
  (~ accepted tripId itineraryType
   /\ exists message,
        GET_ tripId itineraryType st
        = (mkResponse Json (ErrorBody Json message) 400, st))
  \/ (accepted tripId itineraryType
      /\ exists existing,
           mockItineraries Json st !! itinerary_key tripId itineraryType
           = Some existing
           /\ GET_ tripId itineraryType st
              = (json Json (ItineraryBody Json existing), st))
  \/ (accepted tripId itineraryType
      /\ mockItineraries Json st !! itinerary_key tripId itineraryType = None
      /\ mockTrips Json st !! tripId = None
      /\ GET_ tripId itineraryType st
         = (mkResponse Json (ErrorBody Json "Trip not found") 404, st))
  \/ (accepted tripId itineraryType
      /\ mockItineraries Json st !! itinerary_key tripId itineraryType = None
      /\ exists trip r w1 now w2,
           mockTrips Json st !! tripId = Some trip
           /\ generateItinerary_ (trip_tripRequest trip) (Some itineraryType)
                (world Json st) = (Normal r, w1)
           /\ Date_now w1 = (Normal now, w2)
           /\ GET_ tripId itineraryType st
              = (json Json
                   (ItineraryBody Json
                      (fresh_itinerary Json tripId itineraryType trip r now)),
                 mkState Json w2 (mockTrips Json st)
                   (<[itinerary_key tripId itineraryType :=
                        fresh_itinerary Json tripId itineraryType trip r now]>
                      (mockItineraries Json st)))).
Proof.
  destruct (accepted_dec tripId itineraryType) as [Ha|Hna].
  - right.
    destruct (mockItineraries Json st !! itinerary_key tripId itineraryType)
      as [existing|] eqn:Hc.
    + left. split; [exact Ha|]. exists existing. split; [reflexivity|].
      destruct (TripRoutesFacts.GET_cached Date_parse host Json JSON_parse
                  validateItinerarySchema buildCanonicalPrompt
                  Json_confidence_score tripId itineraryType st existing Hc)
        as (Hs & Hf).
      pose proof (Hf Ha) as Hf'.
      destruct (GET_ tripId itineraryType st) as [resp st'].
      cbn in Hs, Hf'. now subst.
    + right. destruct (mockTrips Json st !! tripId) as [trip|] eqn:Ht.
      * right. split; [exact Ha|]. split; [reflexivity|].
        destruct (TripRoutesFacts.GET_generates Date_parse host Json JSON_parse
                    validateItinerarySchema buildCanonicalPrompt
                    Json_confidence_score tripId itineraryType st trip Ha Hc Ht)
          as (r & w1 & now & w2 & E & _ & En & EG).
        exists trip, r, w1, now, w2. auto.
      * left. split; [exact Ha|]. split; [reflexivity|]. split; [reflexivity|].
        unfold GET.
        destruct (TripRoutesFacts.accepted_guards _ _ Ha) as (G1 & G2).
        now rewrite G1, G2, Hc, Ht.
  - left. split; [exact Hna|]. unfold GET.
    destruct (String.eqb tripId "" || String.eqb itineraryType "") eqn:G1;
      [eauto|].
    destruct (negb (includes validTypes (toLowerCase itineraryType))) eqn:G2;
      [eauto|].
    exfalso. apply Hna. apply orb_false_iff in G1 as (G1 & G1').
    apply String.eqb_neq in G1, G1'. apply negb_false_iff in G2.
    now repeat split.
Qed.

(** Unless it answers 200, a request leaves the server as it was. *)
Lemma GET_failure_frame tripId itineraryType (st : State Json) :
  status Json (fst (GET_ tripId itineraryType st)) <> 200 ->
  snd (GET_ tripId itineraryType st) = st.
Proof.
  destruct (GET_cases tripId itineraryType st)
    as [(_ & m & ->)|[(_ & x & _ & ->)|[(_ & _ & _ & ->)
       |(_ & _ & trip & r & w1 & now & w2 & _ & _ & _ & ->)]]];
    cbn; intros H; try reflexivity. now contradiction H.
Qed.

Variable validateTripRequest : Json -> Completion ValidationResult.

(** A body that passes validation is stored as a trip under a fresh
    identifier. *)
Lemma POST_trip_valid body tripRequest (st : State Json) :
  validateTripRequest body = Normal (Valid tripRequest) ->
  exists id now w',
    String.prefix "trip_" id = true
    /\ POST_trip Json validateTripRequest (Normal body) st
       = (json Json (CreatedBody Json id "success" "Trip created successfully"),
          mkState Json w'
            (<[id := mkTrip id tripRequest (toISOString now) "created"]>
               (mockTrips Json st))
            (mockItineraries Json st)).
Proof.
  intros H. unfold POST_trip. rewrite H.
  unfold GenerateRoute.fresh_trip_id, bind, Date_now, Math_random,
    Number_toString36, ret.
  eexists. eexists. eexists. split; [|reflexivity]. apply prefix_app.
Qed.

End Routes.
End RouteCases.

(** ** Searching a list the way the pages do *)

Module SearchFacts.
Import JS Components.

Lemma find_indexed_In {A} (p : A -> nat -> bool) (l : list A) :
  forall idx x, find_indexed p l idx = Some x -> In x l.
Proof.
  induction l as [|y l IH]; intros idx x H; cbn in H; [discriminate|].
  destruct (p y idx).
  - inversion H. now left.
  - right. eapply IH; eauto.
Qed.

Lemma findIndex_found {A} (p : A -> bool) (l : list A) :
  (exists x, In x l /\ p x = true) ->
  forall idx,
    idx <= findIndex p l idx < idx + Z.of_nat (length l)
    /\ exists x,
         l !! Z.to_nat (findIndex p l idx - idx) = Some x /\ p x = true.
Proof.
  induction l as [|y l IH]; intros (x & Hin & Hp) idx; [destruct Hin|].
  cbn [findIndex length]. destruct (p y) eqn:Hy.
  - split; [lia|]. exists y. replace (idx - idx) with 0 by lia. now split.
  - destruct Hin as [->|Hin]; [congruence|].
    destruct (IH (ex_intro _ x (conj Hin Hp)) (idx + 1)) as (Hr & x0 & Hx0 & Hp0).
    split; [lia|]. exists x0. split; [|exact Hp0].
    replace (Z.to_nat (findIndex p l (idx + 1) - idx))
      with (S (Z.to_nat (findIndex p l (idx + 1) - (idx + 1)))) by lia.
    exact Hx0.
Qed.

End SearchFacts.

(** ** The claims of the specification *)

Module Properties.
Import JS Eff DateFacts.

Section Claims.
Variable Date_parse : string -> option Z.
Variable host : TimeZone.
Variable Json : Type.
Variable JSON_parse : string -> option Json.
Variable validateItinerarySchema : Json -> Completion Orchestrator.SchemaValidation.
Variable buildCanonicalPrompt : TripRequest -> option string -> Completion string.
Variable Json_confidence_score : Json -> Completion (option Number).
Variable validateTripRequest : Json -> Completion ValidationResult.

Abbreviation generateItinerary_ :=
  (Orchestrator.generateItinerary Date_parse host Json JSON_parse
     validateItinerarySchema buildCanonicalPrompt Json_confidence_score).
Abbreviation generateMockItinerary_ :=
  (Orchestrator.generateMockItinerary Date_parse host Json).
Abbreviation GET_ :=
  (TripRoutes.GET Date_parse host Json JSON_parse validateItinerarySchema
     buildCanonicalPrompt Json_confidence_score).
Abbreviation POST_ :=
  (TripRoutes.POST Date_parse host Json JSON_parse validateItinerarySchema
     buildCanonicalPrompt Json_confidence_score).

(** C1. For every trip request, whatever the environment, the clock,
    the random sources and the model answer, [generateItinerary]
    returns (it does not throw) a result whose [success] is [true] and
    whose [error] is absent; its payload is the mock bundle, or a value
    of the model that passed schema validation. A missing credential, a
    throwing model call, unparsable text and a schema failure all end
    in the mock generator. So the branch of the itinerary route that
    answers a failed generation is never taken. *)
Theorem generate_never_reports_failure :
  (forall tripRequest itineraryType w,
     exists r w',
       Orchestrator.generateItinerary Date_parse host Json JSON_parse
         validateItinerarySchema buildCanonicalPrompt Json_confidence_score
         tripRequest itineraryType w = (Normal r, w')
       /\ Orchestrator.success r = true
       /\ Orchestrator.error r = None
       /\ ((exists mock, Orchestrator.data r = Some (Orchestrator.MockData mock))
           \/ (exists value meta v,
                 Orchestrator.data r = Some (Orchestrator.AiData value meta)
                 /\ validateItinerarySchema value = Normal v
                 /\ Orchestrator.sv_success v = true)))
  /\ (forall tripId itineraryType st e d,
        TripRoutes.body Json
          (fst (TripRoutes.GET Date_parse host Json JSON_parse
                  validateItinerarySchema buildCanonicalPrompt
                  Json_confidence_score tripId itineraryType st))
        <> TripRoutes.FailureBody Json e d).
Proof.
  split.
  - intros tripRequest itineraryType w.
    destruct (OrchestratorFacts.generateItinerary_run Date_parse host Json JSON_parse
                validateItinerarySchema buildCanonicalPrompt
                Json_confidence_score tripRequest itineraryType w)
      as (r & w' & E & Hs & He & Hd).
    exists r, w'. repeat split; try assumption.
    destruct (Orchestrator.data r) as [[mock|value meta]|]; [left|right|]; eauto.
    + destruct Hd as (v & Hv & Hsv). eauto 6.
    + contradiction.
  - intros. apply TripRoutesFacts.GET_no_failure.
Qed.



(** C3, as amended. For every trip request whose end date is not before
    its start date, each itinerary of the mock generator of the
    orchestrator has [max(1, ceil((end - start) / 1 day))] days, and
    each itinerary of [generateMockItineraries] of the generate route
    has [ceil((end - start) / 1 day) + 1] days. *)
Theorem mock_day_counts tripRequest s e :
  Date_parse (start_date tripRequest) = Some s ->
  Date_parse (end_date tripRequest) = Some e ->
  s <= e ->
  (forall itineraryType w, exists r w' mock,
     generateMockItinerary_ tripRequest itineraryType w = (Normal r, w')
     /\ Orchestrator.data r = Some (Orchestrator.MockData mock)
     /\ Forall (fun it =>
          Z.of_nat (length (days it)) = Z.max 1 (ceil_div (e - s) msPerDay))
          (itineraries mock))
  /\ (exists its,
        GenerateRoute.generateMockItineraries Date_parse host tripRequest = Normal its
        /\ Forall (fun it =>
             Z.of_nat (length (GenerateRoute.days it))
             = ceil_div (e - s) msPerDay + 1) its).
Proof.
  intros Hs He Hle. split.
  - intros itineraryType w.
    destruct (OrchestratorFacts.generateMockItinerary_spec Date_parse host Json
                tripRequest itineraryType w)
      as (r & w' & mock & E & _ & _ & Hd & _ & Hall).
    exists r, w', mock. split; [exact E|]. split; [exact Hd|].
    eapply Forall_impl; [exact Hall|]. intros it (Hok & _).
    eapply OrchestratorFacts.days_ok_length; eauto.
  - destruct (GenerateRouteFacts.generateMockItineraries_run Date_parse host tripRequest)
      as (its & E & _ & _ & Hdays).
    exists its. split; [exact E|].
    destruct its as [|a [|b [|c [|]]]]; try discriminate.
    cbn in Hdays. inversion Hdays as [[Ha Hb Hc]].
    repeat (apply List.Forall_cons || apply List.Forall_nil);
      rewrite ?Ha, ?Hb, ?Hc;
      now apply (GenerateRouteFacts.days_for_length Date_parse host).
Qed.

(** C5, as amended. The mock generator of the orchestrator returns, for
    every trip request, a non-empty list of itineraries whose types lie
    in budget, balanced and premium: all three (balanced, budget,
    premium) without a type filter, exactly the requested one when the
    filter is one of these three names, and the balanced one for any
    other non-empty filter. The generator of the generate route returns
    three itineraries whose ids are budget, balanced and luxury. *)
Theorem returned_itinerary_types tripRequest :
  (forall itineraryType w, exists r w' mock,
     generateMockItinerary_ tripRequest itineraryType w = (Normal r, w')
     /\ Orchestrator.success r = true
     /\ Orchestrator.data r = Some (Orchestrator.MockData mock)
     /\ itineraries mock <> []
     /\ Forall (fun it => In (type it) ["budget"; "balanced"; "premium"])
          (itineraries mock)
     /\ type <$> itineraries mock
        = match itineraryType with
          | None => ["balanced"; "budget"; "premium"]
          | Some t =>
              if String.eqb t "" then ["balanced"; "budget"; "premium"]
              else if String.eqb t "budget" then ["budget"]
              else if String.eqb t "premium" then ["premium"]
              else ["balanced"]
          end)
  /\ (exists its,
        GenerateRoute.generateMockItineraries Date_parse host tripRequest = Normal its
        /\ GenerateRoute.id <$> its = ["budget"; "balanced"; "luxury"]).
Proof.
  split.
  - intros itineraryType w.
    destruct (OrchestratorFacts.generateMockItinerary_spec Date_parse host Json
                tripRequest itineraryType w)
      as (r & w' & mock & E & Hs & _ & Hd & Ht & _).
    exists r, w', mock. split; [exact E|]. split; [exact Hs|].
    split; [exact Hd|].
    pose proof (OrchestratorFacts.selected_types_valid itineraryType) as Hv.
    rewrite <- Ht in Hv. split; [|split; [|exact Ht]].
    + intros Hnil. rewrite Hnil in Ht. cbn in Ht.
      unfold Orchestrator.selected_types in Ht.
      destruct itineraryType as [t|]; [|discriminate].
      repeat (match type of Ht with
              | context [if ?c then _ else _] => destruct c
              end); discriminate.
    + now apply Forall_fmap in Hv.
  - destruct (GenerateRouteFacts.generateMockItineraries_run Date_parse host tripRequest)
      as (its & E & Hid & _).
    now exists its.
Qed.

(** C7. When [validateTripRequest] rejects the body, the handler that
    creates trips answers 400 with the validator's errors as details,
    and neither the maps nor the world change: no trip is stored, no
    identifier is drawn and nothing is generated. The handler of the
    generate route does the same. *)
Theorem invalid_request_rejected body errors
    (st : TripRoutes.State Json) (st' : GenerateRoute.State) :
  validateTripRequest body = Normal (Invalid errors) ->
  TripRoutes.POST_trip Json validateTripRequest (Normal body) st
  = (TripRoutes.mkResponse Json
       (TripRoutes.InvalidBody Json "Invalid request data" errors) 400, st)
  /\ GenerateRoute.POST Date_parse host Json validateTripRequest (Normal body) st'
     = (GenerateRoute.mkResponse
          (GenerateRoute.InvalidBody "Invalid request data" errors) 400, st').
Proof.
  intros H. split.
  - now apply TripRoutesFacts.POST_trip_invalid.
  - now apply GenerateRouteFacts.POST_invalid.
Qed.

(** C6, as amended. In every itinerary of [generateMockItineraries],
    of cost multiplier [m], every day carries the four activity costs
    [Math.floor(d * 0.3)], [Math.floor(d * 0.2)], [Math.floor(d * 0.3)]
    and [Math.floor(d * 0.2)], where [d] is
    [Math.floor(Math.floor(budget_total / days) * m)]. When [d] is an
    integer [z] with [0 <= z < 2^50], these are the integer parts of
    [3z/10] and [z/5], so their sum is at most [z] and at least [z - 3],
    and it equals [z] exactly when [z] is a multiple of 10. *)
Theorem activity_costs_of_a_day tripRequest its it m z :
  GenerateRoute.generateMockItineraries Date_parse host tripRequest = Normal its ->
  In (it, m) (zip its [lit 7 10; lit 9 10; lit 12 10]) ->
  GenerateRoute.dailyBudget_of Date_parse tripRequest m = of_Z z ->
  0 <= z < 2 ^ 50 ->
  let total := 2 * (3 * z / 10) + 2 * (z / 5) in
  Forall (fun d =>
    GenerateRoute.cost <$> GenerateRoute.activities d
    = [of_Z (3 * z / 10); of_Z (z / 5); of_Z (3 * z / 10); of_Z (z / 5)]
    /\ GenerateRoute.activity_cost_sum d = Some total)
    (GenerateRoute.days it)
  /\ z - 3 <= total <= z
  /\ (total = z <-> z mod 10 = 0).
Proof.
  intros E Hin Hd Hz total.
  destruct (GenerateRouteFacts.generateMockItineraries_run Date_parse host tripRequest)
    as (its' & E' & _ & _ & Hdays).
  rewrite E in E'. inversion E'. subst its'. clear E'.
  assert (Hit : exists style,
             GenerateRoute.days it
             = GenerateRoute.days_for Date_parse host tripRequest m style).
  { destruct its as [|a [|b [|c [|]]]]; try discriminate.
    cbn in Hdays. inversion Hdays as [[Ha Hb Hc]].
    cbn in Hin. destruct Hin as [Hi|[Hi|[Hi|[]]]];
      inversion Hi; subst; eauto. }
  destruct Hit as (style & ->).
  assert (H3 : 0 <= 3 * z / 10 < 2 ^ 53).
  { split; [apply Z.div_pos; lia|].
    apply Z.div_lt_upper_bound; lia. }
  assert (H5 : 0 <= z / 5 < 2 ^ 53).
  { split; [apply Z.div_pos; lia|].
    apply Z.div_lt_upper_bound; lia. }
  split; [|subst total; clear; Z.to_euclidean_division_equations; lia].
  eapply Forall_impl;
    [apply (GenerateRouteFacts.days_for_costs Date_parse host tripRequest m style)|].
  intros d Hc. rewrite Hd in Hc.
  rewrite (NumberFacts.floor_mul_3_10 z Hz), (NumberFacts.floor_mul_2_10 z Hz) in Hc.
  split; [exact Hc|].
  unfold GenerateRoute.activity_cost_sum.
  destruct (GenerateRoute.activities d) as [|a1 [|a2 [|a3 [|a4 [|]]]]];
    cbn in Hc; try discriminate.
  inversion Hc as [[E1 E2 E3 E4]].
  cbn [foldr]. rewrite E3, E4, E1, E2.
  rewrite !NumberFacts.floorZ_of_Z by assumption.
  subst total. f_equal. lia.
Qed.


(** C9. The itinerary route accepts a type in any letter case but keys
    the cache by the string as given: for a stored trip with nothing in
    the cache, a request for [budget] and then one for [Budget] are
    both accepted, each one runs [generateItinerary] and stores what it
    got, and the cache ends with two entries under two different
    keys. *)
Theorem case_variants_cached_twice tripId (st : TripRoutes.State Json) trip :
  tripId <> "" ->
  TripRoutes.mockTrips Json st !! tripId = Some trip ->
  TripRoutes.mockItineraries Json st
    !! TripRoutes.itinerary_key tripId "budget" = None ->
  TripRoutes.mockItineraries Json st
    !! TripRoutes.itinerary_key tripId "Budget" = None ->
  exists r1 w1 r2 w2 it1 it2 st1 st2,
    GET_ tripId "budget" st
    = (TripRoutes.json Json (TripRoutes.ItineraryBody Json it1), st1)
    /\ GET_ tripId "Budget" st1
       = (TripRoutes.json Json (TripRoutes.ItineraryBody Json it2), st2)
    /\ generateItinerary_ (TripRoutes.trip_tripRequest trip) (Some "budget")
         (TripRoutes.world Json st) = (Normal r1, w1)
    /\ TripRoutes.st_data Json it1 = Orchestrator.data r1
    /\ generateItinerary_ (TripRoutes.trip_tripRequest trip) (Some "Budget")
         (TripRoutes.world Json st1) = (Normal r2, w2)
    /\ TripRoutes.st_data Json it2 = Orchestrator.data r2
    /\ TripRoutes.itinerary_key tripId "budget"
       <> TripRoutes.itinerary_key tripId "Budget"
    /\ TripRoutes.mockItineraries Json st2
         !! TripRoutes.itinerary_key tripId "budget" = Some it1
    /\ TripRoutes.mockItineraries Json st2
         !! TripRoutes.itinerary_key tripId "Budget" = Some it2.
Proof.
  intros Hid Htrip Hb HB.
  assert (Hne : TripRoutes.itinerary_key tripId "budget"
                <> TripRoutes.itinerary_key tripId "Budget").
  { intros H. apply TripRoutesFacts.itinerary_key_inj in H. discriminate. }
  destruct (TripRoutesFacts.GET_generates Date_parse host Json JSON_parse
              validateItinerarySchema buildCanonicalPrompt Json_confidence_score
              tripId "budget" st trip)
    as (r1 & w1 & now1 & w1' & E1 & _ & _ & G1);
    [repeat split; [assumption|discriminate]|assumption|assumption|].
  match type of G1 with _ = (_, ?s) => set (st1 := s) in * end.
  destruct (TripRoutesFacts.GET_generates Date_parse host Json JSON_parse
              validateItinerarySchema buildCanonicalPrompt Json_confidence_score
              tripId "Budget" st1 trip)
    as (r2 & w2 & now2 & w2' & E2 & _ & _ & G2);
    [repeat split; [assumption|discriminate]| |assumption|].
  { subst st1. cbn [TripRoutes.mockItineraries].
    now rewrite lookup_insert_ne. }
  do 4 eexists. eexists. eexists. exists st1. eexists.
  split; [exact G1|]. split; [exact G2|]. split; [exact E1|].
  split; [reflexivity|]. split; [exact E2|]. split; [reflexivity|].
  split; [exact Hne|]. cbn [TripRoutes.mockItineraries]. split.
  - rewrite lookup_insert_ne by congruence. subst st1.
    cbn [TripRoutes.mockItineraries]. apply lookup_insert_eq.
  - apply lookup_insert_eq.
Qed.

End Claims.

(** *** The end-to-end example and the concrete cases *)

Import Sample.

(** C2, as amended. For the trip from NYC to Paris, 2024-06-01 to
    2024-06-05, budget 2000 USD, two travellers, theme heritage, and no
    credential in the environment, [generateItinerary] returns a
    successful result with the mock bundle, which holds exactly three
    itineraries: balanced at 1800, budget at 1400 and premium at 2400,
    each of four days. For the same trip [generateMockItineraries] of
    the generate route returns exactly three itineraries: budget at
    1400, balanced at 1800 and luxury at 2400, each of five days. *)
Theorem paris_without_credential
    (Json : Type) (JSON_parse : string -> option Json)
    (validateItinerarySchema : Json -> Completion Orchestrator.SchemaValidation)
    (buildCanonicalPrompt : TripRequest -> option string -> Completion string)
    (Json_confidence_score : Json -> Completion (option Number)) (w : World)
    (host : TimeZone) :
  GEMINI_API_KEY w = None ->
  (exists r w' mock,
     Orchestrator.generateItinerary parseISODate host Json JSON_parse
       validateItinerarySchema buildCanonicalPrompt Json_confidence_score
       paris None w = (Normal r, w')
     /\ Orchestrator.success r = true
     /\ Orchestrator.data r = Some (Orchestrator.MockData mock)
     /\ (fun it => (type it, amount (total_cost it), length (days it)))
          <$> itineraries mock
        = [ ("balanced", of_Z 1800, 4%nat);
            ("budget", of_Z 1400, 4%nat);
            ("premium", of_Z 2400, 4%nat) ])
  /\ exists its,
       GenerateRoute.generateMockItineraries parseISODate host paris = Normal its
       /\ (fun it => (GenerateRoute.id it, GenerateRoute.totalCost it,
                      length (GenerateRoute.days it))) <$> its
          = [ ("budget", of_Z 1400, 5%nat);
              ("balanced", of_Z 1800, 5%nat);
              ("luxury", of_Z 2400, 5%nat) ].
Proof.
  intros Hkey. split.
  - destruct (OrchestratorFacts.generateItinerary_no_credential parseISODate host
                Json JSON_parse validateItinerarySchema buildCanonicalPrompt
                Json_confidence_score paris None w Hkey)
      as (t & w1 & _ & ->).
    destruct (OrchestratorFacts.generateMockItinerary_run parseISODate host Json
                paris None w1)
      as (u1 & u2 & u3 & d1 & d2 & d3 & now & rid & w' & E
          & (H1 & _) & (H2 & _) & (H3 & _)).
    eexists. exists w'. eexists. split; [exact E|].
    split; [reflexivity|]. split; [reflexivity|].
    cbn [itineraries Orchestrator.selectItineraries Orchestrator.string_truthy].
    cbn [fmap list_fmap type amount total_cost days
         Orchestrator.balanced_itinerary Orchestrator.budget_itinerary
         Orchestrator.premium_itinerary].
    rewrite H1, H2, H3.
    vm_compute. reflexivity.
  - destruct (GenerateRouteFacts.generateMockItineraries_run parseISODate host
                paris) as (its & E & Hid & Hcost & Hdays).
    exists its. split; [exact E|].
    destruct its as [|a [|b [|c [|]]]]; try discriminate.
    cbn in Hid, Hcost, Hdays |- *.
    injection Hid as -> -> ->. injection Hcost as -> -> ->.
    injection Hdays as -> -> ->.
    rewrite !MockFacts.days_for_turns.
    vm_compute. reflexivity.
Qed.

Lemma paris_without_credential_witness :
  GEMINI_API_KEY offline = None
  /\ (exists r w' mock,
        Orchestrator.generateItinerary parseISODate UTC_zone RawRequest no_parse
          no_schema plain_prompt no_confidence paris None offline = (Normal r, w')
        /\ Orchestrator.success r = true
        /\ Orchestrator.data r = Some (Orchestrator.MockData mock)
        /\ (fun it => (type it, amount (total_cost it), length (days it)))
             <$> itineraries mock
           = [ ("balanced", of_Z 1800, 4%nat);
               ("budget", of_Z 1400, 4%nat);
               ("premium", of_Z 2400, 4%nat) ])
  /\ exists its,
       GenerateRoute.generateMockItineraries parseISODate UTC_zone paris
       = Normal its
       /\ (fun it => (GenerateRoute.id it, GenerateRoute.totalCost it,
                      length (GenerateRoute.days it))) <$> its
          = [ ("budget", of_Z 1400, 5%nat);
              ("balanced", of_Z 1800, 5%nat);
              ("luxury", of_Z 2400, 5%nat) ].
Proof.
  split; [reflexivity|].
  apply (paris_without_credential RawRequest no_parse no_schema plain_prompt
           no_confidence offline UTC_zone).
  reflexivity.
Defined.

(** Against C2 as stated: the generator that the claim cites gives the
    Paris trip three itineraries of five days, the third of them named
    luxury, and not three of four days named budget, balanced and
    premium. *)
Lemma paris_route_counterexample :
  exists its,
    GenerateRoute.generateMockItineraries parseISODate UTC_zone paris = Normal its
    /\ (fun it => (GenerateRoute.id it, GenerateRoute.totalCost it,
                   length (GenerateRoute.days it))) <$> its
       = [ ("budget", of_Z 1400, 5%nat);
           ("balanced", of_Z 1800, 5%nat);
           ("luxury", of_Z 2400, 5%nat) ]
    /\ (fun it => (GenerateRoute.id it, GenerateRoute.totalCost it,
                   length (GenerateRoute.days it))) <$> its
       <> [ ("budget", of_Z 1400, 4%nat);
            ("balanced", of_Z 1800, 4%nat);
            ("premium", of_Z 2400, 4%nat) ].
Proof.
  eexists. split; [vm_compute; reflexivity|]. split.
  - vm_compute. reflexivity.
  - vm_compute. discriminate.
Qed.

(** The generator of the generate route gives the Paris trip five days,
    where [max(1, ceil((end - start) / 1 day))] is four. *)
Lemma route_day_count_counterexample :
  exists its s e,
    GenerateRoute.generateMockItineraries parseISODate UTC_zone paris = Normal its
    /\ parseISODate (start_date paris) = Some s
    /\ parseISODate (end_date paris) = Some e
    /\ s <= e
    /\ Z.max 1 (ceil_div (e - s) msPerDay) = 4
    /\ Forall (fun it => Z.of_nat (length (GenerateRoute.days it)) = 5) its
    /\ ~ Forall (fun it =>
           Z.of_nat (length (GenerateRoute.days it))
           = Z.max 1 (ceil_div (e - s) msPerDay)) its.
Proof.
  eexists. exists 1717200000000, 1717545600000.
  split; [vm_compute; reflexivity|].
  split; [reflexivity|]. split; [reflexivity|]. split; [lia|].
  split; [reflexivity|]. split.
  - repeat constructor.
  - intros H. inversion H as [|it l Hit _]. vm_compute in Hit. discriminate.
Qed.

Lemma mock_day_counts_witness :
  parseISODate (start_date paris) = Some 1717200000000
  /\ parseISODate (end_date paris) = Some 1717545600000
  /\ 1717200000000 <= 1717545600000
  /\ (forall itineraryType w, exists r w' mock,
        Orchestrator.generateMockItinerary parseISODate UTC_zone RawRequest paris
          itineraryType w = (Normal r, w')
        /\ Orchestrator.data r = Some (Orchestrator.MockData mock)
        /\ Forall (fun it => Z.of_nat (length (days it)) = 4) (itineraries mock))
  /\ (exists its,
        GenerateRoute.generateMockItineraries parseISODate UTC_zone paris = Normal its
        /\ Forall (fun it => Z.of_nat (length (GenerateRoute.days it)) = 5) its).
Proof.
  split; [reflexivity|]. split; [reflexivity|]. split; [lia|].
  exact (mock_day_counts parseISODate UTC_zone RawRequest paris 1717200000000
           1717545600000 eq_refl eq_refl ltac:(lia)).
Defined.

(** The generator of the generate route names its third itinerary
    luxury. *)
Lemma route_types_counterexample :
  exists its,
    GenerateRoute.generateMockItineraries parseISODate UTC_zone paris = Normal its
    /\ GenerateRoute.id <$> its = ["budget"; "balanced"; "luxury"]
    /\ ~ Forall (fun it => In (GenerateRoute.id it) ["budget"; "balanced"; "premium"])
           its.
Proof.
  eexists. split; [vm_compute; reflexivity|]. split; [reflexivity|].
  intros H. inversion H as [|a l _ Ha]. inversion Ha as [|b l' _ Hb].
  inversion Hb as [|c l'' Hc _]. cbn in Hc.
  destruct Hc as [Hc|[Hc|[Hc|[]]]]; discriminate.
Qed.

(** Three days on a budget of 1000: the daily share of the budget
    itinerary is 233 and its activities cost 69 + 46 + 69 + 46 = 230. *)
Lemma activity_sum_counterexample :
  exists its it d,
    GenerateRoute.generateMockItineraries parseISODate UTC_zone lyon = Normal its
    /\ its !! 0%nat = Some it
    /\ GenerateRoute.days it !! 0%nat = Some d
    /\ GenerateRoute.dailyBudget_of parseISODate lyon (lit 7 10) = of_Z 233
    /\ floorZ <$> (GenerateRoute.cost <$> GenerateRoute.activities d)
       = [Some 69; Some 46; Some 69; Some 46]
    /\ GenerateRoute.activity_cost_sum d = Some 230
    /\ GenerateRoute.activity_cost_sum d
       <> floorZ (GenerateRoute.dailyBudget_of parseISODate lyon (lit 7 10)).
Proof.
  eexists. eexists. eexists.
  split; [vm_compute; reflexivity|]. split; [reflexivity|].
  split; [reflexivity|]. split; [vm_compute; reflexivity|].
  split; [vm_compute; reflexivity|]. split; [vm_compute; reflexivity|].
  vm_compute. discriminate.
Qed.

Lemma activity_costs_of_a_day_witness :
  GenerateRoute.generateMockItineraries parseISODate UTC_zone paris = Normal paris_itineraries
  /\ In (paris_budget_itinerary, lit 7 10)
       (zip paris_itineraries [lit 7 10; lit 9 10; lit 12 10])
  /\ GenerateRoute.dailyBudget_of parseISODate paris (lit 7 10) = of_Z 280
  /\ 0 <= 280 < 2 ^ 50
  /\ Forall (fun d =>
       GenerateRoute.cost <$> GenerateRoute.activities d
       = [of_Z 84; of_Z 56; of_Z 84; of_Z 56]
       /\ GenerateRoute.activity_cost_sum d = Some 280)
       (GenerateRoute.days paris_budget_itinerary).
Proof.
  assert (H1 : GenerateRoute.generateMockItineraries parseISODate UTC_zone paris
               = Normal paris_itineraries) by (vm_compute; reflexivity).
  assert (H2 : In (paris_budget_itinerary, lit 7 10)
                 (zip paris_itineraries [lit 7 10; lit 9 10; lit 12 10]))
    by (left; reflexivity).
  assert (H3 : GenerateRoute.dailyBudget_of parseISODate paris (lit 7 10)
               = of_Z 280) by (vm_compute; reflexivity).
  assert (H4 : 0 <= 280 < 2 ^ 50) by (split; [lia|reflexivity]).
  split; [exact H1|]. split; [exact H2|]. split; [exact H3|]. split; [exact H4|].
  exact (proj1 (activity_costs_of_a_day parseISODate UTC_zone paris paris_itineraries
                  paris_budget_itinerary (lit 7 10) 280 H1 H2 H3 H4)).
Defined.

Lemma invalid_request_rejected_witness :
  validateTripRequest bad_request
  = Normal (Invalid [ mkFieldError "budget_total" "must be positive";
                      mkFieldError "end_date" "before start_date" ])
  /\ TripRoutes.POST_trip RawRequest validateTripRequest (Normal bad_request)
       server_0
     = (TripRoutes.mkResponse RawRequest
          (TripRoutes.InvalidBody RawRequest "Invalid request data"
             [ mkFieldError "budget_total" "must be positive";
               mkFieldError "end_date" "before start_date" ]) 400, server_0)
  /\ GenerateRoute.POST parseISODate UTC_zone RawRequest validateTripRequest
       (Normal bad_request) generate_server_0
     = (GenerateRoute.mkResponse
          (GenerateRoute.InvalidBody "Invalid request data"
             [ mkFieldError "budget_total" "must be positive";
               mkFieldError "end_date" "before start_date" ]) 400,
        generate_server_0).
Proof.
  split; [reflexivity|].
  apply (invalid_request_rejected parseISODate UTC_zone RawRequest validateTripRequest
           bad_request).
  reflexivity.
Defined.


Lemma case_variants_cached_twice_witness :
  TripRoutes.mockTrips RawRequest server_0 !! "trip_1" = Some trip_1
  /\ TripRoutes.mockItineraries RawRequest server_0
       !! TripRoutes.itinerary_key "trip_1" "budget" = None
  /\ TripRoutes.mockItineraries RawRequest server_0
       !! TripRoutes.itinerary_key "trip_1" "Budget" = None
  /\ exists it1 it2 st1 st2,
       TripRoutes.GET parseISODate UTC_zone RawRequest no_parse no_schema plain_prompt
         no_confidence "trip_1" "budget" server_0
       = (TripRoutes.json RawRequest (TripRoutes.ItineraryBody RawRequest it1), st1)
       /\ TripRoutes.GET parseISODate UTC_zone RawRequest no_parse no_schema plain_prompt
            no_confidence "trip_1" "Budget" st1
          = (TripRoutes.json RawRequest (TripRoutes.ItineraryBody RawRequest it2), st2)
       /\ TripRoutes.mockItineraries RawRequest st2 !! "trip_1_budget" = Some it1
       /\ TripRoutes.mockItineraries RawRequest st2 !! "trip_1_Budget" = Some it2.
Proof.
  assert (H1 : TripRoutes.mockTrips RawRequest server_0 !! "trip_1" = Some trip_1)
    by reflexivity.
  assert (H2 : TripRoutes.mockItineraries RawRequest server_0
                 !! TripRoutes.itinerary_key "trip_1" "budget" = None)
    by reflexivity.
  assert (H3 : TripRoutes.mockItineraries RawRequest server_0
                 !! TripRoutes.itinerary_key "trip_1" "Budget" = None)
    by reflexivity.
  split; [exact H1|]. split; [exact H2|]. split; [exact H3|].
  destruct (case_variants_cached_twice parseISODate UTC_zone RawRequest no_parse no_schema
              plain_prompt no_confidence "trip_1" server_0 trip_1
              ltac:(discriminate) H1 H2 H3)
    as (r1 & w1 & r2 & w2 & it1 & it2 & st1 & st2
        & G1 & G2 & _ & _ & _ & _ & _ & L1 & L2).
  exists it1, it2, st1, st2. auto.
Defined.




(** C10. On a host that keeps the time of New York, the generator of
    the generate route gives the trip from 2024-03-09 to 2024-03-11
    three days, numbered 1, 2 and 3, with the dates 2024-03-09,
    2024-03-10 and 2024-03-10 again: [setDate] moves the day of the
    local calendar, the clocks go forward during the third day, and
    [toISOString] reads the date of the time value in UTC, an hour
    before midnight. The start date moved by two days is 2024-03-11. *)
Theorem clock_change_repeats_a_date :
  parseISODate (start_date march) = Some 1709942400000
  /\ parseISODate (end_date march) = Some 1710115200000
  /\ (exists its,
        GenerateRoute.generateMockItineraries parseISODate new_york_2024 march
        = Normal its
        /\ GenerateRoute.id <$> its = ["budget"; "balanced"; "luxury"]
        /\ Forall (fun it =>
             GenerateRoute.day <$> GenerateRoute.days it = [1; 2; 3]
             /\ GenerateRoute.date <$> GenerateRoute.days it
                = ["2024-03-09"; "2024-03-10"; "2024-03-10"]) its)
  /\ (fun k => split_T_0 (toISOString (1709942400000 + (k - 1) * msPerDay)))
       <$> [1; 2; 3]
     = ["2024-03-09"; "2024-03-10"; "2024-03-11"].
Proof.
  split; [reflexivity|]. split; [reflexivity|]. split.
  - eexists. split; [vm_compute; reflexivity|]. split; [reflexivity|].
    repeat constructor.
  - reflexivity.
Qed.

End Properties.

(** ** Further properties of the code *)

Module Further.
Import JS Eff EffFacts.

Section Orchestrator.
Variable Date_parse : string -> option Z.
Variable host : TimeZone.
Variable Json : Type.
Variable JSON_parse : string -> option Json.
Variable validateItinerarySchema : Json -> Completion Orchestrator.SchemaValidation.
Variable buildCanonicalPrompt : TripRequest -> option string -> Completion string.
Variable Json_confidence_score : Json -> Completion (option Number).

Abbreviation generateItinerary_ :=
  (Orchestrator.generateItinerary Date_parse host Json JSON_parse
     validateItinerarySchema buildCanonicalPrompt Json_confidence_score).
Abbreviation attemptGeneration_ :=
  (Orchestrator.attemptGeneration Json JSON_parse validateItinerarySchema).

(** X1. Without a usable credential (none, an empty one, or one that
    does not start with [AIza]) [generateItinerary] never calls the
    model: it returns the bundle of the mock generator, marked as such,
    and the script of the model stands where it stood. *)
Theorem unusable_key_never_calls_model tripRequest itineraryType w :
  (forall k, GEMINI_API_KEY w = Some k -> String.prefix "AIza" k = false) ->
  exists r w' mock,
    Orchestrator.generateItinerary Date_parse host Json JSON_parse
      validateItinerarySchema buildCanonicalPrompt Json_confidence_score
      tripRequest itineraryType w = (Normal r, w')
    /\ gemini_ix w' = gemini_ix w
    /\ Orchestrator.success r = true
    /\ Orchestrator.data r = Some (Orchestrator.MockData mock)
    /\ mm_model_version (metadata mock) = "mock-generator-v1".
Proof.
  intros Hkey.
  destruct (total_Date_now w) as (t & w1 & Et).
  destruct (OrchestratorFacts.generateMockItinerary_run Date_parse host Json
              tripRequest itineraryType w1)
    as (u1 & u2 & u3 & d1 & d2 & d3 & now & rid & w' & E & _).
  eexists. exists w'. eexists.
  assert (Hk1 : GEMINI_API_KEY w1 = GEMINI_API_KEY w)
    by apply (CallsFacts.keeps_Date_now w _ _ Et).
  split.
  { unfold Orchestrator.generateItinerary.
    rewrite (bind_Normal _ _ _ _ _ Et).
    apply try_catch_Normal.
    erewrite bind_Normal by reflexivity.
    rewrite Hk1.
    destruct (GEMINI_API_KEY w) as [k|] eqn:Ek.
    - rewrite (Hkey k eq_refl). cbn [negb]. rewrite orb_true_r. exact E.
    - cbn. exact E. }
  split; [|split; [reflexivity|split; reflexivity]].
  destruct (CallsFacts.keeps_generateMockItinerary Date_parse host Json
              tripRequest itineraryType w1 _ _ E) as (_ & _ & ->).
  apply (CallsFacts.keeps_Date_now w _ _ Et).
Qed.

(** X2. [generateItinerary] calls the model at most twice. With a
    usable credential and a prompt it calls it once, and a second
    time exactly when the first attempt failed with
    [schema_validation_failed]; no other failure is retried. *)
Theorem model_called_once_or_twice tripRequest itineraryType w
    key prompt t w1 first w2 :
  GEMINI_API_KEY w = Some key ->
  String.prefix "AIza" key = true ->
  buildCanonicalPrompt tripRequest itineraryType = Normal prompt ->
  Date_now w = (Normal t, w1) ->
  Orchestrator.attemptGeneration Json JSON_parse validateItinerarySchema
    prompt (lit 7 10) w1 = (Normal first, w2) ->
  exists r w',
    Orchestrator.generateItinerary Date_parse host Json JSON_parse
      validateItinerarySchema buildCanonicalPrompt Json_confidence_score
      tripRequest itineraryType w = (Normal r, w')
    /\ gemini_ix w'
       = (gemini_ix w
          + if negb (Orchestrator.at_success first)
               && Orchestrator.error_is first "schema_validation_failed"
            then 2 else 1)%nat.
Proof.
  intros Hkey Hpre Hprompt Et Efirst.
  destruct (OrchestratorFacts.generateItinerary_run Date_parse host Json JSON_parse
              validateItinerarySchema buildCanonicalPrompt
              Json_confidence_score tripRequest itineraryType w)
    as (r & w' & E & _).
  exists r, w'. split; [exact E|].
  (* the clock, the environment and the prompt make no call *)
  destruct (CallsFacts.keeps_Date_now w _ _ Et) as (K1 & K2 & K3).
  pose proof (CallsFacts.attemptGeneration_calls _ _ _ _ _ _ _ _ Efirst) as Hix2.
  unfold Orchestrator.generateItinerary in E.
  rewrite (bind_Normal _ _ _ _ _ Et) in E.
  unfold try_catch in E.
  match type of E with
  | context [match ?b with _ => _ end] => destruct b as [c0 w0] eqn:Eb
  end.
  assert (Hix : gemini_ix w0
                = (gemini_ix w
                   + if negb (Orchestrator.at_success first)
                        && Orchestrator.error_is first "schema_validation_failed"
                     then 2 else 1)%nat).
  { clear E.
    unfold bind at 1 in Eb. unfold env_GEMINI_API_KEY in Eb.
    rewrite K1, Hkey, Hpre in Eb.
    assert (Hne : Orchestrator.string_truthy (Some key) = true).
    { destruct key; [discriminate|reflexivity]. }
    rewrite Hne in Eb. cbn [negb orb] in Eb.
    unfold bind at 1 in Eb. unfold lift in Eb. rewrite Hprompt in Eb.
    unfold bind at 1 in Eb. rewrite Efirst in Eb.
    unfold bind at 1 in Eb.
    destruct (negb (Orchestrator.at_success first)
              && Orchestrator.error_is first "schema_validation_failed").
    - destruct (Orchestrator.attemptGeneration Json JSON_parse
                  validateItinerarySchema
                  (prompt ++ Orchestrator.fixup_instruction) (lit 3 10) w2)
        as [[second|e] w3] eqn:Esecond.
      + pose proof (CallsFacts.attemptGeneration_calls _ _ _ _ _ _ _ _ Esecond)
          as Hix3.
        match type of Eb with
        | ?m w3 = _ => assert (Hk : Calls.keeps_model m)
        end.
        { destruct (negb _);
            [apply CallsFacts.keeps_generateMockItinerary|].
          apply CallsFacts.keeps_bind;
            [apply CallsFacts.keeps_Date_now|intros ?].
          destruct (Orchestrator.at_data second);
            [|apply CallsFacts.keeps_throw].
          CallsFacts.keeps. }
        apply Hk in Eb. destruct Eb as (_ & _ & ->). lia.
      + destruct (OrchestratorFacts.attemptGeneration_total Json JSON_parse
                    validateItinerarySchema
                    (prompt ++ Orchestrator.fixup_instruction) (lit 3 10) w2)
          as (a & w5 & Ea).
        congruence.
    - unfold ret at 1 in Eb.
      match type of Eb with
      | ?m w2 = _ => assert (Hk : Calls.keeps_model m)
      end.
      { destruct (negb _);
          [apply CallsFacts.keeps_generateMockItinerary|].
        apply CallsFacts.keeps_bind;
          [apply CallsFacts.keeps_Date_now|intros ?].
        destruct (Orchestrator.at_data first);
          [|apply CallsFacts.keeps_throw].
        CallsFacts.keeps. }
      apply Hk in Eb. destruct Eb as (_ & _ & ->). lia. }
  destruct c0 as [r0|e0].
  - inversion E; subst. exact Hix.
  - apply (CallsFacts.keeps_generateMockItinerary Date_parse host Json) in E.
    destruct E as (_ & _ & ->). exact Hix.
Qed.

(** X3. Whatever the request, the credential and the answers of the
    model, [generateItinerary] calls the model at most twice, and it
    leaves the credential as it found it. *)
Theorem model_called_at_most_twice tripRequest itineraryType w :
  exists r w',
    Orchestrator.generateItinerary Date_parse host Json JSON_parse
      validateItinerarySchema buildCanonicalPrompt Json_confidence_score
      tripRequest itineraryType w = (Normal r, w')
    /\ (gemini_ix w <= gemini_ix w' <= gemini_ix w + 2)%nat
    /\ GEMINI_API_KEY w' = GEMINI_API_KEY w.
Proof.
  destruct (OrchestratorFacts.generateItinerary_run Date_parse host Json JSON_parse
              validateItinerarySchema buildCanonicalPrompt
              Json_confidence_score tripRequest itineraryType w)
    as (r & w' & E & _).
  exists r, w'. split; [exact E|].
  destruct (CallsFacts.calls_generateItinerary _ _ _ _ _ _ _ _ _ w _ _ E)
    as (H1 & _ & H3).
  split; assumption.
Qed.

(** X4. The retry works: when the first answer parses but fails the
    schema and the answer to the prompt with the fix-up instruction, asked
    at temperature 0.3, parses and passes, [generateItinerary] returns
    the second value, not the mock bundle, under the metadata of the
    orchestrator: model version [gemini-1.5-pro], source [gemini-api],
    and the confidence of the value or else 0.85. *)
Theorem retry_returns_second_answer tripRequest itineraryType w
    key prompt text1 v1 sv1 text2 v2 sv2 own :
  GEMINI_API_KEY w = Some key ->
  String.prefix "AIza" key = true ->
  buildCanonicalPrompt tripRequest itineraryType = Normal prompt ->
  gemini w (gemini_ix w) prompt (lit 7 10) = Normal text1 ->
  JSON_parse text1 = Some v1 ->
  validateItinerarySchema v1 = Normal sv1 ->
  Orchestrator.sv_success sv1 = false ->
  gemini w (S (gemini_ix w)) (prompt ++ Orchestrator.fixup_instruction)
    (lit 3 10) = Normal text2 ->
  JSON_parse text2 = Some v2 ->
  validateItinerarySchema v2 = Normal sv2 ->
  Orchestrator.sv_success sv2 = true ->
  Json_confidence_score v2 = Normal own ->
  exists r w' meta,
    Orchestrator.generateItinerary Date_parse host Json JSON_parse
      validateItinerarySchema buildCanonicalPrompt Json_confidence_score
      tripRequest itineraryType w = (Normal r, w')
    /\ Orchestrator.success r = true
    /\ Orchestrator.data r = Some (Orchestrator.AiData v2 meta)
    /\ am_model_version meta = "gemini-1.5-pro"
    /\ am_api_source meta = "gemini-api"
    /\ am_confidence_score meta
       = match own with
         | Some c => if truthy c then c else lit 85 100
         | None => lit 85 100
         end
    /\ gemini_ix w' = (gemini_ix w + 2)%nat.
Proof.
  intros Hkey Hpre Hprompt Hg1 Hp1 Hv1 Hs1 Hg2 Hp2 Hv2 Hs2 Hown.
  assert (Hne : Orchestrator.string_truthy (Some key) = true).
  { destruct key; [discriminate|reflexivity]. }
  eexists. eexists. eexists. split.
  { unfold Orchestrator.generateItinerary.
    erewrite bind_Normal by reflexivity.
    apply try_catch_Normal.
    erewrite bind_Normal by reflexivity.
    unfold Date_now at 1. cbn [snd GEMINI_API_KEY].
    rewrite Hkey, Hne, Hpre. cbn [negb orb].
    erewrite bind_Normal by (unfold lift; rewrite Hprompt; reflexivity).
    erewrite bind_Normal;
      [|apply (CallsFacts.attemptGeneration_parsed Json JSON_parse
                 validateItinerarySchema _ _ _ text1 v1 sv1);
        [exact Hg1|exact Hp1|exact Hv1]].
    rewrite Hs1. cbn [negb andb Orchestrator.at_success].
    unfold Orchestrator.error_is.
    cbn [Orchestrator.at_error String.eqb Ascii.eqb Bool.eqb andb].
    erewrite bind_Normal;
      [|apply (CallsFacts.attemptGeneration_parsed Json JSON_parse
                 validateItinerarySchema _ _ _ text2 v2 sv2);
        [exact Hg2|exact Hp2|exact Hv2]].
    rewrite Hs2. cbn [negb Orchestrator.at_success Orchestrator.at_data].
    erewrite bind_Normal by reflexivity.
    erewrite bind_Normal by (unfold lift; rewrite Hown; reflexivity).
    erewrite bind_Normal by reflexivity.
    erewrite bind_Normal by reflexivity.
    reflexivity. }
  cbn. repeat split; reflexivity || lia.
Qed.

(** X24. An attempt never throws, is one call to the model, and its
    result is well formed: either it succeeded, and then it carries a
    value that passed the schema validator and no error, or it failed,
    and then it carries an error and no value. So the successful
    branch of [generateItinerary] always finds the data it reads. *)
Theorem attempt_result_is_well_formed prompt temperature w :
  exists a w',
    Orchestrator.attemptGeneration Json JSON_parse validateItinerarySchema
      prompt temperature w = (Normal a, w')
    /\ gemini_ix w' = S (gemini_ix w)
    /\ ((Orchestrator.at_success a = true
         /\ Orchestrator.at_error a = None
         /\ exists value v,
              Orchestrator.at_data a = Some value
              /\ validateItinerarySchema value = Normal v
              /\ Orchestrator.sv_success v = true)
        \/ (Orchestrator.at_success a = false
            /\ Orchestrator.at_data a = None
            /\ exists e, Orchestrator.at_error a = Some e)).
Proof.
  destruct (OrchestratorFacts.attemptGeneration_total Json JSON_parse
              validateItinerarySchema prompt temperature w) as (a & w' & E).
  exists a, w'. split; [exact E|].
  split; [exact (CallsFacts.attemptGeneration_calls _ _ _ _ _ _ _ _ E)|].
  unfold Orchestrator.attemptGeneration in E.
  apply try_catch_inv in E as [E | (e & w1 & _ & E)].
  2: { apply ret_inv in E as (<- & _). right. cbn. eauto. }
  apply bind_inv in E as (text & w1 & _ & E).
  assert (Hleaf : forall value w2,
             (let* validation := lift (validateItinerarySchema value) in
              if Orchestrator.sv_success validation
              then ret (Orchestrator.mkAttempt true (Some value) None [])
              else ret (Orchestrator.mkAttempt false None
                          (Some "schema_validation_failed")
                          (Orchestrator.sv_errors validation))) w2
             = (Normal a, w') ->
             (Orchestrator.at_success a = true
              /\ Orchestrator.at_error a = None
              /\ exists value v,
                   Orchestrator.at_data a = Some value
                   /\ validateItinerarySchema value = Normal v
                   /\ Orchestrator.sv_success v = true)
             \/ (Orchestrator.at_success a = false
                 /\ Orchestrator.at_data a = None
                 /\ exists e, Orchestrator.at_error a = Some e)).
  { intros value w2 H.
    apply bind_inv in H as (v & w3 & Hv & H).
    unfold lift in Hv. inversion Hv; subst w3.
    destruct (Orchestrator.sv_success v) eqn:Ev;
      apply ret_inv in H as (<- & _); cbn; [left|right]; eauto 8. }
  destruct (JSON_parse text) as [value|]; [eapply Hleaf; exact E|].
  destruct (Orchestrator.extract_json text) as [extracted|].
  2: { apply ret_inv in E as (<- & _). right. cbn. eauto. }
  destruct (JSON_parse extracted) as [value|]; [eapply Hleaf; exact E|].
  apply ret_inv in E as (<- & _). right. cbn. eauto.
Qed.

End Orchestrator.

Section Mock.
Variable Date_parse : string -> option Z.
Variable host : TimeZone.
Variable Json : Type.

(** X5. No mock itinerary gets the luxury variant of a day: the loop
    of [generateMockDays] keeps the resort, the taxi and the fine
    dining for the type [experience], which [generateMockItinerary]
    never passes. Days of the budget itinerary get a hostel and the
    bus, days of the balanced and of the premium one alike a hotel and
    the train, and all dine at the local eatery. *)
Theorem premium_days_are_balanced_days tripRequest itineraryType w :
  exists r w' mock,
    Orchestrator.generateMockItinerary Date_parse host Json tripRequest
      itineraryType w = (Normal r, w')
    /\ Orchestrator.data r = Some (Orchestrator.MockData mock)
    /\ Forall (fun it =>
         Forall (fun d =>
           acc_type (accommodation d)
           = (if String.eqb (type it) "budget" then "hostel" else "hotel")
           /\ tr_type (transportation d)
              = (if String.eqb (type it) "budget" then "bus" else "train")
           /\ meal_name <$> meals d
              = ["Local Breakfast Spot"; "Traditional Restaurant";
                 "Local Eatery"])
           (days it))
         (itineraries mock).
Proof.
  destruct (OrchestratorFacts.generateMockItinerary_run Date_parse host Json
              tripRequest itineraryType w)
    as (u1 & u2 & u3 & d1 & d2 & d3 & now & rid & w' & E & _).
  destruct (MockFacts.generateMockItinerary_days Date_parse host Json _ _ _ _ _ E)
    as (mock & Hd & Hall).
  eexists. exists w', mock. split; [exact E|]. split; [exact Hd|].
  eapply Forall_impl; [exact Hall|].
  intros it (Hty & duration & dailyBudget & wa & wb & Eds).
  eapply (MockFacts.generateMockDays_Forall Date_parse host); [|exact Eds].
  intros startDate i w0 d w0' Ed.
  destruct (MockFacts.mockDay_inv _ _ _ _ _ _ _ _ _ Ed) as (H1 & H2 & H3 & _).
  rewrite H1, H2, H3.
  cbn in Hty. destruct Hty as [<-|[<-|[<-|[]]]]; repeat split.
Qed.

(** X6. For a trip whose end date lies a day or more before its start
    date, the mock generator of the orchestrator takes the absolute
    span and plans [ceil((start - end) / 1 day)] days, at least one,
    while the generator of the generate route returns its itineraries
    without any day. *)
Theorem reversed_dates tripRequest s e :
  Date_parse (start_date tripRequest) = Some s ->
  Date_parse (end_date tripRequest) = Some e ->
  e + msPerDay <= s ->
  (forall itineraryType w, exists r w' mock,
     Orchestrator.generateMockItinerary Date_parse host Json tripRequest
       itineraryType w = (Normal r, w')
     /\ Orchestrator.data r = Some (Orchestrator.MockData mock)
     /\ Forall (fun it =>
          Z.of_nat (length (days it)) = ceil_div (s - e) msPerDay
          /\ (1 <= length (days it))%nat)
          (itineraries mock))
  /\ (exists its,
        GenerateRoute.generateMockItineraries Date_parse host tripRequest
        = Normal its
        /\ length its = 3%nat
        /\ Forall (fun it => GenerateRoute.days it = []) its).
Proof.
  intros Hs He Hlt.
  assert (Hc : 1 <= ceil_div (s - e) msPerDay).
  { unfold ceil_div, msPerDay in *.
    Z.to_euclidean_division_equations; lia. }
  split.
  - intros itineraryType w.
    destruct (OrchestratorFacts.generateMockItinerary_spec Date_parse host Json
                tripRequest itineraryType w)
      as (r & w' & mock & E & _ & _ & Hd & _ & Hall).
    exists r, w', mock. split; [exact E|]. split; [exact Hd|].
    eapply Forall_impl; [exact Hall|]. intros it ((Hlen & _) & _).
    rewrite Hlen. unfold Orchestrator.calculateDuration.
    rewrite Hs, He. cbn [Orchestrator.loop_turns].
    replace (Z.abs (e - s)) with (s - e) by (unfold msPerDay in *; lia).
    lia.
  - destruct (MockFacts.generateMockItineraries_prices Date_parse host tripRequest)
      as (its & E & _ & Hdays).
    exists its. split; [exact E|].
    destruct its as [|a [|b [|c [|]]]]; try discriminate.
    split; [reflexivity|].
    cbn in Hdays. inversion Hdays as [[Ha Hb Hc']].
    assert (Hnil : forall m style,
               GenerateRoute.days_for Date_parse host tripRequest m style = []).
    { intros m style. apply length_zero_iff_nil.
      rewrite MockFacts.days_for_turns, Hs, He.
      cbn [GenerateRoute.day_count Orchestrator.loop_turns].
      unfold ceil_div, msPerDay in *.
      Z.to_euclidean_division_equations; lia. }
    repeat (apply List.Forall_cons || apply List.Forall_nil);
      rewrite ?Ha, ?Hb, ?Hc'; apply Hnil.
Qed.

(** X7. With a start or an end date that does not parse, neither
    generator fails: the orchestrator still reports success and the
    generate route still returns its three itineraries, with their
    total costs, but no itinerary has a day. *)
Theorem unparsable_dates_give_no_days tripRequest :
  Date_parse (start_date tripRequest) = None
  \/ Date_parse (end_date tripRequest) = None ->
  (forall itineraryType w, exists r w' mock,
     Orchestrator.generateMockItinerary Date_parse host Json tripRequest
       itineraryType w = (Normal r, w')
     /\ Orchestrator.success r = true
     /\ Orchestrator.data r = Some (Orchestrator.MockData mock)
     /\ itineraries mock <> []
     /\ Forall (fun it => days it = []) (itineraries mock))
  /\ (exists its,
        GenerateRoute.generateMockItineraries Date_parse host tripRequest
        = Normal its
        /\ GenerateRoute.totalCost <$> its
           = [ Math_floor (mul (budget_total tripRequest) (lit 7 10));
               Math_floor (mul (budget_total tripRequest) (lit 9 10));
               Math_floor (mul (budget_total tripRequest) (lit 12 10)) ]
        /\ Forall (fun it => GenerateRoute.days it = []) its).
Proof.
  intros Hbad. split.
  - intros itineraryType w.
    destruct (OrchestratorFacts.generateMockItinerary_spec Date_parse host Json
                tripRequest itineraryType w)
      as (r & w' & mock & E & Hsucc & _ & Hd & Hty & Hall).
    exists r, w', mock. split; [exact E|]. split; [exact Hsucc|].
    split; [exact Hd|]. split.
    + intros Hnil. rewrite Hnil in Hty. cbn in Hty.
      unfold Orchestrator.selected_types in Hty.
      destruct itineraryType as [t|]; [|discriminate].
      repeat (match type of Hty with
              | context [if ?c then _ else _] => destruct c
              end); discriminate.
    + eapply Forall_impl; [exact Hall|]. intros it ((Hlen & _) & _).
      apply length_zero_iff_nil. rewrite Hlen.
      unfold Orchestrator.calculateDuration.
      destruct Hbad as [-> | ->]; [reflexivity|].
      now destruct (Date_parse (start_date tripRequest)).
  - destruct (GenerateRouteFacts.generateMockItineraries_run Date_parse host
                tripRequest) as (its & E & _ & Hcost & Hdays).
    exists its. split; [exact E|]. split; [exact Hcost|].
    destruct its as [|a [|b [|c [|]]]]; try discriminate.
    cbn in Hdays. inversion Hdays as [[Ha Hb Hc]].
    assert (Hnil : forall m style,
               GenerateRoute.days_for Date_parse host tripRequest m style = []).
    { intros m style. apply length_zero_iff_nil.
      rewrite MockFacts.days_for_turns.
      destruct Hbad as [-> | ->]; [reflexivity|].
      now destruct (Date_parse (start_date tripRequest)). }
    repeat (apply List.Forall_cons || apply List.Forall_nil);
      rewrite ?Ha, ?Hb, ?Hc; apply Hnil.
Qed.

(** X8. When the end date is the day before the start date, the
    generate route counts zero days and divides the budget by it: for
    a positive budget the price per night of every itinerary is
    infinite, and no itinerary has a day. *)
Theorem zero_days_divide_the_budget tripRequest s m ex :
  Date_parse (start_date tripRequest) = Some s ->
  Date_parse (end_date tripRequest) = Some (s - msPerDay) ->
  budget_total tripRequest = S754_finite false m ex ->
  exists its,
    GenerateRoute.generateMockItineraries Date_parse host tripRequest = Normal its
    /\ length its = 3%nat
    /\ Forall (fun it =>
         GenerateRoute.pricePerNight (GenerateRoute.accommodation it)
         = S754_infinity false
         /\ GenerateRoute.days it = []) its.
Proof.
  intros Hs He Hb.
  destruct (MockFacts.generateMockItineraries_prices Date_parse host tripRequest)
    as (its & E & Hprice & Hdays).
  exists its. split; [exact E|].
  rewrite Hs, He, Hb in Hprice.
  cbn [GenerateRoute.day_count] in Hprice.
  replace (ceil_div (s - msPerDay - s) msPerDay + 1) with 0 in Hprice
    by (unfold ceil_div, msPerDay; Z.to_euclidean_division_equations; lia).
  assert (Hinf : Math_floor (div (S754_finite false m ex) (of_count (Some 0)))
                 = S754_infinity false) by reflexivity.
  rewrite Hinf in Hprice.
  assert (H3 : Math_floor (mul (S754_infinity false) (lit 3 10))
               = S754_infinity false) by (vm_compute; reflexivity).
  assert (H4 : Math_floor (mul (S754_infinity false) (lit 4 10))
               = S754_infinity false) by (vm_compute; reflexivity).
  assert (H6 : Math_floor (mul (S754_infinity false) (lit 6 10))
               = S754_infinity false) by (vm_compute; reflexivity).
  rewrite H3, H4, H6 in Hprice.
  destruct its as [|a [|b [|c [|]]]]; try discriminate Hdays.
  split; [reflexivity|].
  cbn in Hprice, Hdays. injection Hprice as Pa Pb Pc.
  injection Hdays as Ha Hb' Hc.
  assert (Hnil : forall mu style,
             GenerateRoute.days_for Date_parse host tripRequest mu style = []).
  { intros mu style. apply length_zero_iff_nil.
    rewrite MockFacts.days_for_turns, Hs, He.
    cbn [GenerateRoute.day_count Orchestrator.loop_turns].
    unfold ceil_div, msPerDay.
    Z.to_euclidean_division_equations; lia. }
  repeat (apply List.Forall_cons || apply List.Forall_nil);
    (split; [assumption|]); rewrite ?Ha, ?Hb', ?Hc; apply Hnil.
Qed.

(** X9. For a request without themes the two generators part ways:
    the orchestrator falls back to the theme [cultural], while the
    generate route, whose fallback only covers a missing list, prints
    [undefined] into the names of the morning and afternoon
    activities of every day. *)
Theorem no_themes_cultural_or_undefined tripRequest :
  preferred_themes tripRequest = [] ->
  (forall itineraryType w, exists r w' mock,
     Orchestrator.generateMockItinerary Date_parse host Json tripRequest
       itineraryType w = (Normal r, w')
     /\ Orchestrator.data r = Some (Orchestrator.MockData mock)
     /\ Forall (fun it =>
          Forall (fun d =>
            act_type <$> activities d = ["sightseeing"; "cultural"]
            /\ act_name <$> activities d
               = [ "Explore " ++ destination tripRequest ++ " City Center";
                   "Local cultural Experience" ])
            (days it))
          (itineraries mock))
  /\ (exists its,
        GenerateRoute.generateMockItineraries Date_parse host tripRequest
        = Normal its
        /\ Forall (fun it =>
             Forall (fun d =>
               GenerateRoute.activity <$> GenerateRoute.activities d
               = [ "Morning undefined exploration"; "Local cuisine lunch";
                   "Afternoon undefined activity"; "Evening leisure" ])
               (GenerateRoute.days it)) its).
Proof.
  intros Hth. split.
  - intros itineraryType w.
    destruct (OrchestratorFacts.generateMockItinerary_run Date_parse host Json
                tripRequest itineraryType w)
      as (u1 & u2 & u3 & d1 & d2 & d3 & now & rid & w' & E & _).
    destruct (MockFacts.generateMockItinerary_days Date_parse host Json _ _ _ _ _ E)
      as (mock & Hd & Hall).
    eexists. exists w', mock. split; [exact E|]. split; [exact Hd|].
    eapply Forall_impl; [exact Hall|].
    intros it (_ & duration & dailyBudget & wa & wb & Eds).
    eapply (MockFacts.generateMockDays_Forall Date_parse host); [|exact Eds].
    intros startDate i w0 d w0' Ed.
    destruct (MockFacts.mockDay_inv _ _ _ _ _ _ _ _ _ Ed)
      as (_ & _ & _ & H4 & H5).
    rewrite H4, H5, Hth. split; reflexivity.
  - destruct (GenerateRouteFacts.generateMockItineraries_run Date_parse host
                tripRequest) as (its & E & _ & _ & Hdays).
    exists its. split; [exact E|].
    destruct its as [|a [|b [|c [|]]]]; try discriminate.
    cbn in Hdays. inversion Hdays as [[Ha Hb Hc]].
    assert (Hall : forall mu style,
               Forall (fun d =>
                 GenerateRoute.activity <$> GenerateRoute.activities d
                 = [ "Morning undefined exploration"; "Local cuisine lunch";
                     "Afternoon undefined activity"; "Evening leisure" ])
                 (GenerateRoute.days_for Date_parse host tripRequest mu style)).
    { intros mu style.
      eapply Forall_impl; [apply MockFacts.days_for_day_at|].
      intros d (start & dailyBudget & i & ->).
      unfold GenerateRoute.day_at. rewrite Hth. reflexivity. }
    repeat (apply List.Forall_cons || apply List.Forall_nil);
      rewrite ?Ha, ?Hb, ?Hc; apply Hall.
Qed.

(** X25. On a host whose local time keeps its offset from UTC over the
    days of the trip, and for a trip request whose end date is not
    before its start date: the day count [n] that
    [generateMockItineraries] computes is at least 1, so the divisor
    of [budget_total / days] is a Number that is neither zero nor NaN;
    every itinerary has a non-empty list of days, their indices are
    1, 2, ..., [n] in order, and the date of the [k]-th is the start
    date moved by [k - 1] days. The same holds of the mock generator
    of the orchestrator and its own day count. *)
Theorem days_are_consecutive tripRequest s e :
  Date_parse (start_date tripRequest) = Some s ->
  Date_parse (end_date tripRequest) = Some e ->
  s <= e ->
  steady host s (Z.to_nat (ceil_div (e - s) msPerDay + 1)) ->
  let date_of k := split_T_0 (toISOString (s + (k - 1) * msPerDay)) in
  (let n := ceil_div (e - s) msPerDay + 1 in
   GenerateRoute.day_count (Date_parse (start_date tripRequest))
     (Date_parse (end_date tripRequest)) = Some n
   /\ 1 <= n
   /\ truthy (of_count (Some n)) = true
   /\ exists its,
        GenerateRoute.generateMockItineraries Date_parse host tripRequest = Normal its
        /\ Forall (fun it =>
             GenerateRoute.days it <> []
             /\ GenerateRoute.day <$> GenerateRoute.days it = seqZ 1 n
             /\ GenerateRoute.date <$> GenerateRoute.days it
                = date_of <$> seqZ 1 n) its)
  /\ (let n := Z.max 1 (ceil_div (e - s) msPerDay) in
      Orchestrator.calculateDuration Date_parse (start_date tripRequest)
        (end_date tripRequest) = Some n
      /\ 1 <= n
      /\ truthy (of_count (Some n)) = true
      /\ forall itineraryType w, exists r w' mock,
           Orchestrator.generateMockItinerary Date_parse host Json tripRequest
             itineraryType w = (Normal r, w')
           /\ Orchestrator.data r = Some (Orchestrator.MockData mock)
           /\ Forall (fun it =>
                days it <> []
                /\ day <$> days it = seqZ 1 n
                /\ date <$> days it = date_of <$> seqZ 1 n) (itineraries mock)).
Proof.
  intros Hs He Hle Hst date_of. split.
  - intros n. rewrite Hs, He.
    destruct (GenerateRouteFacts.day_count_valid s e Hle) as (Hn & Hn1).
    fold n in Hn, Hn1. split; [exact Hn|]. split; [exact Hn1|].
    split; [now apply NumberFacts.of_Z_truthy|].
    destruct (GenerateRouteFacts.generateMockItineraries_run Date_parse host tripRequest)
      as (its & E & _ & _ & Hdays).
    exists its. split; [exact E|].
    assert (Hshape : forall m style,
               let ds := GenerateRoute.days_for Date_parse host tripRequest m style in
               ds <> []
               /\ GenerateRoute.day <$> ds = seqZ 1 n
               /\ GenerateRoute.date <$> ds = date_of <$> seqZ 1 n).
    { intros m style ds.
      destruct (GenerateRouteFacts.days_for_shape Date_parse host tripRequest m style
                  s e Hs He Hle) as (Hlen & Hday & Hdate & _).
      fold n in Hlen, Hday, Hdate. fold ds in Hlen, Hday, Hdate.
      split; [|split; [exact Hday|]].
      - intros Hnil. rewrite Hnil in Hlen. cbn in Hlen. lia.
      - rewrite Hdate, DateFacts.iso_dates_from_one, Z2Nat.id by (exact Hst || lia).
        reflexivity. }
    destruct its as [|a [|b [|c [|]]]]; try discriminate.
    cbn in Hdays. inversion Hdays as [[Ha Hb Hc]].
    repeat (apply List.Forall_cons || apply List.Forall_nil);
      rewrite ?Ha, ?Hb, ?Hc; apply Hshape.
  - intros n.
    assert (Hdur : Orchestrator.calculateDuration Date_parse
                     (start_date tripRequest) (end_date tripRequest) = Some n).
    { unfold Orchestrator.calculateDuration. rewrite Hs, He.
      now rewrite Z.abs_eq by lia. }
    assert (Hn1 : 1 <= n) by (subst n; lia).
    split; [exact Hdur|]. split; [exact Hn1|].
    split; [now apply NumberFacts.of_Z_truthy|].
    intros itineraryType w.
    destruct (OrchestratorFacts.generateMockItinerary_spec Date_parse host Json
                tripRequest itineraryType w)
      as (r & w' & mock & E & _ & _ & Hd & _ & Hall).
    exists r, w', mock. split; [exact E|]. split; [exact Hd|].
    eapply Forall_impl; [exact Hall|].
    intros it ((Hlen & Hday & Hdate) & _).
    rewrite Hdur in Hlen. cbn [Orchestrator.loop_turns] in Hlen.
    specialize (Hdate s Hs).
    rewrite Hlen, Z2Nat.id in Hday by lia.
    rewrite Hlen, DateFacts.iso_dates_from_one, Z2Nat.id in Hdate
      by (lia || (eapply DateFacts.steady_le; [exact Hst|];
                  pose proof (DateFacts.ceil_div_nonneg (e - s)); lia)).
    split; [|split; assumption].
    intros Hnil. rewrite Hnil in Hlen. cbn in Hlen. lia.
Qed.

End Mock.

Section Trips.
Variable Date_parse : string -> option Z.
Variable host : TimeZone.
Variable Json : Type.
Variable JSON_parse : string -> option Json.
Variable validateItinerarySchema : Json -> Completion Orchestrator.SchemaValidation.
Variable buildCanonicalPrompt : TripRequest -> option string -> Completion string.
Variable Json_confidence_score : Json -> Completion (option Number).
Variable validateTripRequest : Json -> Completion ValidationResult.

Abbreviation GET_ :=
  (TripRoutes.GET Date_parse host Json JSON_parse validateItinerarySchema
     buildCanonicalPrompt Json_confidence_score).
Abbreviation POST_ :=
  (TripRoutes.POST Date_parse host Json JSON_parse validateItinerarySchema
     buildCanonicalPrompt Json_confidence_score).
Abbreviation GET_cases_ :=
  (RouteCases.GET_cases Date_parse host Json JSON_parse validateItinerarySchema
     buildCanonicalPrompt Json_confidence_score).

(** X10. The itinerary route answers a [GET] with 200, 400 or 404 and
    never with 500: 400 exactly when the trip id or the type is empty
    or the type, in lower case, is none of the three names; 404 exactly
    when the pair is accepted but there is neither a cached itinerary
    nor a trip; 200 otherwise. On 400 and 404 the server is left as it
    was. *)
Theorem itinerary_GET_answers tripId itineraryType (st : TripRoutes.State Json) :
  let answer :=
    TripRoutes.GET Date_parse host Json JSON_parse validateItinerarySchema
      buildCanonicalPrompt Json_confidence_score tripId itineraryType st in
  let key := TripRoutes.itinerary_key tripId itineraryType in
  (TripRoutes.status Json (fst answer) = 200
   /\ TripRoutes.accepted tripId itineraryType
   /\ (is_Some (TripRoutes.mockItineraries Json st !! key)
       \/ is_Some (TripRoutes.mockTrips Json st !! tripId)))
  \/ (TripRoutes.status Json (fst answer) = 400
      /\ ~ TripRoutes.accepted tripId itineraryType
      /\ snd answer = st)
  \/ (TripRoutes.status Json (fst answer) = 404
      /\ TripRoutes.accepted tripId itineraryType
      /\ TripRoutes.mockItineraries Json st !! key = None
      /\ TripRoutes.mockTrips Json st !! tripId = None
      /\ snd answer = st).
Proof.
  cbv zeta.
  destruct (GET_cases_ tripId itineraryType st)
    as [(Hna & m & ->)|[(Ha & x & Hx & ->)|[(Ha & Hc & Ht & ->)
       |(Ha & Hc & trip & r & w1 & now & w2 & Ht & _ & _ & ->)]]]; cbn.
  - right; left. auto.
  - left. rewrite Hx. eauto.
  - right; right. auto.
  - left. rewrite Ht. eauto.
Qed.

(** X11. Asking twice is asking once: a second [GET] with the same
    parameters, on the server as the first one left it, gives the
    same answer and changes nothing, so it generates nothing. *)
Theorem itinerary_GET_idempotent tripId itineraryType
    (st : TripRoutes.State Json) :
  let first :=
    TripRoutes.GET Date_parse host Json JSON_parse validateItinerarySchema
      buildCanonicalPrompt Json_confidence_score tripId itineraryType st in
  TripRoutes.GET Date_parse host Json JSON_parse validateItinerarySchema
    buildCanonicalPrompt Json_confidence_score tripId itineraryType (snd first)
  = first.
Proof.
  cbv zeta.
  destruct (GET_cases_ tripId itineraryType st)
    as [(Hna & m & E)|[(Ha & x & Hx & E)|[(Ha & Hc & Ht & E)
       |(Ha & Hc & trip & r & w1 & now & w2 & Ht & _ & _ & E)]]];
    rewrite E; cbn [snd]; try exact E.
  match goal with |- GET_ _ _ ?st1 = _ => set (st1' := st1) end.
  destruct (TripRoutesFacts.GET_cached Date_parse host Json JSON_parse
              validateItinerarySchema buildCanonicalPrompt
              Json_confidence_score tripId itineraryType st1'
              (TripRoutes.fresh_itinerary Json tripId itineraryType trip r now))
    as (Hs & Hf).
  { unfold st1'. cbn [TripRoutes.mockItineraries]. apply lookup_insert_eq. }
  specialize (Hf Ha).
  destruct (GET_ tripId itineraryType st1') as [resp st2].
  cbn in Hs, Hf. now subst.
Qed.

(** X12. A forced regeneration deletes first and checks afterwards:
    unless it answers 200, nothing is left under the key of the pair,
    whatever was cached there, and this also for a request the route
    rejects. *)
Theorem failed_regeneration_drops_entry tripId itineraryType
    (st : TripRoutes.State Json) :
  TripRoutes.status Json
    (fst (TripRoutes.POST Date_parse host Json JSON_parse validateItinerarySchema
            buildCanonicalPrompt Json_confidence_score tripId itineraryType st))
  <> 200 ->
  TripRoutes.mockItineraries Json
    (snd (TripRoutes.POST Date_parse host Json JSON_parse validateItinerarySchema
            buildCanonicalPrompt Json_confidence_score tripId itineraryType st))
    !! TripRoutes.itinerary_key tripId itineraryType = None.
Proof.
  unfold TripRoutes.POST. intros H.
  rewrite (RouteCases.GET_failure_frame _ _ _ _ _ _ _ _ _ _ H).
  cbn [TripRoutes.mockItineraries]. apply lookup_delete_eq.
Qed.

(** X13. Accepted pairs never share a cache entry: the three type
    names hold no underscore, in any letter case, so the key
    [tripId_type] of an accepted pair determines the pair. *)
Theorem accepted_pairs_have_their_own_key tripId itineraryType
    tripId' itineraryType' :
  TripRoutes.accepted tripId itineraryType ->
  TripRoutes.accepted tripId' itineraryType' ->
  TripRoutes.itinerary_key tripId itineraryType
  = TripRoutes.itinerary_key tripId' itineraryType' ->
  tripId = tripId' /\ itineraryType = itineraryType'.
Proof.
  intros (_ & _ & H) (_ & _ & H').
  apply RouteCases.itinerary_key_injective;
    now apply RouteCases.accepted_type_no_underscore.
Qed.

(** X14. A trip that was created can be fetched: when the body passes
    validation, [POST] answers an identifier that starts with [trip_],
    and the lookup by query parameter, which lives in the module of
    [POST], then answers the stored trip with the validated request
    and the status [created]. The lookup by path parameter is a
    module of its own: evaluated after [trips/route.ts] it reads the
    same map and answers the same trip, evaluated before it it holds
    a map of its own and answers 404. No itinerary is touched and
    every other trip stays. *)
Theorem created_trip_can_be_fetched body tripRequest
    (st : TripRoutes.State Json) :
  validateTripRequest body = Normal (Valid tripRequest) ->
  exists id st' trip,
    TripRoutes.POST_trip Json validateTripRequest (Normal body) st
    = (TripRoutes.json Json
         (TripRoutes.CreatedBody Json id "success" "Trip created successfully"),
       st')
    /\ String.prefix "trip_" id = true
    /\ TripRoutes.trip_id trip = id
    /\ TripRoutes.trip_tripRequest trip = tripRequest
    /\ TripRoutes.trip_status trip = "created"
    /\ TripLookup.GET_by_query (Some id) (TripRoutes.mockTrips Json st')
       = TripLookup.json (TripLookup.TripBody trip)
    /\ TripLookup.GET_by_path id
         (TripRoutes.held TripRoutes.AfterTrips (TripRoutes.mockTrips Json st'))
       = TripLookup.json (TripLookup.TripBody trip)
    /\ TripLookup.GET_by_path id
         (TripRoutes.held TripRoutes.BeforeTrips (TripRoutes.mockTrips Json st'))
       = TripLookup.mkResponse (TripLookup.ErrorBody "Trip not found") 404
    /\ TripRoutes.mockItineraries Json st' = TripRoutes.mockItineraries Json st
    /\ forall k, k <> id ->
         TripRoutes.mockTrips Json st' !! k = TripRoutes.mockTrips Json st !! k.
Proof.
  intros H.
  destruct (RouteCases.POST_trip_valid Json validateTripRequest body
              tripRequest st H) as (id & now & w' & Hid & E).
  exists id. eexists.
  exists (TripRoutes.mkTrip id tripRequest (toISOString now) "created").
  split; [exact E|]. split; [exact Hid|].
  assert (Hne : String.eqb id "" = false).
  { destruct id; [discriminate Hid|reflexivity]. }
  cbn [TripRoutes.mockTrips TripRoutes.mockItineraries TripRoutes.held
       TripRoutes.trip_id TripRoutes.trip_tripRequest TripRoutes.trip_status].
  repeat split.
  - unfold TripLookup.GET_by_query. cbn [Orchestrator.string_truthy].
    rewrite Hne. cbn [negb default]. unfold Datatypes.id.
    now rewrite lookup_insert_eq.
  - unfold TripLookup.GET_by_path. rewrite Hne. now rewrite lookup_insert_eq.
  - unfold TripLookup.GET_by_path. rewrite Hne. now rewrite lookup_empty.
  - intros k Hk. now rewrite lookup_insert_ne.
Qed.

(** X15. A created trip gets its itineraries when the itinerary route
    shares the maps of [trips/route.ts], that is when it was
    evaluated after that module: a [GET] for the new identifier and
    any of the three types, in any letter case, then answers 200,
    and unless an itinerary was already cached under that key, the
    itinerary it answers and stores holds the validated request and,
    as its payload, what [generateItinerary] returned for that
    request and type. Evaluated before [trips/route.ts], the route
    holds maps of its own and answers 404. *)
Theorem created_trip_gets_itineraries body tripRequest
    (st : TripRoutes.State Json) :
  validateTripRequest body = Normal (Valid tripRequest) ->
  exists id st',
    TripRoutes.POST_trip Json validateTripRequest (Normal body) st
    = (TripRoutes.json Json
         (TripRoutes.CreatedBody Json id "success" "Trip created successfully"),
       st')
    /\ forall itineraryType,
         TripRoutes.includes TripRoutes.validTypes (toLowerCase itineraryType)
         = true ->
         let answer :=
           TripRoutes.GET Date_parse host Json JSON_parse validateItinerarySchema
             buildCanonicalPrompt Json_confidence_score id itineraryType
             (TripRoutes.seen_by_itinerary_route Json TripRoutes.AfterTrips st') in
         let apart :=
           TripRoutes.GET Date_parse host Json JSON_parse validateItinerarySchema
             buildCanonicalPrompt Json_confidence_score id itineraryType
             (TripRoutes.seen_by_itinerary_route Json TripRoutes.BeforeTrips st') in
         TripRoutes.status Json (fst answer) = 200
         /\ (TripRoutes.mockItineraries Json st
               !! TripRoutes.itinerary_key id itineraryType = None ->
             exists it r w1,
               Orchestrator.generateItinerary Date_parse host Json JSON_parse
                 validateItinerarySchema buildCanonicalPrompt
                 Json_confidence_score tripRequest (Some itineraryType)
                 (TripRoutes.world Json st') = (Normal r, w1)
               /\ TripRoutes.body Json (fst answer) = TripRoutes.ItineraryBody Json it
               /\ TripRoutes.st_data Json it = Orchestrator.data r
               /\ TripRoutes.st_tripRequest Json it = tripRequest
               /\ TripRoutes.mockItineraries Json (snd answer)
                    !! TripRoutes.itinerary_key id itineraryType = Some it)
         /\ fst apart
            = TripRoutes.mkResponse Json
                (TripRoutes.ErrorBody Json "Trip not found") 404.
Proof.
  intros H.
  destruct (RouteCases.POST_trip_valid Json validateTripRequest body
              tripRequest st H) as (id & now & w' & Hid & E).
  eexists id, _. split; [exact E|].
  intros itineraryType Hty. cbv zeta.
  assert (Hne : id <> "") by (intros ->; discriminate Hid).
  assert (Hte : itineraryType <> "") by (intros ->; discriminate Hty).
  assert (Ha : TripRoutes.accepted id itineraryType) by (repeat split; auto).
  split; [|split].
  - match goal with |- context [GET_ id itineraryType ?s] => set (st' := s) end.
    destruct (GET_cases_ id itineraryType st')
      as [(Hna & _)|[(_ & x & Hx & ->)|[(_ & Hc & Ht & _)
         |(_ & Hc & trip & r & w1 & now' & w2 & Ht & _ & _ & ->)]]].
    + contradiction.
    + reflexivity.
    + unfold st' in Ht. cbn [TripRoutes.mockTrips TripRoutes.held
        TripRoutes.seen_by_itinerary_route] in Ht.
      rewrite lookup_insert_eq in Ht. discriminate.
    + reflexivity.
  - intros Hmiss.
    match goal with |- context [GET_ id itineraryType ?s] => set (st' := s) end.
    destruct (GET_cases_ id itineraryType st')
      as [(Hna & _)|[(_ & x & Hx & _)|[(_ & Hc & Ht & _)
         |(_ & Hc & trip & r & w1 & now' & w2 & Ht & Er & _ & ->)]]].
    + contradiction.
    + unfold st' in Hx. cbn [TripRoutes.mockItineraries TripRoutes.held
        TripRoutes.seen_by_itinerary_route] in Hx. congruence.
    + unfold st' in Ht. cbn [TripRoutes.mockTrips TripRoutes.held
        TripRoutes.seen_by_itinerary_route] in Ht.
      rewrite lookup_insert_eq in Ht. discriminate.
    + unfold st' in Ht, Er. cbn [TripRoutes.mockTrips TripRoutes.held
        TripRoutes.world TripRoutes.seen_by_itinerary_route] in Ht, Er.
      rewrite lookup_insert_eq in Ht. inversion Ht; subst trip.
      cbn [TripRoutes.trip_tripRequest] in Er.
      eexists _, r, w1. split; [exact Er|]. split; [reflexivity|].
      cbn [TripRoutes.fresh_itinerary TripRoutes.st_data
           TripRoutes.st_tripRequest TripRoutes.trip_tripRequest
           TripRoutes.mockItineraries snd].
      repeat split. apply lookup_insert_eq.
  - unfold TripRoutes.GET.
    destruct (TripRoutesFacts.accepted_guards _ _ Ha) as (G1 & G2).
    rewrite G1, G2.
    cbn [TripRoutes.mockItineraries TripRoutes.mockTrips TripRoutes.held
         TripRoutes.seen_by_itinerary_route].
    now rewrite !lookup_empty.
Qed.

End Trips.

Section Generate.
Variable Date_parse : string -> option Z.
Variable host : TimeZone.
Variable Json : Type.
Variable validateTripRequest : Json -> Completion ValidationResult.

(** X16. The generate route answers a [POST] with 200, 400 or 500:
    500 only when reading the body or the validator throws, 400
    exactly when the validator rejects the body, 200 exactly when it
    accepts it, for the generator never fails. The store changes on
    200 only. *)
Theorem generate_POST_answers request_json (st : GenerateRoute.State) :
  let answer :=
    GenerateRoute.POST Date_parse host Json validateTripRequest request_json st in
  (GenerateRoute.status (fst answer) = 200
   /\ exists body tripRequest,
        request_json = Normal body
        /\ validateTripRequest body = Normal (Valid tripRequest))
  \/ (GenerateRoute.status (fst answer) = 400
      /\ (exists body errors,
            request_json = Normal body
            /\ validateTripRequest body = Normal (Invalid errors))
      /\ snd answer = st)
  \/ (GenerateRoute.status (fst answer) = 500
      /\ ((exists e, request_json = Throw e)
          \/ exists body e,
               request_json = Normal body
               /\ validateTripRequest body = Throw e)
      /\ snd answer = st).
Proof.
  cbv zeta. unfold GenerateRoute.POST. destruct st as [w store].
  destruct request_json as [body|e].
  - destruct (validateTripRequest body) as [[tripRequest|errors]|e] eqn:Ev.
    + left.
      destruct (GenerateRouteFacts.generateMockItineraries_run Date_parse host
                  tripRequest) as (its & -> & _).
      cbn. eauto 10.
    + right; left. cbn. eauto 10.
    + right; right. cbn. eauto 10.
  - right; right. cbn. eauto 10.
Qed.


End Generate.

Section Pages.


End Pages.

Section Target.

(** X19. [SingleItineraryDetail] finds an itinerary to show unless the
    entry has none: it is one of the entry's itineraries, it carries
    the requested id whenever some itinerary does, and the tab index
    computed for it points into the list, at an itinerary of the same
    id, so that tab is shown as the active one. *)
Theorem target_itinerary_is_found (data : GenerateRoute.Entry) itineraryId :
  (Components.targetItinerary data itineraryId = None
   <-> GenerateRoute.itineraries data = [])
  /\ forall it,
       Components.targetItinerary data itineraryId = Some it ->
       In it (GenerateRoute.itineraries data)
       /\ ((exists it', In it' (GenerateRoute.itineraries data)
                        /\ GenerateRoute.id it' = itineraryId) ->
           GenerateRoute.id it = itineraryId)
       /\ 0 <= Components.itineraryIndex data it
            < Z.of_nat (length (GenerateRoute.itineraries data))
       /\ exists shown,
            GenerateRoute.itineraries data
              !! Z.to_nat (Components.itineraryIndex data it) = Some shown
            /\ GenerateRoute.id shown = GenerateRoute.id it
            /\ Components.isActive data it shown
                 (Components.itineraryIndex data it) = true.
Proof.
  unfold Components.targetItinerary.
  set (its := GenerateRoute.itineraries data).
  set (byId := fun it => String.eqb (GenerateRoute.id it) itineraryId).
  set (byIndex := fun (_ : GenerateRoute.Itinerary) idx =>
                    String.eqb (Z_toString (Z.of_nat idx)) itineraryId).
  split.
  - destruct (List.find byId its) as [it|] eqn:Ef.
    + split; [discriminate|]. intros Hnil. rewrite Hnil in Ef. discriminate.
    + destruct (Components.find_indexed byIndex its 0) as [it|] eqn:Ei.
      * split; [discriminate|]. intros Hnil. rewrite Hnil in Ei. discriminate.
      * destruct its; cbn; split; congruence.
  - intros it Hit.
    assert (Hin : In it its).
    { destruct (List.find byId its) as [x|] eqn:Ef.
      - inversion Hit; subst. now apply List.find_some in Ef.
      - destruct (Components.find_indexed byIndex its 0) as [x|] eqn:Ei.
        + inversion Hit; subst. eapply SearchFacts.find_indexed_In; eauto.
        + destruct its; inversion Hit. now left. }
    split; [exact Hin|]. split.
    { intros (it' & Hin' & Hid').
      destruct (List.find byId its) as [x|] eqn:Ef.
      - inversion Hit; subst. apply List.find_some in Ef as (_ & Ef).
        now apply String.eqb_eq in Ef.
      - exfalso. pose proof (List.find_none _ _ Ef it' Hin') as Hn.
        unfold byId in Hn. rewrite Hid', String.eqb_refl in Hn. discriminate. }
    unfold Components.itineraryIndex. fold its.
    destruct (SearchFacts.findIndex_found
                (fun x => String.eqb (GenerateRoute.id x) (GenerateRoute.id it))
                its) with (idx := 0) as (Hr & shown & Hs & Hp).
    { exists it. split; [exact Hin|apply String.eqb_refl]. }
    rewrite Z.sub_0_r in Hs.
    split; [lia|]. exists shown. split; [exact Hs|].
    apply String.eqb_eq in Hp. split; [exact Hp|].
    unfold Components.isActive. rewrite Hp, String.eqb_refl. reflexivity.
Qed.

Variable Date_parse : string -> option Z.
Variable host : TimeZone.

(** X20. On an entry of the generate route the page shows the budget
    itinerary for every variant it does not know: the ids of the entry
    are [budget], [balanced] and [luxury], so a request for [premium]
    finds neither an id nor an index and falls back to the first
    itinerary. Only [balanced] or [1] show the balanced one, and only
    [luxury] or [2] the third. *)
Theorem unknown_variant_shows_budget tripRequest its id createdAt itineraryId :
  GenerateRoute.generateMockItineraries Date_parse host tripRequest = Normal its ->
  exists it,
    Components.targetItinerary
      (GenerateRoute.mkEntry id its tripRequest createdAt) itineraryId
    = Some it
    /\ GenerateRoute.id it
       = (if String.eqb "balanced" itineraryId || String.eqb "1" itineraryId
          then "balanced"
          else if String.eqb "luxury" itineraryId || String.eqb "2" itineraryId
          then "luxury" else "budget").
Proof.
  intros E.
  destruct (GenerateRouteFacts.generateMockItineraries_run Date_parse host
              tripRequest) as (its' & E' & Hid & _).
  rewrite E in E'. inversion E'; subst its'. clear E'.
  destruct its as [|a [|b [|c [|]]]]; try discriminate.
  cbn in Hid. injection Hid as Ha Hb Hc.
  unfold Components.targetItinerary.
  cbn [GenerateRoute.itineraries List.find Components.find_indexed head].
  rewrite Ha, Hb, Hc.
  replace (Z_toString (Z.of_nat 0)) with "0" by (vm_compute; reflexivity).
  replace (Z_toString (Z.of_nat 1)) with "1" by (vm_compute; reflexivity).
  replace (Z_toString (Z.of_nat 2)) with "2" by (vm_compute; reflexivity).
  destruct (String.eqb_spec "budget" itineraryId) as [<-|?];
    [exists a; split; [reflexivity|exact Ha]|].
  destruct (String.eqb_spec "balanced" itineraryId) as [<-|?];
    [exists b; split; [reflexivity|exact Hb]|].
  destruct (String.eqb_spec "luxury" itineraryId) as [<-|?];
    [exists c; split; [reflexivity|exact Hc]|].
  destruct (String.eqb_spec "0" itineraryId) as [<-|?];
    [exists a; split; [reflexivity|exact Ha]|].
  destruct (String.eqb_spec "1" itineraryId) as [<-|?];
    [exists b; split; [reflexivity|exact Hb]|].
  destruct (String.eqb_spec "2" itineraryId) as [<-|?];
    [exists c; split; [reflexivity|exact Hc]|].
  exists a. split; [reflexivity|exact Ha].
Qed.

Variable Json : Type.

(** X21. The option cards of [ItineraryResults] agree with the mock
    generator of the orchestrator: for a trip with a budget that is
    neither zero nor NaN, the type a card links to is accepted by the
    itinerary route, the mock generator asked for that type returns
    that one itinerary, and its total cost is the estimated cost of
    the card; when both dates are given and parse, with the end not
    before the start, its number of days is the duration on the
    card. *)
Theorem cards_agree_with_mock_generator (trip : TripRoutes.Trip) indexNum w :
  truthy (budget_total (TripRoutes.trip_tripRequest trip)) = true ->
  let tripRequest := TripRoutes.trip_tripRequest trip in
  let itineraryType := Components.card_itineraryType indexNum in
  TripRoutes.includes TripRoutes.validTypes (toLowerCase itineraryType) = true
  /\ exists r w' mock it,
       Orchestrator.generateMockItinerary Date_parse host Json tripRequest
         (Some itineraryType) w = (Normal r, w')
       /\ Orchestrator.data r = Some (Orchestrator.MockData mock)
       /\ itineraries mock = [it]
       /\ type it = itineraryType
       /\ amount (total_cost it) = Components.estimatedCost trip indexNum
       /\ forall s e w0,
            start_date tripRequest <> "" ->
            end_date tripRequest <> "" ->
            Date_parse (start_date tripRequest) = Some s ->
            Date_parse (end_date tripRequest) = Some e ->
            s <= e ->
            Components.card_duration Date_parse trip w0
            = (Normal (Some (Z.of_nat (length (days it)))), w0).
Proof.
  intros Hb. cbv zeta.
  split.
  { unfold Components.card_itineraryType.
    destruct (indexNum =? 0); [reflexivity|].
    destruct (indexNum =? 1); reflexivity. }
  destruct (OrchestratorFacts.generateMockItinerary_run Date_parse host Json
              (TripRoutes.trip_tripRequest trip)
              (Some (Components.card_itineraryType indexNum)) w)
    as (u1 & u2 & u3 & d1 & d2 & d3 & now & rid & w' & E & H1 & H2 & H3).
  rewrite OrchestratorFacts.selectItineraries_three in E.
  assert (Hdur : forall ds s e w0,
             Orchestrator.days_ok Date_parse host (TripRoutes.trip_tripRequest trip) ds ->
             start_date (TripRoutes.trip_tripRequest trip) <> "" ->
             end_date (TripRoutes.trip_tripRequest trip) <> "" ->
             Date_parse (start_date (TripRoutes.trip_tripRequest trip)) = Some s ->
             Date_parse (end_date (TripRoutes.trip_tripRequest trip)) = Some e ->
             s <= e ->
             Components.card_duration Date_parse trip w0
             = (Normal (Some (Z.of_nat (length ds))), w0)).
  { intros ds s e w0 Hok Hs0 He0 Hs He Hle.
    rewrite (OrchestratorFacts.days_ok_length Date_parse host _ ds s e Hs He Hle Hok).
    unfold Components.card_duration, Components.card_date.
    apply String.eqb_neq in Hs0, He0. rewrite Hs0, He0.
    unfold bind, ret. rewrite Hs, He. reflexivity. }
  unfold Components.estimatedCost, Components.budgetMultiplier. rewrite Hb.
  unfold Components.card_itineraryType in *.
  destruct (indexNum =? 0).
  { eexists. exists w'. eexists. eexists. split; [exact E|].
    split; [reflexivity|]. cbn. split; [reflexivity|].
    split; [reflexivity|]. split; [reflexivity|].
    intros. eapply Hdur; eauto. }
  destruct (indexNum =? 1).
  { eexists. exists w'. eexists. eexists. split; [exact E|].
    split; [reflexivity|]. cbn. split; [reflexivity|].
    split; [reflexivity|]. split; [reflexivity|].
    intros. eapply Hdur; eauto. }
  eexists. exists w'. eexists. eexists. split; [exact E|].
  split; [reflexivity|]. cbn. split; [reflexivity|].
  split; [reflexivity|]. split; [reflexivity|].
  intros. eapply Hdur; eauto.
Qed.

End Target.

Section Test.

(** X22. Without a credential the test route never reaches the model:
    [GET] answers 500 and says that the key is not configured, and
    [POST] answers 400 for a missing, empty or otherwise falsy prompt,
    which it checks first, and 500 otherwise. Neither reads the clock
    or counts a call. *)
Theorem test_route_without_credential (w : GeminiTest.World) :
  Orchestrator.string_truthy (GeminiTest.GEMINI_API_KEY w) = false ->
  GeminiTest.GET w
  = (GeminiTest.mkResponse
       (GeminiTest.Failure "GEMINI_API_KEY not configured"
          (Some "Environment variable GEMINI_API_KEY is missing") None) 500,
     w)
  /\ forall body,
       exists r,
         GeminiTest.POST (inr body) w = (r, w)
         /\ GeminiTest.status r
            = (if GeminiTest.value_truthy (GeminiTest.prompt body)
               then 500 else 400).
Proof.
  intros Hk. split.
  - unfold GeminiTest.GET. now rewrite Hk.
  - intros body. unfold GeminiTest.POST.
    destruct (GeminiTest.value_truthy (GeminiTest.prompt body));
      cbn [negb]; [rewrite Hk|]; eauto.
Qed.

(** X23. The statuses of the test route: [GET] answers 200, 401, 429,
    500 or 503, and 200 exactly when there is a credential and the
    model answers the test prompt; [POST] answers 200, 400 or 500
    only, so a failure of the model that [GET] would report as 401,
    429 or 503 comes back from [POST] as 500, and 200 exactly when
    the prompt of the body is a string that is not empty, there is a
    credential and the model answers. A prompt that is truthy but no
    string gets past the check for a missing prompt and, with a
    credential, ends in the catch block before the model is asked:
    500, and the world as it was. Each handler calls the model at
    most once. *)
Theorem test_route_statuses (w : GeminiTest.World)
    (request_json : GeminiTest.JsError + GeminiTest.PostBody) :
  let g := GeminiTest.GET w in
  let p := GeminiTest.POST request_json w in
  In (GeminiTest.status (fst g)) [200; 401; 429; 500; 503]
  /\ (GeminiTest.status (fst g) = 200 <->
      Orchestrator.string_truthy (GeminiTest.GEMINI_API_KEY w) = true
      /\ exists text,
           GeminiTest.answers w (GeminiTest.calls w)
             (GeminiTest.JsString "gemini-1.5-flash")
             GeminiTest.testPrompt = inr text)
  /\ In (GeminiTest.status (fst p)) [200; 400; 500]
  /\ (GeminiTest.status (fst p) = 200 <->
      exists body s text,
        request_json = inr body
        /\ GeminiTest.prompt body = GeminiTest.JsString s
        /\ s <> ""
        /\ Orchestrator.string_truthy (GeminiTest.GEMINI_API_KEY w) = true
        /\ GeminiTest.answers w (GeminiTest.calls w)
             (GeminiTest.modelName_of body) s = inr text)
  /\ (forall body,
        request_json = inr body ->
        GeminiTest.prompt body = GeminiTest.JsOther true ->
        GeminiTest.status (fst p) = 500 /\ snd p = w)
  /\ (GeminiTest.calls (snd g) <= GeminiTest.calls w + 1)%nat
  /\ (GeminiTest.calls (snd p) <= GeminiTest.calls w + 1)%nat.
Proof.
  cbv zeta.
  assert (HG :
    In (GeminiTest.status (fst (GeminiTest.GET w))) [200; 401; 429; 500; 503]
    /\ (GeminiTest.status (fst (GeminiTest.GET w)) = 200 <->
        Orchestrator.string_truthy (GeminiTest.GEMINI_API_KEY w) = true
        /\ exists text,
             GeminiTest.answers w (GeminiTest.calls w)
               (GeminiTest.JsString "gemini-1.5-flash")
               GeminiTest.testPrompt = inr text)
    /\ (GeminiTest.calls (snd (GeminiTest.GET w)) <= GeminiTest.calls w + 1)%nat).
  { unfold GeminiTest.GET.
    destruct (Orchestrator.string_truthy (GeminiTest.GEMINI_API_KEY w)) eqn:Hk;
      cbn [negb].
    - unfold GeminiTest.Date_now, GeminiTest.generateContent.
      cbn [GeminiTest.answers GeminiTest.calls].
      destruct (GeminiTest.answers w (GeminiTest.calls w)
                  (GeminiTest.JsString "gemini-1.5-flash")
                  GeminiTest.testPrompt) as [error|text] eqn:Ea.
      + unfold GeminiTest.errorDetails_statusCode.
        repeat match goal with
          | |- context [if ?c then _ else _] => destruct c
          end;
          cbn; (split; [tauto|]); (split; [|lia]);
          (split; [discriminate|intros (_ & t & Ht); discriminate Ht]).
      + cbn. split; [tauto|]. split; [|lia]. split; eauto.
    - cbn. split; [tauto|]. split; [|lia].
      split; [discriminate|]. intros (H & _). discriminate H. }
  destruct HG as (G1 & G2 & G3).
  split; [exact G1|]. split; [exact G2|].
  assert (HP :
    In (GeminiTest.status (fst (GeminiTest.POST request_json w))) [200; 400; 500]
    /\ (GeminiTest.status (fst (GeminiTest.POST request_json w)) = 200 <->
        exists body s text,
          request_json = inr body
          /\ GeminiTest.prompt body = GeminiTest.JsString s
          /\ s <> ""
          /\ Orchestrator.string_truthy (GeminiTest.GEMINI_API_KEY w) = true
          /\ GeminiTest.answers w (GeminiTest.calls w)
               (GeminiTest.modelName_of body) s = inr text)
    /\ (forall body,
          request_json = inr body ->
          GeminiTest.prompt body = GeminiTest.JsOther true ->
          GeminiTest.status (fst (GeminiTest.POST request_json w)) = 500
          /\ snd (GeminiTest.POST request_json w) = w)
    /\ (GeminiTest.calls (snd (GeminiTest.POST request_json w))
        <= GeminiTest.calls w + 1)%nat).
  { unfold GeminiTest.POST. destruct request_json as [error|body].
    - cbn. split; [tauto|]. split; [|split; [|lia]].
      + split; [discriminate|]. intros (b & s & t & H & _). discriminate H.
      + intros b H. discriminate H.
    - destruct (GeminiTest.prompt body) as [|s|truthy] eqn:Hp;
        cbn [GeminiTest.value_truthy negb].
      + cbn. split; [tauto|]. split; [|split; [|lia]].
        * split; [discriminate|].
          intros (b & s & t & Hb & H & _). inversion Hb; subst b.
          rewrite Hp in H. discriminate H.
        * intros b Hb H. inversion Hb; subst b. rewrite Hp in H.
          discriminate H.
      + destruct (String.eqb_spec s "") as [->|Hs]; cbn [negb].
        * cbn. split; [tauto|]. split; [|split; [|lia]].
          -- split; [discriminate|].
             intros (b & s & t & Hb & H & Hne & _). inversion Hb; subst b.
             rewrite Hp in H. inversion H; subst s. now contradiction Hne.
          -- intros b Hb H. inversion Hb; subst b. rewrite Hp in H.
             discriminate H.
        * destruct (Orchestrator.string_truthy (GeminiTest.GEMINI_API_KEY w))
            eqn:Hk; cbn [negb].
          -- unfold GeminiTest.Date_now, GeminiTest.generateContent.
             cbn [GeminiTest.answers GeminiTest.calls].
             destruct (GeminiTest.answers w (GeminiTest.calls w)
                         (GeminiTest.modelName_of body) s)
               as [error|text] eqn:Ea; cbn.
             ++ split; [tauto|]. split; [|split; [|lia]].
                ** split; [discriminate|].
                   intros (b & s' & t & Hb & H & _ & _ & Ht).
                   inversion Hb; subst b. rewrite Hp in H.
                   inversion H; subst s'. rewrite Ea in Ht. discriminate Ht.
                ** intros b Hb H. inversion Hb; subst b. rewrite Hp in H.
                   discriminate H.
             ++ split; [tauto|]. split; [|split; [|lia]].
                ** split; [|reflexivity]. intros _. exists body, s, text. auto.
                ** intros b Hb H. inversion Hb; subst b. rewrite Hp in H.
                   discriminate H.
          -- cbn. split; [tauto|]. split; [|split; [|lia]].
             ++ split; [discriminate|].
                intros (b & s' & t & _ & _ & _ & H & _). discriminate H.
             ++ intros b Hb H. inversion Hb; subst b. rewrite Hp in H.
                discriminate H.
      + destruct truthy; cbn [negb].
        * destruct (Orchestrator.string_truthy (GeminiTest.GEMINI_API_KEY w))
            eqn:Hk; cbn [negb]; cbn.
          -- split; [tauto|]. split; [|split; [|lia]].
             ++ split; [discriminate|].
                intros (b & s' & t & Hb & H & _). inversion Hb; subst b.
                rewrite Hp in H. discriminate H.
             ++ intros b _ _. split; reflexivity.
          -- split; [tauto|]. split; [|split; [|lia]].
             ++ split; [discriminate|].
                intros (b & s' & t & Hb & H & _). inversion Hb; subst b.
                rewrite Hp in H. discriminate H.
             ++ intros b _ _. split; reflexivity.
        * cbn. split; [tauto|]. split; [|split; [|lia]].
          -- split; [discriminate|].
             intros (b & s' & t & Hb & H & _). inversion Hb; subst b.
             rewrite Hp in H. discriminate H.
          -- intros b Hb H. inversion Hb; subst b. rewrite Hp in H.
             discriminate H. }
  destruct HP as (P1 & P2 & P3 & P4).
  repeat split; try assumption; try apply P2; try apply G2;
    now apply (P3 body).
Qed.

End Test.

(** *** The properties at work *)

Section Witnesses.
Import Sample Scenario.

Lemma unusable_key_never_calls_model_witness :
  exists r w' mock,
    Orchestrator.generateItinerary parseISODate UTC_zone string braces_parse
      nonempty_schema plain_prompt no_score paris None misconfigured
    = (Normal r, w')
    /\ gemini_ix w' = gemini_ix misconfigured
    /\ Orchestrator.success r = true
    /\ Orchestrator.data r = Some (Orchestrator.MockData mock)
    /\ mm_model_version (metadata mock) = "mock-generator-v1".
Proof.
  apply (unusable_key_never_calls_model parseISODate UTC_zone string braces_parse
           nonempty_schema plain_prompt no_score paris None misconfigured).
  intros k H. inversion H. reflexivity.
Defined.

Lemma model_called_once_or_twice_witness :
  exists r w',
    Orchestrator.generateItinerary parseISODate UTC_zone string braces_parse
      nonempty_schema plain_prompt no_score paris None online
    = (Normal r, w')
    /\ gemini_ix w' = 2%nat.
Proof.
  edestruct (model_called_once_or_twice parseISODate UTC_zone string braces_parse
               nonempty_schema plain_prompt no_score paris None online
               "AIzaSySample" "Plan a trip to Paris")
    as (r & w' & E & H); try reflexivity.
  exists r, w'. split; [exact E|exact H].
Defined.

Lemma retry_returns_second_answer_witness :
  exists r w' meta,
    Orchestrator.generateItinerary parseISODate UTC_zone string braces_parse
      nonempty_schema plain_prompt no_score paris None online
    = (Normal r, w')
    /\ Orchestrator.success r = true
    /\ Orchestrator.data r = Some (Orchestrator.AiData "{itineraries:[]}" meta)
    /\ am_model_version meta = "gemini-1.5-pro"
    /\ am_api_source meta = "gemini-api"
    /\ am_confidence_score meta = lit 85 100
    /\ gemini_ix w' = 2%nat.
Proof.
  apply (retry_returns_second_answer parseISODate UTC_zone string braces_parse
           nonempty_schema plain_prompt no_score paris None online
           "AIzaSySample" "Plan a trip to Paris"
           "{}" "{}"
           (Orchestrator.mkSchemaValidation false ["itineraries: required"])
           "{itineraries:[]}" "{itineraries:[]}"
           (Orchestrator.mkSchemaValidation true []) None);
    reflexivity.
Defined.

Lemma reversed_dates_witness :
  (forall itineraryType w, exists r w' mock,
     Orchestrator.generateMockItinerary parseISODate UTC_zone string backwards
       itineraryType w = (Normal r, w')
     /\ Orchestrator.data r = Some (Orchestrator.MockData mock)
     /\ Forall (fun it =>
          Z.of_nat (length (days it))
          = ceil_div (1717545600000 - 1717200000000) msPerDay
          /\ (1 <= length (days it))%nat)
          (itineraries mock))
  /\ (exists its,
        GenerateRoute.generateMockItineraries parseISODate UTC_zone backwards
        = Normal its
        /\ length its = 3%nat
        /\ Forall (fun it => GenerateRoute.days it = []) its).
Proof.
  apply (reversed_dates parseISODate UTC_zone string backwards
           1717545600000 1717200000000);
    [reflexivity|reflexivity|vm_compute; discriminate].
Defined.

Lemma unparsable_dates_give_no_days_witness :
  (forall itineraryType w, exists r w' mock,
     Orchestrator.generateMockItinerary parseISODate UTC_zone string undated
       itineraryType w = (Normal r, w')
     /\ Orchestrator.success r = true
     /\ Orchestrator.data r = Some (Orchestrator.MockData mock)
     /\ itineraries mock <> []
     /\ Forall (fun it => days it = []) (itineraries mock))
  /\ (exists its,
        GenerateRoute.generateMockItineraries parseISODate UTC_zone undated
        = Normal its
        /\ GenerateRoute.totalCost <$> its
           = [ Math_floor (mul (budget_total undated) (lit 7 10));
               Math_floor (mul (budget_total undated) (lit 9 10));
               Math_floor (mul (budget_total undated) (lit 12 10)) ]
        /\ Forall (fun it => GenerateRoute.days it = []) its).
Proof.
  apply (unparsable_dates_give_no_days parseISODate UTC_zone string undated).
  left. reflexivity.
Defined.

Lemma zero_days_divide_the_budget_witness :
  exists its,
    GenerateRoute.generateMockItineraries parseISODate UTC_zone eve = Normal its
    /\ length its = 3%nat
    /\ Forall (fun it =>
         GenerateRoute.pricePerNight (GenerateRoute.accommodation it)
         = S754_infinity false
         /\ GenerateRoute.days it = []) its.
Proof.
  eapply (zero_days_divide_the_budget parseISODate UTC_zone eve 1717286400000);
    reflexivity.
Defined.

Lemma no_themes_cultural_or_undefined_witness :
  (forall itineraryType w, exists r w' mock,
     Orchestrator.generateMockItinerary parseISODate UTC_zone string themeless
       itineraryType w = (Normal r, w')
     /\ Orchestrator.data r = Some (Orchestrator.MockData mock)
     /\ Forall (fun it =>
          Forall (fun d =>
            act_type <$> activities d = ["sightseeing"; "cultural"]
            /\ act_name <$> activities d
               = [ "Explore " ++ destination themeless ++ " City Center";
                   "Local cultural Experience" ])
            (days it))
          (itineraries mock))
  /\ (exists its,
        GenerateRoute.generateMockItineraries parseISODate UTC_zone themeless
        = Normal its
        /\ Forall (fun it =>
             Forall (fun d =>
               GenerateRoute.activity <$> GenerateRoute.activities d
               = [ "Morning undefined exploration"; "Local cuisine lunch";
                   "Afternoon undefined activity"; "Evening leisure" ])
               (GenerateRoute.days it)) its).
Proof.
  apply (no_themes_cultural_or_undefined parseISODate UTC_zone string themeless).
  reflexivity.
Defined.

Lemma failed_regeneration_drops_entry_witness :
  TripRoutes.mockItineraries RawRequest orphaned !! "trip_1_budget"
  = Some cached_budget
  /\ TripRoutes.mockItineraries RawRequest
       (snd (TripRoutes.POST parseISODate UTC_zone RawRequest no_parse no_schema
               plain_prompt no_confidence "trip_1" "budget" orphaned))
       !! TripRoutes.itinerary_key "trip_1" "budget" = None.
Proof.
  split; [reflexivity|].
  apply (failed_regeneration_drops_entry parseISODate UTC_zone RawRequest no_parse
           no_schema plain_prompt no_confidence "trip_1" "budget" orphaned).
  vm_compute. discriminate.
Defined.

Lemma accepted_pairs_have_their_own_key_witness :
  "trip_1" = "trip_1" /\ "Budget" = "Budget".
Proof.
  apply (accepted_pairs_have_their_own_key "trip_1" "Budget" "trip_1" "Budget");
    [| |reflexivity]; (split; [discriminate|split; [discriminate|reflexivity]]).
Defined.

Lemma created_trip_can_be_fetched_witness :
  exists id st' trip,
    TripRoutes.POST_trip RawRequest validateTripRequest (Normal paris_request)
      server_0
    = (TripRoutes.json RawRequest
         (TripRoutes.CreatedBody RawRequest id "success"
            "Trip created successfully"), st')
    /\ String.prefix "trip_" id = true
    /\ TripRoutes.trip_id trip = id
    /\ TripRoutes.trip_tripRequest trip = paris
    /\ TripRoutes.trip_status trip = "created"
    /\ TripLookup.GET_by_query (Some id) (TripRoutes.mockTrips RawRequest st')
       = TripLookup.json (TripLookup.TripBody trip)
    /\ TripLookup.GET_by_path id
         (TripRoutes.held TripRoutes.AfterTrips
            (TripRoutes.mockTrips RawRequest st'))
       = TripLookup.json (TripLookup.TripBody trip)
    /\ TripLookup.GET_by_path id
         (TripRoutes.held TripRoutes.BeforeTrips
            (TripRoutes.mockTrips RawRequest st'))
       = TripLookup.mkResponse (TripLookup.ErrorBody "Trip not found") 404
    /\ TripRoutes.mockItineraries RawRequest st'
       = TripRoutes.mockItineraries RawRequest server_0
    /\ forall k, k <> id ->
         TripRoutes.mockTrips RawRequest st' !! k
         = TripRoutes.mockTrips RawRequest server_0 !! k.
Proof.
  apply (created_trip_can_be_fetched RawRequest validateTripRequest
           paris_request paris server_0).
  reflexivity.
Defined.

Lemma created_trip_gets_itineraries_witness :
  exists id st',
    TripRoutes.POST_trip RawRequest validateTripRequest (Normal paris_request)
      server_0
    = (TripRoutes.json RawRequest
         (TripRoutes.CreatedBody RawRequest id "success"
            "Trip created successfully"), st')
    /\ TripRoutes.status RawRequest
         (fst (TripRoutes.GET parseISODate UTC_zone RawRequest no_parse no_schema
                 plain_prompt no_confidence id "Premium"
                 (TripRoutes.seen_by_itinerary_route RawRequest
                    TripRoutes.AfterTrips st'))) = 200
    /\ TripRoutes.status RawRequest
         (fst (TripRoutes.GET parseISODate UTC_zone RawRequest no_parse no_schema
                 plain_prompt no_confidence id "Premium"
                 (TripRoutes.seen_by_itinerary_route RawRequest
                    TripRoutes.BeforeTrips st'))) = 404.
Proof.
  destruct (created_trip_gets_itineraries parseISODate UTC_zone RawRequest no_parse
              no_schema plain_prompt no_confidence validateTripRequest
              paris_request paris server_0 eq_refl) as (id & st' & E & H).
  exists id, st'. split; [exact E|].
  destruct (H "Premium" eq_refl) as (H1 & _ & H3).
  split; [exact H1|]. cbv zeta in H3. now rewrite H3.
Defined.


Lemma unknown_variant_shows_budget_witness :
  exists it,
    Components.targetItinerary
      (GenerateRoute.mkEntry "trip_1" paris_itineraries paris
         "2024-05-20T10:00:00.000Z") "premium"
    = Some it
    /\ GenerateRoute.id it = "budget".
Proof.
  apply (unknown_variant_shows_budget parseISODate UTC_zone paris paris_itineraries
           "trip_1" "2024-05-20T10:00:00.000Z" "premium").
  vm_compute. reflexivity.
Defined.

Lemma cards_agree_with_mock_generator_witness :
  TripRoutes.includes TripRoutes.validTypes
    (toLowerCase (Components.card_itineraryType 2)) = true
  /\ exists r w' mock it,
       Orchestrator.generateMockItinerary parseISODate UTC_zone string paris
         (Some (Components.card_itineraryType 2)) offline = (Normal r, w')
       /\ Orchestrator.data r = Some (Orchestrator.MockData mock)
       /\ itineraries mock = [it]
       /\ type it = Components.card_itineraryType 2
       /\ amount (total_cost it) = Components.estimatedCost trip_1 2
       /\ forall s e w0,
            start_date paris <> "" ->
            end_date paris <> "" ->
            parseISODate (start_date paris) = Some s ->
            parseISODate (end_date paris) = Some e ->
            s <= e ->
            Components.card_duration parseISODate trip_1 w0
            = (Normal (Some (Z.of_nat (length (days it)))), w0).
Proof.
  apply (cards_agree_with_mock_generator parseISODate UTC_zone string trip_1 2 offline).
  vm_compute. reflexivity.
Defined.

Lemma test_route_without_credential_witness :
  GeminiTest.GET unconfigured
  = (GeminiTest.mkResponse
       (GeminiTest.Failure "GEMINI_API_KEY not configured"
          (Some "Environment variable GEMINI_API_KEY is missing") None) 500,
     unconfigured)
  /\ forall body,
       exists r,
         GeminiTest.POST (inr body) unconfigured = (r, unconfigured)
         /\ GeminiTest.status r
            = (if GeminiTest.value_truthy (GeminiTest.prompt body)
               then 500 else 400).
Proof.
  apply (test_route_without_credential unconfigured). reflexivity.
Defined.

Lemma days_are_consecutive_witness :
  parseISODate (start_date paris) = Some 1717200000000
  /\ parseISODate (end_date paris) = Some 1717545600000
  /\ 1717200000000 <= 1717545600000
  /\ steady UTC_zone 1717200000000 5
  /\ exists its,
       GenerateRoute.generateMockItineraries parseISODate UTC_zone paris = Normal its
       /\ Forall (fun it =>
            GenerateRoute.day <$> GenerateRoute.days it = [1; 2; 3; 4; 5]
            /\ GenerateRoute.date <$> GenerateRoute.days it
               = ["2024-06-01"; "2024-06-02"; "2024-06-03"; "2024-06-04";
                  "2024-06-05"]) its.
Proof.
  split; [reflexivity|]. split; [reflexivity|]. split; [lia|].
  split; [intros k _; reflexivity|].
  destruct (days_are_consecutive parseISODate UTC_zone RawRequest paris 1717200000000
              1717545600000 eq_refl eq_refl ltac:(lia)
              ltac:(intros k _; reflexivity))
    as ((_ & _ & _ & its & E & Hall) & _).
  exists its. split; [exact E|].
  eapply Forall_impl; [exact Hall|]. intros it (_ & Hday & Hdate).
  split; [exact Hday|]. rewrite Hdate. vm_compute. reflexivity.
Defined.

End Witnesses.

End Further.
